(** * Kratgo, a caching reverse proxy: shallow embedding and verified properties

    The development follows the Go sources:
    - [internal/proxy/proxy.go]: [New], [getBackend], [newEvaluableExpression],
      [parseNocacheRules], [parseHeadersRules], [saveBackendResponse],
      [fetchFromBackend], [handler];
    - [modules/admin/http.go]: [invalidateView].

    Packages of the repository whose code is not among the sources (the
    [config] helpers, the rule evaluator, the cache store) and the libraries
    it links (govaluate, encoding/json) are collected in the class
    [Externals]: the functions of [proxy.go] are embedded over an arbitrary
    implementation of it, and the theorems about them hold for every
    implementation.  Module [SpecModel] gives one executable implementation,
    written after the specification, on which the statements are run. *)

From Stdlib Require Import ZArith List String Ascii Lia Permutation Bool.
From Stdlib.Strings Require Import Byte.
From stdpp Require Import base option list gmap strings.

Open Scope string_scope.
Open Scope list_scope.

(** ** Go base types *)

(** [[]byte] *)
Abbreviation bytes := (list byte).

(** Go's [error], as the message it carries ([err.Error()]). *)
Definition error := string.

#[global] Instance byte_eq_decision : EqDecision byte := byte_eq_dec.

(** [[]byte(s)] *)
Definition B (s : string) : bytes := list_byte_of_string s.

(** [string(b)] *)
Definition S2 (b : bytes) : string := string_of_list_byte b.

(** [s[i]] on a slice: [None] is the run-time panic "index out of range". *)
Definition index {A : Type} (l : list A) (i : Z) : option A :=
  if (i <? 0)%Z then None else l !! Z.to_nat i.

(** A call returned (it did not panic, its loops ended). *)
Definition returned {A : Type} (x : option A) : bool :=
  match x with Some _ => true | None => false end.

(** A call returned a value and the error [nil]; a call returned an error. *)
Definition returnedNil {A : Type} (x : option (A * option error)) : bool :=
  match x with Some (_, None) => true | _ => false end.

Definition returnedError {A : Type} (x : option (A * option error)) : bool :=
  match x with Some (_, Some _) => true | _ => false end.

(** The same for a call that also returns a state. *)
Definition endedNil {A G : Type} (x : option (A * option error * G)) : bool :=
  match x with Some (_, None, _) => true | _ => false end.

Definition endedError {A G : Type} (x : option (A * option error * G)) : bool :=
  match x with Some (_, Some _, _) => true | _ => false end.

(** A constructor returned [nil] and an error. *)
Definition refused {A : Type} (x : option (result A error)) : bool :=
  match x with Some (Error _) => true | _ => false end.

(** Multiplication of two [int64] ([time.Duration]) values, with wrap-around. *)
Definition mul64 (a b : Z) : Z :=
  ((a * b + 2 ^ 63) mod 2 ^ 64 - 2 ^ 63)%Z.

(** ** Package [strings] of the Go library *)

Module GoStrings.

(** The scan of [strings.Replace] for a non-empty [old]: [limit] is the
    number of replacements still allowed ([None]: no limit), [skip] the
    number of characters of a replaced occurrence still to pass over. *)
Fixpoint replaceFrom (old new : string) (limit : option nat) (skip : nat)
    (s : string) : string :=
  match s with
  | EmptyString => EmptyString
  | String c s' =>
      match skip with
      | S k => replaceFrom old new limit k s'
      | O =>
          match limit with
          | Some O => s
          | _ =>
              if String.prefix old s
              then new +:+ replaceFrom old new (pred <$> limit)
                             (String.length old - 1) s'
              else String c (replaceFrom old new limit 0 s')
          end
      end
  end.

(** [strings.Replace] for an empty [old]: [new] goes in front of the string
    and after each character, as long as [limit] allows; the text is taken
    as ASCII, one byte a rune. *)
Fixpoint insertFrom (new : string) (limit : option nat) (s : string) : string :=
  match limit with
  | Some O => s
  | _ =>
      new +:+ match s with
              | EmptyString => EmptyString
              | String c s' => String c (insertFrom new (pred <$> limit) s')
              end
  end.

(** [strings.Replace(s, old, new, n)]: the first [n] non-overlapping
    instances of [old] replaced by [new], all of them when [n < 0]. *)
Definition Replace (s old new : string) (n : Z) : string :=
  if bool_decide (old = new) || (n =? 0)%Z then s
  else
    let limit := if (n <? 0)%Z then None else Some (Z.to_nat n) in
    match old with
    | EmptyString => insertFrom new limit s
    | _ => replaceFrom old new limit 0 s
    end.

(** [strings.HasPrefix(s, prefix)] *)
Definition HasPrefix (s prefix : string) : bool := String.prefix prefix s.

(** [strings.ContainsRune(s, c)] on ASCII text. *)
Fixpoint ContainsRune (s : string) (c : ascii) : bool :=
  match s with
  | EmptyString => false
  | String d s' => Ascii.eqb d c || ContainsRune s' c
  end.

End GoStrings.

(** ** Package [fasthttp], as far as the proxy uses it *)

Module fasthttp.

Definition StatusOK : Z := 200.
Definition StatusInternalServerError : Z := 500.

(** Header lines, in order. *)
Definition args := list (bytes * bytes).

(** [Peek]: the value of the first line with this key, empty when absent. *)
Fixpoint Peek (h : args) (key : bytes) : bytes :=
  match h with
  | [] => []
  | (k, v) :: h' => if bool_decide (k = key) then v else Peek h' key
  end.

(** [SetCanonical]: overwrite the line with this key, or add one. *)
Fixpoint SetCanonical (h : args) (key value : bytes) : args :=
  match h with
  | [] => [(key, value)]
  | (k, v) :: h' =>
      if bool_decide (k = key) then (k, value) :: h'
      else (k, v) :: SetCanonical h' key value
  end.

(** [Del]: remove the lines with this key. *)
Definition Del (h : args) (key : bytes) : args :=
  filter (fun kv => kv.1 <> key) h.

Record RequestHeader := mkRequestHeader {
  Method : bytes;
  Host : bytes;
  RequestURI : bytes;
  reqLines : args;
  reqCookies : args
}.

Record Request := mkRequest {
  ReqHeader : RequestHeader;
  ReqBody : bytes
}.

(** The status code is a field of the response header; 0 is "not set". *)
Record ResponseHeader := mkResponseHeader {
  statusCode : Z;
  respLines : args
}.

Record Response := mkResponse {
  RespHeader : ResponseHeader;
  body : bytes
}.

Record RequestCtx := mkRequestCtx {
  CtxRequest : Request;
  CtxResponse : Response
}.

(** A request context as the server hands it to the handler. *)
Definition zeroResponse : Response :=
  {| RespHeader := {| statusCode := 0; respLines := [] |}; body := [] |}.

Definition zeroRequest : Request :=
  {| ReqHeader := {| Method := []; Host := []; RequestURI := []; reqLines := [];
                     reqCookies := [] |};
     ReqBody := [] |}.

(** [resp.StatusCode()]: 200 unless a status was set. *)
Definition StatusCode (r : Response) : Z :=
  if (statusCode (RespHeader r) =? 0)%Z then StatusOK else statusCode (RespHeader r).

Definition SetStatusCode (r : Response) (code : Z) : Response :=
  {| RespHeader := {| statusCode := code; respLines := respLines (RespHeader r) |};
     body := body r |}.

Definition SetBody (r : Response) (b : bytes) : Response :=
  {| RespHeader := RespHeader r; body := b |}.

Definition SetRespHeader (r : Response) (key value : bytes) : Response :=
  {| RespHeader := {| statusCode := statusCode (RespHeader r);
                      respLines := SetCanonical (respLines (RespHeader r)) key value |};
     body := body r |}.

Definition defaultContentType : bytes := B "text/plain; charset=utf-8".

(** [ctx.Error(msg, statusCode)]: the response is reset, then given the
    status, the default content type and the message as its body. *)
Definition ctx_Error (ctx : RequestCtx) (msg : string) (code : Z) : RequestCtx :=
  {| CtxRequest := CtxRequest ctx;
     CtxResponse :=
       {| RespHeader := {| statusCode := code;
                           respLines := [(B "Content-Type", defaultContentType)] |};
          body := B msg |} |}.

(** [ctx.URI().PathOriginal()], [ctx.Host()], [ctx.Method()]; the request
    line is taken without query string and fragment, so that the original
    path is the request URI as received. *)
Definition PathOriginal (ctx : RequestCtx) : bytes := RequestURI (ReqHeader (CtxRequest ctx)).
Definition CtxHost (ctx : RequestCtx) : bytes := Host (ReqHeader (CtxRequest ctx)).
Definition CtxMethod (ctx : RequestCtx) : bytes := Method (ReqHeader (CtxRequest ctx)).

End fasthttp.

(** ** Package [cache]: the data held for a host *)

Module cache.

(** [cache.ResponseHeader], [cache.Response], [cache.Entry]: the fields are
    those [proxy.go] reads and writes ([r.Path], [r.Body], [r.Headers],
    [h.Key], [h.Value]); a cached response has no status code. *)
Record ResponseHeader := mkResponseHeader {
  Key : bytes;
  Value : bytes
}.

Record Response := mkResponse {
  Path : bytes;
  Body : bytes;
  Headers : list ResponseHeader
}.

Record Entry := mkEntry {
  Responses : list Response
}.

(** [cache.AcquireResponse()], [cache.AcquireEntry()], [entry.Reset()] *)
Definition AcquireResponse : Response := {| Path := []; Body := []; Headers := [] |}.
Definition AcquireEntry : Entry := {| Responses := [] |}.

(** Modelled from the spec: [Response.SetHeader], missing from the sources;
    the headers of a response are an ordered sequence of (key, value), a
    header set on it is added at the end. *)
Definition SetHeader (r : Response) (k v : bytes) : Response :=
  {| Path := Path r; Body := Body r; Headers := Headers r ++ [mkResponseHeader k v] |}.

(** Modelled from the spec: [Entry.GetResponse], missing from the sources;
    the response of the entry whose [Path] byte-equals the given path, if
    there is one ([None] is Go's [nil]). *)
Definition GetResponse (e : Entry) (path : bytes) : option Response :=
  List.find (fun r => bool_decide (Path r = path)) (Responses e).

(** Modelled from the spec: [Entry.SetResponse], missing from the sources;
    the new response is appended, replacing any response of the entry with
    the same path. *)
Fixpoint setResponse (l : list Response) (r : Response) : list Response :=
  match l with
  | [] => [r]
  | r' :: l' =>
      if bool_decide (Path r' = Path r) then r :: l' else r' :: setResponse l' r
  end.

Definition SetResponse (e : Entry) (r : Response) : Entry :=
  {| Responses := setResponse (Responses e) r |}.

(** [cache.Config], as [New] of the proxy fills it. *)
Record Config := mkConfig {
  TTL : Z;
  CleanFrequency : Z;
  MaxEntries : Z;
  MaxEntrySize : Z;
  HardMaxCacheSize : Z;
  Verbose : bool;
  LogLevel : string;
  LogOutput : string
}.

End cache.

(** ** Package [config]: the configuration file *)

Module config.

Record Header := mkHeader {
  Name : string;
  Value : string;
  When : string
}.

Record ProxyResponseHeaders := mkProxyResponseHeaders {
  Set_ : list Header;
  Unset : list Header
}.

Record Proxy := mkProxy {
  Addr : string;
  BackendsAddrs : list string;
  ResponseHeaders : ProxyResponseHeaders;
  Nocache : list string
}.

Record Cache := mkCache {
  TTL : Z;
  CleanFrequency : Z;
  MaxEntries : Z;
  MaxEntrySize : Z;
  HardMaxCacheSize : Z
}.

Record Invalidator := mkInvalidator {
  InvAddr : string;
  MaxWorkers : Z
}.

Record Config := mkConfig {
  CfgProxy : Proxy;
  CfgCache : Cache;
  CfgInvalidator : Invalidator;
  LogLevel : string;
  LogOutput : string
}.

(** The configuration [c] with another list of backend addresses. *)
Definition withBackendsAddrs (c : Config) (addrs : list string) : Config :=
  {| CfgProxy := {| Addr := Addr (CfgProxy c);
                    BackendsAddrs := addrs;
                    ResponseHeaders := ResponseHeaders (CfgProxy c);
                    Nocache := Nocache (CfgProxy c) |};
     CfgCache := CfgCache c;
     CfgInvalidator := CfgInvalidator c;
     LogLevel := LogLevel c;
     LogOutput := LogOutput c |}.

End config.

(** ** Types of package [proxy] *)

(** [ruleParam{name, subKey}] *)
Record ruleParam := mkRuleParam {
  rp_name : string;
  rp_subKey : string
}.

(** [rule{expr, params}], over the type [E] of compiled expressions. *)
Record rule (E : Type) := mkRule {
  r_expr : E;
  r_params : list ruleParam
}.
Arguments mkRule {E} _ _.
Arguments r_expr {E} _.
Arguments r_params {E} _.

(** [headerValue{value, subKey}] *)
Record headerValue := mkHeaderValue {
  hv_value : string;
  hv_subKey : string
}.

(** [headerRule{action, name, value, expr, params}]; [hr_expr] is [None]
    for the [nil] expression of a rule without condition. *)
Record headerRule (E : Type) := mkHeaderRule {
  hr_action : string;
  hr_name : string;
  hr_value : headerValue;
  hr_expr : option E;
  hr_params : list ruleParam
}.
Arguments mkHeaderRule {E} _ _ _ _ _.
Arguments hr_action {E} _.
Arguments hr_name {E} _.
Arguments hr_value {E} _.
Arguments hr_expr {E} _.
Arguments hr_params {E} _.

(** [fetcher]: the interface of a backend, its one method [Do(req, resp)],
    which fills the response and returns an error or [nil]. *)
Definition fetcher : Type :=
  fasthttp.Request -> fasthttp.Response -> fasthttp.Response * option error.

(** [httpClient{req, resp}]: the scratch request and response sent to and
    received from a backend. *)
Record httpClient := mkHttpClient {
  hc_req : fasthttp.Request;
  hc_resp : fasthttp.Response
}.

(** ** What the sources do not hold *)

Class Externals := {
  (** package [config]: the regular expression of a [$(...)] token, and the
      parser of the first token of a text, which returns the token
      ([configKey]), the identifier that stands for it ([evalKey]) and its
      sub key; [genState] is the state its fresh identifiers come from. *)
  genState : Type;
  MatchString : string -> bool;
  ParseConfigKeys : genState -> string -> (string * string * string) * genState;
  (** govaluate: compiled expressions and their compiler. *)
  EvaluableExpression : Type;
  NewEvaluableExpression : string -> result EvaluableExpression error;
  (** package [proxy], files other than [proxy.go]: the binding container
      of the tool pool and the two rule evaluators. *)
  evalParams : Type;
  acquireEvalParams : evalParams;
  checkIfNoCache :
    fasthttp.Request -> fasthttp.Response -> list (rule EvaluableExpression) ->
    evalParams -> (bool * option error) * evalParams;
  processHeaderRules :
    httpClient -> list (headerRule EvaluableExpression) -> evalParams ->
    (httpClient * option error) * evalParams;
  headerLocation : bytes;
  proxyReqHeaderKey : bytes;
  proxyReqHeaderValue : bytes;
  setHeaderAction : string;
  unsetHeaderAction : string;
  getLogOutput : string -> result string error;
  (** [fasthttp.HostClient{Addr: addr}]: the network behind an address. *)
  HostClient : string -> fetcher;
  (** package [cache]: the store. *)
  Cache : Type;
  cache_New : cache.Config -> result Cache error;
  SetBytes : Cache -> bytes -> cache.Entry -> Cache * option error;
  GetBytes : Cache -> bytes -> cache.Entry -> cache.Entry * option error
}.

(** ** Calls the proxy makes to its collaborators, in the order made *)

Inductive Event :=
| EvCheckIfNoCache (req : fasthttp.Request) (resp : fasthttp.Response)
| EvGetBytes (key : bytes)
| EvDo (req : fasthttp.Request)
| EvProcessHeaderRules
| EvSetBytes (key : bytes) (e : cache.Entry).

Definition isCheckIfNoCache (e : Event) : bool :=
  match e with EvCheckIfNoCache _ _ => true | _ => false end.

Definition isDo (e : Event) : bool :=
  match e with EvDo _ => true | _ => false end.

Definition isSetBytes (e : Event) : bool :=
  match e with EvSetBytes _ _ => true | _ => false end.

(** ** [internal/proxy/proxy.go] *)

Section Proxy.

Context {X : Externals}.

Definition Rule : Type := rule EvaluableExpression.
Definition HeaderRule : Type := headerRule EvaluableExpression.

(** The [Proxy] struct: the fields the functions below read or write (the
    server, the logger and the invalidator are handles they only pass on). *)
Record Proxy := mkProxy {
  backends : list fetcher;
  totalBackends : Z;
  currentBackend : Z;
  nocacheRules : list Rule;
  headersRules : list HeaderRule;
  p_cache : Cache;
  cfg : config.Config
}.

Definition with_currentBackend (p : Proxy) (i : Z) : Proxy :=
  mkProxy (backends p) (totalBackends p) i (nocacheRules p) (headersRules p)
          (p_cache p) (cfg p).

Definition with_nocacheRules (p : Proxy) (l : list Rule) : Proxy :=
  mkProxy (backends p) (totalBackends p) (currentBackend p) l (headersRules p)
          (p_cache p) (cfg p).

Definition with_headersRules (p : Proxy) (l : list HeaderRule) : Proxy :=
  mkProxy (backends p) (totalBackends p) (currentBackend p) (nocacheRules p) l
          (p_cache p) (cfg p).

Definition with_cache (p : Proxy) (c : Cache) : Proxy :=
  mkProxy (backends p) (totalBackends p) (currentBackend p) (nocacheRules p)
          (headersRules p) c (cfg p).

(** [proxyTools{httpClient, params, entry}] *)
Record proxyTools := mkProxyTools {
  pt_httpClient : httpClient;
  pt_params : evalParams;
  pt_entry : cache.Entry
}.

(** [acquireTools]: a bundle of the pool is either new or was reset by
    [releaseTools] before it went back, so it comes out empty. *)
Definition acquireTools : proxyTools :=
  {| pt_httpClient := {| hc_req := fasthttp.zeroRequest; hc_resp := fasthttp.zeroResponse |};
     pt_params := acquireEvalParams;
     pt_entry := cache.AcquireEntry |}.

(** [getBackend]: [None] is the panic of an index out of range. *)
Definition getBackend (p : Proxy) : option (fetcher * Proxy) :=
  if (totalBackends p =? 1)%Z then
    b ← index (backends p) 0; Some (b, p)
  else
    let cur := if (currentBackend p >=? totalBackends p - 1)%Z then 0%Z
               else (currentBackend p + 1)%Z in
    b ← index (backends p) cur; Some (b, with_currentBackend p cur).

(** [n] calls of [getBackend], one after the other. *)
Fixpoint getBackends (n : nat) (p : Proxy) : option (list fetcher * Proxy) :=
  match n with
  | O => Some ([], p)
  | S n' =>
      '(b, p1) ← getBackend p;
      '(bs, p2) ← getBackends n' p1;
      Some (b :: bs, p2)
  end.

(** The [for] loop of [newEvaluableExpression]; [fuel] bounds the number of
    times its condition is tested, [None] is a loop still running then. *)
Fixpoint compileLoop (fuel : nat) (g : genState) (rule : string)
    (params : list ruleParam) : option (result (string * list ruleParam) error * genState) :=
  match fuel with
  | O => None
  | S fuel' =>
      if MatchString rule then
        let '(configKey, evalKey, evalSubKey, g') := ParseConfigKeys g rule in
        if bool_decide (configKey = "") && bool_decide (evalKey = "")
           && bool_decide (evalSubKey = "")
        then Some (Error ("Invalid condition: " +:+ rule), g')
        else compileLoop fuel' g' (GoStrings.Replace rule configKey evalKey (-1))
               (params ++ [mkRuleParam evalKey evalSubKey])
      else Some (Ok (rule, params), g)
  end.

Definition newEvaluableExpression (fuel : nat) (g : genState) (rule : string)
  : option (result (EvaluableExpression * list ruleParam) error * genState) :=
  '(r, g') ← compileLoop fuel g rule [];
  match r with
  | Error e => Some (Error e, g')
  | Ok (rule', params) =>
      match NewEvaluableExpression rule' with
      | Ok expr => Some (Ok (expr, params), g')
      | Error e => Some (Error e, g')
      end
  end.

Definition ruleError (r e : string) : error :=
  "Could not get the evaluable expression for rule '" +:+ r +:+ "': " +:+ e.

(** The loop of [parseNocacheRules] over the configured rules, [acc] being
    [p.nocacheRules]. *)
Fixpoint parseNocacheLoop (fuel : nat) (g : genState) (rules : list string)
    (acc : list Rule) : option (list Rule * option error * genState) :=
  match rules with
  | [] => Some (acc, None, g)
  | ncRule :: rest =>
      '(r, g') ← newEvaluableExpression fuel g ncRule;
      match r with
      | Error e => Some (acc, Some (ruleError ncRule e), g')
      | Ok (expr, params) =>
          parseNocacheLoop fuel g' rest (acc ++ [mkRule expr ([] ++ params)])
      end
  end.

Definition parseNocacheRules (fuel : nat) (g : genState) (p : Proxy)
  : option (Proxy * option error * genState) :=
  '(rules, err, g') ←
    parseNocacheLoop fuel g (config.Nocache (config.CfgProxy (cfg p))) (nocacheRules p);
  Some (with_nocacheRules p rules, err, g').

(** The loop of [parseHeadersRules], [acc] being [p.headersRules]. *)
Fixpoint parseHeadersLoop (fuel : nat) (g : genState) (action : string)
    (headers : list config.Header) (acc : list HeaderRule)
  : option (list HeaderRule * option error * genState) :=
  match headers with
  | [] => Some (acc, None, g)
  | h :: rest =>
      '(compiled, g1) ←
        (if bool_decide (config.When h <> "") then
           '(r, g') ← newEvaluableExpression fuel g (config.When h);
           Some (match r with
                 | Error e => Error (ruleError (config.When h) e)
                 | Ok (expr, params) => Ok (Some expr, [] ++ params)
                 end, g')
         else Some (Ok (None, []), g));
      match compiled with
      | Error e => Some (acc, Some e, g1)
      | Ok (expr, params) =>
          let '(value, g2) :=
            if bool_decide (action = setHeaderAction) then
              let '(_, evalKey, evalSubKey, g') := ParseConfigKeys g1 (config.Value h) in
              if bool_decide (evalKey <> "")
              then (mkHeaderValue evalKey evalSubKey, g')
              else (mkHeaderValue (config.Value h) "", g')
            else (mkHeaderValue "" "", g1) in
          parseHeadersLoop fuel g2 action rest
            (acc ++ [mkHeaderRule action (config.Name h) value expr params])
      end
  end.

Definition parseHeadersRules (fuel : nat) (g : genState) (p : Proxy)
    (action : string) (headers : list config.Header)
  : option (Proxy * option error * genState) :=
  '(rules, err, g') ← parseHeadersLoop fuel g action headers (headersRules p);
  Some (with_headersRules p rules, err, g').

Definition minute : Z := 60000000000.

(** [New]: [Ok p] is the return of [p, nil], [Error e] that of [nil, e]. *)
Definition New (fuel : nat) (g : genState) (c : config.Config)
  : option (result Proxy error) :=
  match getLogOutput (config.LogOutput c) with
  | Error e => Some (Error e)
  | Ok logOutput =>
      let cacheCleanFrequency := config.CleanFrequency (config.CfgCache c) in
      if (cacheCleanFrequency =? 0)%Z then
        Some (Error "Cache.CleanFrequency configuration must be greater than 0")
      else
        match cache_New
                {| cache.TTL := mul64 (config.TTL (config.CfgCache c)) minute;
                   cache.CleanFrequency := mul64 cacheCleanFrequency minute;
                   cache.MaxEntries := config.MaxEntries (config.CfgCache c);
                   cache.MaxEntrySize := config.MaxEntrySize (config.CfgCache c);
                   cache.HardMaxCacheSize := config.HardMaxCacheSize (config.CfgCache c);
                   cache.Verbose := bool_decide (config.LogLevel c = "debug");
                   cache.LogLevel := config.LogLevel c;
                   cache.LogOutput := logOutput |} with
        | Error e => Some (Error e)
        | Ok store =>
            let addrs := config.BackendsAddrs (config.CfgProxy c) in
            let p := {| backends := map HostClient addrs;
                        totalBackends := Z.of_nat (length addrs);
                        currentBackend := 0;
                        nocacheRules := [];
                        headersRules := [];
                        p_cache := store;
                        cfg := c |} in
            '(p1, err, g1) ← parseNocacheRules fuel g p;
            match err with
            | Some e => Some (Error e)
            | None =>
                '(p2, err, g2) ←
                  parseHeadersRules fuel g1 p1 setHeaderAction
                    (config.Set_ (config.ResponseHeaders (config.CfgProxy (cfg p1))));
                match err with
                | Some e => Some (Error e)
                | None =>
                    '(p3, err, g3) ←
                      parseHeadersRules fuel g2 p2 unsetHeaderAction
                        (config.Unset (config.ResponseHeaders (config.CfgProxy (cfg p2))));
                    match err with
                    | Some e => Some (Error e)
                    | None => Some (Ok p3)
                    end
                end
            end
        end
  end.

End Proxy.

Section Handler.

Context {X : Externals}.

(** Modelled from the spec: [cloneHeaders(dst, src)], missing from the
    sources; the incoming request headers are cloned into the header of the
    backend request. *)
Definition cloneHeaders (dst src : fasthttp.RequestHeader) : fasthttp.RequestHeader :=
  {| fasthttp.Method := fasthttp.Method dst;
     fasthttp.Host := fasthttp.Host src;
     fasthttp.RequestURI := fasthttp.RequestURI dst;
     fasthttp.reqLines := fasthttp.reqLines src;
     fasthttp.reqCookies := fasthttp.reqCookies src |}.

(** Modelled from the spec: the accessors of [httpClient], missing from the
    sources; each passes its argument on to the scratch request or response. *)
Definition with_reqHeader (hc : httpClient) (h : fasthttp.RequestHeader) : httpClient :=
  {| hc_req := {| fasthttp.ReqHeader := h; fasthttp.ReqBody := fasthttp.ReqBody (hc_req hc) |};
     hc_resp := hc_resp hc |}.

Definition setMethodBytes (hc : httpClient) (m : bytes) : httpClient :=
  let h := fasthttp.ReqHeader (hc_req hc) in
  with_reqHeader hc
    (fasthttp.mkRequestHeader m (fasthttp.Host h) (fasthttp.RequestURI h)
       (fasthttp.reqLines h) (fasthttp.reqCookies h)).

Definition setRequestURIBytes (hc : httpClient) (uri : bytes) : httpClient :=
  let h := fasthttp.ReqHeader (hc_req hc) in
  with_reqHeader hc
    (fasthttp.mkRequestHeader (fasthttp.Method h) (fasthttp.Host h) uri
       (fasthttp.reqLines h) (fasthttp.reqCookies h)).

Definition copyReqHeaderTo (hc : httpClient) (dst : fasthttp.RequestHeader)
  : fasthttp.RequestHeader := fasthttp.ReqHeader (hc_req hc).

Definition copyRespHeaderTo (hc : httpClient) (dst : fasthttp.ResponseHeader)
  : fasthttp.ResponseHeader := fasthttp.RespHeader (hc_resp hc).

Definition respHeaderPeek (hc : httpClient) (key : bytes) : bytes :=
  fasthttp.Peek (fasthttp.respLines (fasthttp.RespHeader (hc_resp hc))) key.

Definition hc_statusCode (hc : httpClient) : Z := fasthttp.StatusCode (hc_resp hc).

Definition hc_body (hc : httpClient) : bytes := fasthttp.body (hc_resp hc).

(** Modelled from the spec: [httpClient.do(fetcher)], missing from the
    sources; the request is stamped with the header that identifies the
    proxy, then handed to the backend's [Do]. *)
Definition hc_do (hc : httpClient) (f : fetcher) : httpClient * option error :=
  let h := fasthttp.ReqHeader (hc_req hc) in
  let req :=
    {| fasthttp.ReqHeader :=
         fasthttp.mkRequestHeader (fasthttp.Method h) (fasthttp.Host h)
           (fasthttp.RequestURI h)
           (fasthttp.SetCanonical (fasthttp.reqLines h) proxyReqHeaderKey proxyReqHeaderValue)
           (fasthttp.reqCookies h);
       fasthttp.ReqBody := fasthttp.ReqBody (hc_req hc) |} in
  let '(resp, err) := f req (hc_resp hc) in
  ({| hc_req := req; hc_resp := resp |}, err).

(** The backend request as [fetchFromBackend] prepares it: the headers of
    the incoming request cloned, the method and the request URI set. *)
Definition backendRequest (ctx : fasthttp.RequestCtx) (pt : proxyTools) (path : bytes)
  : httpClient :=
  setRequestURIBytes
    (setMethodBytes
       (with_reqHeader (pt_httpClient pt)
          (cloneHeaders (fasthttp.ReqHeader (hc_req (pt_httpClient pt)))
                        (fasthttp.ReqHeader (fasthttp.CtxRequest ctx))))
       (fasthttp.CtxMethod ctx))
    path.

(** What a call of [fetchFromBackend] or [handler] leaves behind: the proxy
    (cursor and cache), the request context, the tools, the calls made. *)
Record Outcome := mkOutcome {
  o_proxy : Proxy;
  o_ctx : fasthttp.RequestCtx;
  o_tools : proxyTools;
  o_events : list Event
}.

(** [resp.Header.VisitAll(func(k, v) { r.SetHeader(k, v) })] *)
Definition visitAllSetHeader (h : fasthttp.args) (r : cache.Response) : cache.Response :=
  fold_left (fun r kv => cache.SetHeader r kv.1 kv.2) h r.

(** [saveBackendResponse]: the new cache, the entry as written, the error. *)
Definition saveBackendResponse (p : Proxy) (cacheKey path : bytes)
    (resp : fasthttp.Response) (entry : cache.Entry)
  : Proxy * cache.Entry * option error :=
  let r := cache.AcquireResponse in
  let r := {| cache.Path := cache.Path r ++ path;
              cache.Body := cache.Body r;
              cache.Headers := cache.Headers r |} in
  let r := {| cache.Path := cache.Path r;
              cache.Body := cache.Body r ++ fasthttp.body resp;
              cache.Headers := cache.Headers r |} in
  let r := visitAllSetHeader (fasthttp.respLines (fasthttp.RespHeader resp)) r in
  let entry := cache.SetResponse entry r in
  let '(c, err) := SetBytes (p_cache p) cacheKey entry in
  match err with
  | Some e =>
      (with_cache p c, entry,
       Some ("Could not save response in cache for key '" +:+ S2 cacheKey +:+ "': " +:+ e))
  | None => (with_cache p c, entry, None)
  end.

Definition with_params (pt : proxyTools) (ps : evalParams) : proxyTools :=
  mkProxyTools (pt_httpClient pt) ps (pt_entry pt).

Definition with_httpClient (pt : proxyTools) (hc : httpClient) : proxyTools :=
  mkProxyTools hc (pt_params pt) (pt_entry pt).

Definition with_entry (pt : proxyTools) (e : cache.Entry) : proxyTools :=
  mkProxyTools (pt_httpClient pt) (pt_params pt) e.

Definition with_response (ctx : fasthttp.RequestCtx) (r : fasthttp.Response)
  : fasthttp.RequestCtx :=
  {| fasthttp.CtxRequest := fasthttp.CtxRequest ctx; fasthttp.CtxResponse := r |}.

(** [fetchFromBackend]: [None] is a panic (of [getBackend]); otherwise the
    outcome and the error returned. *)
Definition fetchFromBackend (p : Proxy) (cacheKey path : bytes)
    (ctx : fasthttp.RequestCtx) (pt : proxyTools) : option (Outcome * option error) :=
  let hc := backendRequest ctx pt path in
  '(backend, p) ← getBackend p;
  let '(hc, err) := hc_do hc backend in
  let ev := [EvDo (hc_req hc)] in
  match err with
  | Some e =>
      Some (mkOutcome p ctx (with_httpClient pt hc) ev,
            Some ("Could not fetch response from backend: " +:+ e))
  | None =>
      let '(hc, err, ps) := processHeaderRules hc (headersRules p) (pt_params pt) in
      let pt := with_params (with_httpClient pt hc) ps in
      let ev := ev ++ [EvProcessHeaderRules] in
      match err with
      | Some e =>
          Some (mkOutcome p ctx pt ev, Some ("Could not process headers rules: " +:+ e))
      | None =>
          let ctx :=
            {| fasthttp.CtxRequest :=
                 {| fasthttp.ReqHeader :=
                      copyReqHeaderTo hc (fasthttp.ReqHeader (fasthttp.CtxRequest ctx));
                    fasthttp.ReqBody := fasthttp.ReqBody (fasthttp.CtxRequest ctx) |};
               fasthttp.CtxResponse :=
                 {| fasthttp.RespHeader :=
                      copyRespHeaderTo hc (fasthttp.RespHeader (fasthttp.CtxResponse ctx));
                    fasthttp.body := fasthttp.body (fasthttp.CtxResponse ctx) |} |} in
          let location := respHeaderPeek hc headerLocation in
          if (0 <? length location)%nat then Some (mkOutcome p ctx pt ev, None)
          else
            let '(noCache, err, ps) :=
              checkIfNoCache (hc_req hc) (hc_resp hc) (nocacheRules p) (pt_params pt) in
            let pt := with_params pt ps in
            let ev := ev ++ [EvCheckIfNoCache (hc_req hc) (hc_resp hc)] in
            match err with
            | Some e => Some (mkOutcome p ctx pt ev, Some e)
            | None =>
                let ctx := with_response ctx
                             (fasthttp.SetStatusCode (fasthttp.CtxResponse ctx) (hc_statusCode hc)) in
                let ctx := with_response ctx
                             (fasthttp.SetBody (fasthttp.CtxResponse ctx) (hc_body hc)) in
                if noCache
                   || negb (fasthttp.StatusCode (fasthttp.CtxResponse ctx) =? fasthttp.StatusOK)%Z
                then Some (mkOutcome p ctx pt ev, None)
                else
                  let '(p, entry, err) :=
                    saveBackendResponse p cacheKey path (fasthttp.CtxResponse ctx) (pt_entry pt) in
                  Some (mkOutcome p ctx (with_entry pt entry)
                          (ev ++ [EvSetBytes cacheKey entry]), err)
            end
      end
  end.

(** The end of [handler], from the call of [fetchFromBackend] on. *)
Definition handlerFetch (p : Proxy) (cacheKey path : bytes)
    (ctx : fasthttp.RequestCtx) (pt : proxyTools) (ev : list Event) : option Outcome :=
  '(o, err) ← fetchFromBackend p cacheKey path ctx pt;
  let ctx := match err with
             | Some e => fasthttp.ctx_Error (o_ctx o) e fasthttp.StatusInternalServerError
             | None => o_ctx o
             end in
  Some (mkOutcome (o_proxy o) ctx (o_tools o) (ev ++ o_events o)).

(** [handler]: [None] is a panic; [o_tools] are the tools as they are when
    [releaseTools] takes them back. *)
Definition handler (p : Proxy) (ctx : fasthttp.RequestCtx) : option Outcome :=
  let pt := acquireTools in
  let path := fasthttp.PathOriginal ctx in
  let cacheKey := fasthttp.CtxHost ctx in
  let '(noCache, err, ps) :=
    checkIfNoCache (fasthttp.CtxRequest ctx) (fasthttp.CtxResponse ctx)
      (nocacheRules p) (pt_params pt) in
  let pt := with_params pt ps in
  let ev := [EvCheckIfNoCache (fasthttp.CtxRequest ctx) (fasthttp.CtxResponse ctx)] in
  match err with
  | Some e =>
      let ctx := fasthttp.ctx_Error ctx e fasthttp.StatusInternalServerError in
      handlerFetch p cacheKey path ctx pt ev
  | None =>
      if negb noCache then
        let '(entry, err) := GetBytes (p_cache p) cacheKey (pt_entry pt) in
        let pt := with_entry pt entry in
        let ev := ev ++ [EvGetBytes cacheKey] in
        match err with
        | Some e =>
            let ctx := fasthttp.ctx_Error ctx e fasthttp.StatusInternalServerError in
            handlerFetch p cacheKey path ctx pt ev
        | None =>
            match cache.GetResponse (pt_entry pt) path with
            | Some r =>
                let resp := fasthttp.SetBody (fasthttp.CtxResponse ctx) (cache.Body r) in
                let resp :=
                  fold_left (fun resp h =>
                               fasthttp.SetRespHeader resp (cache.Key h) (cache.Value h))
                    (cache.Headers r) resp in
                Some (mkOutcome p (with_response ctx resp) pt ev)
            | None => handlerFetch p cacheKey path ctx pt ev
            end
        end
      else handlerFetch p cacheKey path ctx pt ev
  end.

(** What [handler] leaves behind, for a call that returned. *)
Definition outcome (p : Proxy) (ctx : fasthttp.RequestCtx) : Outcome :=
  default (mkOutcome p ctx acquireTools []) (handler p ctx).

(** What [fetchFromBackend] leaves behind and the error it returns, for a
    call that returned. *)
Definition fetched (p : Proxy) (cacheKey path : bytes) (ctx : fasthttp.RequestCtx)
    (pt : proxyTools) : Outcome * option error :=
  default (mkOutcome p ctx pt [], None) (fetchFromBackend p cacheKey path ctx pt).

End Handler.

(** ** Well-formed proxies *)

Definition isGetBytes (e : Event) : bool :=
  match e with EvGetBytes _ => true | _ => false end.

Definition isProcessHeaderRules (e : Event) : bool :=
  match e with EvProcessHeaderRules => true | _ => false end.

Section WellFormed.

Context {X : Externals}.

(** The state of the backend fields that [New] builds: [totalBackends] is
    the length of [backends], and the cursor is not negative. *)
Definition wellFormed (p : Proxy) : Prop :=
  totalBackends p = Z.of_nat (length (backends p)) /\ (0 <= currentBackend p)%Z.

(** Two proxies that differ in the cursor and the cache at most: the fields
    that a request can write. *)
Definition sameSetup (p p' : Proxy) : Prop :=
  backends p' = backends p /\ totalBackends p' = totalBackends p
  /\ nocacheRules p' = nocacheRules p /\ headersRules p' = headersRules p
  /\ cfg p' = cfg p.

(** A rule as [parseNocacheRules] builds it from its text. *)
Definition compiledFrom (fuel : nat) (s : string) (r : Rule) : Prop :=
  exists g1 g2,
    newEvaluableExpression fuel g1 s = Some (Ok (r_expr r, r_params r), g2).

(** A header rule as [parseHeadersRules] builds it from a configured
    header: the action and the name as given; no expression and no
    descriptor without a [When], the compiled [When] otherwise; the value
    resolved by [ParseConfigKeys] for the set action, empty for another. *)
Definition headerRuleFrom (fuel : nat) (action : string) (h : config.Header)
    (r : HeaderRule) : Prop :=
  hr_action r = action
  /\ hr_name r = config.Name h
  /\ (config.When h = EmptyString -> hr_expr r = None /\ hr_params r = [])
  /\ (config.When h <> EmptyString ->
      exists expr g1 g2,
        hr_expr r = Some expr
        /\ newEvaluableExpression fuel g1 (config.When h)
           = Some (Ok (expr, hr_params r), g2))
  /\ (action <> setHeaderAction -> hr_value r = mkHeaderValue EmptyString EmptyString)
  /\ (action = setHeaderAction ->
      exists g1, hr_value r
                 = let '(_, evalKey, evalSubKey, _) := ParseConfigKeys g1 (config.Value h) in
                   if bool_decide (evalKey <> EmptyString)
                   then mkHeaderValue evalKey evalSubKey
                   else mkHeaderValue (config.Value h) EmptyString).

(** [handler] on requests that arrive one after the other: the proxy each
    request leaves is the one the next request finds. *)
Fixpoint handleAll (p : Proxy) (reqs : list fasthttp.RequestCtx)
  : option (Proxy * list Outcome) :=
  match reqs with
  | [] => Some (p, [])
  | ctx :: rest =>
      o ← handler p ctx;
      '(p', os) ← handleAll (o_proxy o) rest;
      Some (p', o :: os)
  end.

(** What [handleAll] leaves behind, for requests that were all answered. *)
Definition handled (p : Proxy) (reqs : list fasthttp.RequestCtx) : Proxy * list Outcome :=
  default (p, []) (handleAll p reqs).

End WellFormed.

(** ** Package [invalidator]: the entry an administrator posts *)

Module invalidator.

Record EntryHeader := mkEntryHeader {
  Key : string;
  Value : string
}.

Record Entry := mkEntry {
  Host : string;
  Path : string;
  Header : EntryHeader
}.

(** [invalidator.AcquireEntry()] *)
Definition AcquireEntry : Entry :=
  {| Host := ""; Path := ""; Header := {| Key := ""; Value := "" |} |}.

End invalidator.

(** ** [modules/admin/http.go] *)

(** What the view calls and the sources do not hold: [json.Unmarshal] into
    an entry, and the invalidator with its [Add]. *)
Class AdminExternals := {
  json_Unmarshal : bytes -> invalidator.Entry -> invalidator.Entry * option error;
  Invalidator : Type;
  Add : Invalidator -> invalidator.Entry -> Invalidator * option error
}.

Section Admin.

Context {A : AdminExternals}.

(** The [Admin] struct, for the view: the invalidator it feeds. *)
Record Admin := mkAdmin {
  a_invalidator : Invalidator
}.

(** atreugo's [ctx.TextResponse(body, statusCode...)]: content type, status
    (200 when none is given) and body are set; it returns [nil]. *)
Definition TextResponse (ctx : fasthttp.RequestCtx) (text : string) (code : option Z)
  : fasthttp.RequestCtx * option error :=
  let r := fasthttp.CtxResponse ctx in
  let r := fasthttp.SetRespHeader r (B "Content-Type") (B "text/plain; charset=utf-8") in
  let r := fasthttp.SetStatusCode r (default fasthttp.StatusOK code) in
  let r := fasthttp.SetBody r (B text) in
  ({| fasthttp.CtxRequest := fasthttp.CtxRequest ctx; fasthttp.CtxResponse := r |}, None).

(** [invalidateView]: the invalidator and the context after the call, and
    the error the view returns to the framework. *)
Definition invalidateView (a : Admin) (ctx : fasthttp.RequestCtx)
  : Admin * fasthttp.RequestCtx * option error :=
  let entry := invalidator.AcquireEntry in
  let body := fasthttp.ReqBody (fasthttp.CtxRequest ctx) in
  let '(entry, err) := json_Unmarshal body entry in
  match err with
  | Some e => (a, ctx, Some e)
  | None =>
      let '(inv, err) := Add (a_invalidator a) entry in
      match err with
      | Some e =>
          let '(ctx, r) := TextResponse ctx e (Some 400%Z) in
          (mkAdmin inv, ctx, r)
      | None =>
          let '(ctx, r) := TextResponse ctx "OK" None in
          (mkAdmin inv, ctx, r)
      end
  end.

End Admin.

(** ** An executable implementation of what the sources do not hold *)

Module SpecModel.

(** *** Package [config] *)

(** Modelled from the spec: the identifiers of package [config] that stand
    for the tokens in a compiled rule, missing from the sources; the fixed
    variable name of each scalar parameter, the prefix of each keyed one. *)
Definition EvalMethodVar : string := "V_method".
Definition EvalHostVar : string := "V_host".
Definition EvalPathVar : string := "V_path".
Definition EvalContentTypeVar : string := "V_contentType".
Definition EvalStatusCodeVar : string := "V_statusCode".
Definition EvalReqHeaderVar : string := "V_reqHeader".
Definition EvalRespHeaderVar : string := "V_respHeader".
Definition EvalCookieVar : string := "V_cookie".

(** The text up to the first closing parenthesis. *)
Fixpoint untilClose (s : string) : option string :=
  match s with
  | EmptyString => None
  | String c s' => if Ascii.eqb c ")" then Some EmptyString else String c <$> untilClose s'
  end.

(** The inside of the first token [$(...)] of a text. *)
Fixpoint firstToken (s : string) : option string :=
  match s with
  | EmptyString => None
  | String c t =>
      match c, t with
      | "$"%char, String "("%char s' =>
          match untilClose s' with
          | Some inner => Some inner
          | None => firstToken t
          end
      | _, _ => firstToken t
      end
  end.

(** Modelled from the spec: [config.ConfigVarRegex.MatchString], missing
    from the sources; a text matches when it holds a token [$(...)]. *)
Definition MatchString (s : string) : bool :=
  match firstToken s with Some _ => true | None => false end.

(** [NAME::SUBKEY] split at the first [::]. *)
Fixpoint splitSubKey (s : string) : string * option string :=
  match s with
  | EmptyString => (EmptyString, None)
  | String c s' =>
      match c, s' with
      | ":"%char, String ":"%char rest => (EmptyString, Some rest)
      | _, _ => let '(n, k) := splitSubKey s' in (String c n, k)
      end
  end.

Definition scalarVar (name : string) : option string :=
  if bool_decide (name = "method") then Some EvalMethodVar
  else if bool_decide (name = "host") then Some EvalHostVar
  else if bool_decide (name = "path") then Some EvalPathVar
  else if bool_decide (name = "contentType") then Some EvalContentTypeVar
  else if bool_decide (name = "statusCode") then Some EvalStatusCodeVar
  else None.

Definition keyedVar (name : string) : option string :=
  if bool_decide (name = "req.header") then Some EvalReqHeaderVar
  else if bool_decide (name = "resp.header") then Some EvalRespHeaderVar
  else if bool_decide (name = "cookie") then Some EvalCookieVar
  else None.

Definition digit (n : nat) : ascii := ascii_of_nat (48 + n mod 10).

(** The two decimal digits [NN] of a generated identifier. *)
Definition twoDigits (n : nat) : string :=
  String (digit (n / 10)) (String (digit n) EmptyString).

(** Modelled from the spec: [config.ParseConfigKeys], missing from the
    sources; for the first token of the text it returns the token, its
    identifier and its sub key: the fixed variable name for a scalar
    parameter, a fresh identifier [V_reqHeader<NN>] with an ascending [NN]
    for a keyed one; an unknown name, a missing or a forbidden sub key give
    three empty strings.  The state is the next [NN]. *)
Definition ParseConfigKeys (g : nat) (s : string) : (string * string * string) * nat :=
  match firstToken s with
  | None => ((EmptyString, EmptyString, EmptyString), g)
  | Some inner =>
      let configKey := "$(" +:+ inner +:+ ")" in
      match splitSubKey inner with
      | (name, None) =>
          match scalarVar name with
          | Some v => ((configKey, v, EmptyString), g)
          | None => ((EmptyString, EmptyString, EmptyString), g)
          end
      | (name, Some sub) =>
          match keyedVar name with
          | Some v =>
              if bool_decide (sub = EmptyString)
              then ((EmptyString, EmptyString, EmptyString), g)
              else ((configKey, v +:+ twoDigits g, sub), S g)
          | None => ((EmptyString, EmptyString, EmptyString), g)
          end
      end
  end.

(** *** The expression language: the part of govaluate the rules use *)

Inductive token :=
| TIdent (x : string)
| TStr (s : string)
| TEq
| TNe
| TAnd
| TOr
| TLParen
| TRParen.

Inductive lexMode :=
| LexStart
| LexIdent (acc : string)
| LexStr (acc : string).

Definition isIdentChar (c : ascii) : bool :=
  let n := nat_of_ascii c in
  ((48 <=? n)%nat && (n <=? 57)%nat) || ((65 <=? n)%nat && (n <=? 90)%nat)
  || ((97 <=? n)%nat && (n <=? 122)%nat) || (n =? 95)%nat.

Definition snoc (s : string) (c : ascii) : string := s +:+ String c EmptyString.

(** The tokens of an expression; [None] for a text that is not one. *)
Fixpoint lex (mode : lexMode) (s : string) : option (list token) :=
  match s with
  | EmptyString =>
      match mode with
      | LexStart => Some []
      | LexIdent acc => Some [TIdent acc]
      | LexStr _ => None
      end
  | String c s' =>
      let start (_ : unit) :=
        if Ascii.eqb c " " then lex LexStart s'
        else if Ascii.eqb c "'" then lex (LexStr EmptyString) s'
        else if Ascii.eqb c "(" then cons TLParen <$> lex LexStart s'
        else if Ascii.eqb c ")" then cons TRParen <$> lex LexStart s'
        else if isIdentChar c then lex (LexIdent (String c EmptyString)) s'
        else
          match s' with
          | String d s'' =>
              if Ascii.eqb c "=" && Ascii.eqb d "=" then cons TEq <$> lex LexStart s''
              else if Ascii.eqb c "!" && Ascii.eqb d "=" then cons TNe <$> lex LexStart s''
              else if Ascii.eqb c "&" && Ascii.eqb d "&" then cons TAnd <$> lex LexStart s''
              else if Ascii.eqb c "|" && Ascii.eqb d "|" then cons TOr <$> lex LexStart s''
              else None
          | EmptyString => None
          end in
      match mode with
      | LexStart => start tt
      | LexIdent acc =>
          if isIdentChar c then lex (LexIdent (snoc acc c)) s'
          else cons (TIdent acc) <$> start tt
      | LexStr acc =>
          if Ascii.eqb c "'" then cons (TStr acc) <$> lex LexStart s'
          else lex (LexStr (snoc acc c)) s'
      end
  end.

Inductive Expr :=
| EVar (x : string)
| EStr (s : string)
| EEq (a b : Expr)
| ENe (a b : Expr)
| EAnd (a b : Expr)
| EOr (a b : Expr).

Inductive level := LOr | LAnd | LCmp | LAtom.

(** Recursive descent, [||] below [&&] below the comparisons. *)
Fixpoint parseAt (fuel : nat) (lvl : level) (ts : list token) : option (Expr * list token) :=
  match fuel with
  | O => None
  | S f =>
      match lvl with
      | LOr =>
          '(a, r) ← parseAt f LAnd ts;
          match r with
          | TOr :: r1 => '(b, r2) ← parseAt f LOr r1; Some (EOr a b, r2)
          | _ => Some (a, r)
          end
      | LAnd =>
          '(a, r) ← parseAt f LCmp ts;
          match r with
          | TAnd :: r1 => '(b, r2) ← parseAt f LAnd r1; Some (EAnd a b, r2)
          | _ => Some (a, r)
          end
      | LCmp =>
          '(a, r) ← parseAt f LAtom ts;
          match r with
          | TEq :: r1 => '(b, r2) ← parseAt f LAtom r1; Some (EEq a b, r2)
          | TNe :: r1 => '(b, r2) ← parseAt f LAtom r1; Some (ENe a b, r2)
          | _ => Some (a, r)
          end
      | LAtom =>
          match ts with
          | TIdent x :: r => Some (EVar x, r)
          | TStr s :: r => Some (EStr s, r)
          | TLParen :: r =>
              '(e, r1) ← parseAt f LOr r;
              match r1 with
              | TRParen :: r2 => Some (e, r2)
              | _ => None
              end
          | _ => None
          end
      end
  end.

(** [govaluate.NewEvaluableExpression] on that part of the language. *)
Definition NewEvaluableExpression (s : string) : result Expr error :=
  match lex LexStart s with
  | None => Error ("Invalid token in: " +:+ s)
  | Some ts =>
      match parseAt (4 * length ts + 4) LOr ts with
      | Some (e, []) => Ok e
      | _ => Error ("Unable to plan: " +:+ s)
      end
  end.

Inductive value :=
| VStr (s : string)
| VBool (b : bool).

Definition notBoolOperand (op : string) : error :=
  "Value cannot be used with the logical operator '" +:+ op +:+ "', it is not a bool".

(** [expr.Evaluate(parameters)]: an identifier without binding and an
    operand of the wrong kind are errors. *)
Fixpoint Evaluate (env : list (string * string)) (e : Expr) : result value error :=
  match e with
  | EVar x =>
      match List.find (fun kv => bool_decide (kv.1 = x)) env with
      | Some kv => Ok (VStr kv.2)
      | None => Error ("No parameter '" +:+ x +:+ "' found.")
      end
  | EStr s => Ok (VStr s)
  | EEq a b =>
      match Evaluate env a, Evaluate env b with
      | Ok (VStr x), Ok (VStr y) => Ok (VBool (bool_decide (x = y)))
      | Ok (VBool x), Ok (VBool y) => Ok (VBool (Bool.eqb x y))
      | Error e, _ => Error e
      | _, Error e => Error e
      | _, _ => Ok (VBool false)
      end
  | ENe a b =>
      match Evaluate env a, Evaluate env b with
      | Ok (VStr x), Ok (VStr y) => Ok (VBool (negb (bool_decide (x = y))))
      | Ok (VBool x), Ok (VBool y) => Ok (VBool (negb (Bool.eqb x y)))
      | Error e, _ => Error e
      | _, Error e => Error e
      | _, _ => Ok (VBool true)
      end
  | EAnd a b =>
      match Evaluate env a with
      | Ok (VBool false) => Ok (VBool false)
      | Ok (VBool true) =>
          match Evaluate env b with
          | Ok (VBool y) => Ok (VBool y)
          | Ok (VStr _) => Error (notBoolOperand "&&")
          | Error e => Error e
          end
      | Ok (VStr _) => Error (notBoolOperand "&&")
      | Error e => Error e
      end
  | EOr a b =>
      match Evaluate env a with
      | Ok (VBool true) => Ok (VBool true)
      | Ok (VBool false) =>
          match Evaluate env b with
          | Ok (VBool y) => Ok (VBool y)
          | Ok (VStr _) => Error (notBoolOperand "||")
          | Error e => Error e
          end
      | Ok (VStr _) => Error (notBoolOperand "||")
      | Error e => Error e
      end
  end.

(** *** The rule evaluator *)

Definition upperByte (b : byte) : byte :=
  let n := Byte.to_nat b in
  if (97 <=? n)%nat && (n <=? 122)%nat
  then default b (Byte.of_nat (n - 32)) else b.

(** The decimal digits of a number, most significant first. *)
Fixpoint decimalFrom (fuel n : nat) (acc : string) : string :=
  match fuel with
  | O => acc
  | S f =>
      let acc := String (digit n) acc in
      if (n <? 10)%nat then acc else decimalFrom f (n / 10) acc
  end.

Definition decimal (n : Z) : string :=
  decimalFrom (S (Z.to_nat n)) (Z.to_nat n) EmptyString.

(** Modelled from the spec: the value bound to a rule parameter, missing
    from the sources; the request method in upper case, the request host,
    the request path as received, the response content type, the decimal
    form of the response status, the first value of a request or response
    header, the value of a request cookie; a keyed parameter is known by
    the prefix of its generated identifier. *)
Definition getEvalValue (req : fasthttp.Request) (resp : fasthttp.Response)
    (p : ruleParam) : string :=
  let h := fasthttp.ReqHeader req in
  let name := rp_name p in
  if bool_decide (name = EvalMethodVar) then S2 (map upperByte (fasthttp.Method h))
  else if bool_decide (name = EvalHostVar) then S2 (fasthttp.Host h)
  else if bool_decide (name = EvalPathVar) then S2 (fasthttp.RequestURI h)
  else if bool_decide (name = EvalContentTypeVar)
  then S2 (fasthttp.Peek (fasthttp.respLines (fasthttp.RespHeader resp)) (B "Content-Type"))
  else if bool_decide (name = EvalStatusCodeVar) then decimal (fasthttp.StatusCode resp)
  else if GoStrings.HasPrefix name EvalReqHeaderVar
  then S2 (fasthttp.Peek (fasthttp.reqLines h) (B (rp_subKey p)))
  else if GoStrings.HasPrefix name EvalRespHeaderVar
  then S2 (fasthttp.Peek (fasthttp.respLines (fasthttp.RespHeader resp)) (B (rp_subKey p)))
  else if GoStrings.HasPrefix name EvalCookieVar
  then S2 (fasthttp.Peek (fasthttp.reqCookies h) (B (rp_subKey p)))
  else EmptyString.

(** The binding container: identifier and bound value. *)
Definition evalParams : Type := list (string * string).

Definition bindParams (req : fasthttp.Request) (resp : fasthttp.Response)
    (ps : list ruleParam) : evalParams :=
  map (fun p => (rp_name p, getEvalValue req resp p)) ps.

Definition notBool : error := "the rule does not evaluate to a boolean".

(** Modelled from the spec: [checkIfNoCache], missing from the sources; the
    rules are evaluated in order on the bindings of their parameters, the
    first that holds forbids caching, an evaluator error is returned. *)
Fixpoint checkIfNoCache (req : fasthttp.Request) (resp : fasthttp.Response)
    (rules : list (rule Expr)) (params : evalParams) : (bool * option error) * evalParams :=
  match rules with
  | [] => ((false, None), params)
  | r :: rest =>
      let env := bindParams req resp (r_params r) in
      match Evaluate env (r_expr r) with
      | Error e => ((false, Some e), env)
      | Ok (VStr _) => ((false, Some notBool), env)
      | Ok (VBool true) => ((true, None), env)
      | Ok (VBool false) => checkIfNoCache req resp rest env
      end
  end.

Definition setAction : string := "set".
Definition unsetAction : string := "unset".

Definition with_respLines (hc : httpClient) (l : fasthttp.args) : httpClient :=
  let r := hc_resp hc in
  {| hc_req := hc_req hc;
     hc_resp := {| fasthttp.RespHeader :=
                     {| fasthttp.statusCode := fasthttp.statusCode (fasthttp.RespHeader r);
                        fasthttp.respLines := l |};
                   fasthttp.body := fasthttp.body r |} |}.

(** The change one header rule makes to the backend response. *)
Definition applyHeaderRule (hc : httpClient) (r : headerRule Expr) : httpClient :=
  let lines := fasthttp.respLines (fasthttp.RespHeader (hc_resp hc)) in
  if bool_decide (hr_action r = setAction) then
    let v := hr_value r in
    let value :=
      if bool_decide (hv_subKey v = EmptyString) then B (hv_value v)
      else fasthttp.Peek (fasthttp.reqLines (fasthttp.ReqHeader (hc_req hc))) (B (hv_subKey v)) in
    with_respLines hc (fasthttp.SetCanonical lines (B (hr_name r)) value)
  else with_respLines hc (fasthttp.Del lines (B (hr_name r))).

(** Modelled from the spec: [httpClient.processHeaderRules], missing from
    the sources; the rules are applied in the configured order to the
    backend response, a rule with a condition only when it holds. *)
Fixpoint processHeaderRules (hc : httpClient) (rules : list (headerRule Expr))
    (params : evalParams) : (httpClient * option error) * evalParams :=
  match rules with
  | [] => ((hc, None), params)
  | r :: rest =>
      match hr_expr r with
      | None => processHeaderRules (applyHeaderRule hc r) rest params
      | Some e =>
          let env := bindParams (hc_req hc) (hc_resp hc) (hr_params r) in
          match Evaluate env e with
          | Error err => ((hc, Some err), env)
          | Ok (VStr _) => ((hc, Some notBool), env)
          | Ok (VBool true) => processHeaderRules (applyHeaderRule hc r) rest env
          | Ok (VBool false) => processHeaderRules hc rest env
          end
      end
  end.

(** *** The codec of a cache entry *)

Definition byteOf (n : nat) : byte := default "000"%byte (Byte.of_nat n).

(** A length in base 128, least significant digit first; a digit with the
    high bit set is followed by another. *)
Fixpoint putUvarint (fuel n : nat) : bytes :=
  match fuel with
  | O => [byteOf n]
  | S f =>
      if (n <? 128)%nat then [byteOf n]
      else byteOf (128 + n mod 128) :: putUvarint f (n / 128)
  end.

Definition putLen (n : nat) : bytes := putUvarint n n.

Fixpoint getLen (bs : bytes) : option (nat * bytes) :=
  match bs with
  | [] => None
  | b :: rest =>
      let v := Byte.to_nat b in
      if (v <? 128)%nat then Some (v, rest)
      else '(hi, rest') ← getLen rest; Some (v - 128 + 128 * hi, rest')
  end.

(** A length-prefixed byte sequence. *)
Definition putBytes (b : bytes) : bytes := putLen (length b) ++ b.

Definition getBytes (bs : bytes) : option (bytes * bytes) :=
  '(n, rest) ← getLen bs;
  if (n <=? length rest)%nat then Some (take n rest, drop n rest) else None.

(** [n] items read one after the other. *)
Fixpoint getMany {A : Type} (get : bytes -> option (A * bytes)) (n : nat) (bs : bytes)
  : option (list A * bytes) :=
  match n with
  | O => Some ([], bs)
  | S n' =>
      '(x, rest) ← get bs;
      '(xs, rest') ← getMany get n' rest;
      Some (x :: xs, rest')
  end.

Definition putHeader (h : cache.ResponseHeader) : bytes :=
  putBytes (cache.Key h) ++ putBytes (cache.Value h).

Definition getHeader (bs : bytes) : option (cache.ResponseHeader * bytes) :=
  '(k, rest) ← getBytes bs;
  '(v, rest') ← getBytes rest;
  Some (cache.mkResponseHeader k v, rest').

Definition putResponse (r : cache.Response) : bytes :=
  putBytes (cache.Path r) ++ putBytes (cache.Body r)
  ++ putLen (length (cache.Headers r)) ++ concat (map putHeader (cache.Headers r)).

Definition getResponse (bs : bytes) : option (cache.Response * bytes) :=
  '(p, r1) ← getBytes bs;
  '(b, r2) ← getBytes r1;
  '(n, r3) ← getLen r2;
  '(hs, r4) ← getMany getHeader n r3;
  Some (cache.mkResponse p b hs, r4).

Definition schemaVersion : byte := "001"%byte.

(** Modelled from the spec: the encoder of the cache entry codec, missing
    from the sources; a length-prefixed binary blob, the schema version
    byte at offset 0, then the responses, each with its fields in the order
    Path, Body, HeaderCount, (HeaderKey, HeaderValue)*.  The spec leaves
    the integer scheme of a length open: base 128 here, so that every
    length has a code. *)
Definition Marshal (e : cache.Entry) : bytes :=
  schemaVersion :: putLen (length (cache.Responses e))
  ++ concat (map putResponse (cache.Responses e)).

(** Modelled from the spec: the decoder of the cache entry codec, missing
    from the sources; a blob with an unknown version byte is rejected, and
    so is one that does not end with its last response. *)
Definition Unmarshal (blob : bytes) : option cache.Entry :=
  match blob with
  | [] => None
  | v :: rest =>
      if bool_decide (v = schemaVersion) then
        '(n, r1) ← getLen rest;
        '(rs, r2) ← getMany getResponse n r1;
        match r2 with
        | [] => Some (cache.mkEntry rs)
        | _ => None
        end
      else None
  end.

(** *** The cache store *)

Record Store := mkStore {
  st_config : cache.Config;
  st_data : gmap string bytes
}.

(** Modelled from the spec: [cache.New], missing from the sources; a store
    that holds nothing. *)
Definition cache_New (c : cache.Config) : result Store error :=
  Ok {| st_config := c; st_data := ∅ |}.

(** Modelled from the spec: [Cache.SetBytes], missing from the sources; the
    entry is encoded and upserted under the key, a blob of more than
    [MaxEntrySize] bytes is rejected. *)
Definition SetBytes (c : Store) (key : bytes) (e : cache.Entry) : Store * option error :=
  let blob := Marshal e in
  if (cache.MaxEntrySize (st_config c) <? Z.of_nat (length blob))%Z
  then (c, Some "entry is bigger than max entry size")
  else ({| st_config := st_config c; st_data := <[S2 key := blob]> (st_data c) |}, None).

(** Modelled from the spec: [Cache.GetBytes], missing from the sources; the
    blob under the key is decoded into the caller's entry, a key that is
    not found yields an empty entry and no error. *)
Definition GetBytes (c : Store) (key : bytes) (dst : cache.Entry) : cache.Entry * option error :=
  match st_data c !! S2 key with
  | None => (cache.AcquireEntry, None)
  | Some blob =>
      match Unmarshal blob with
      | Some e => (e, None)
      | None => (dst, Some "could not decode the cached entry")
      end
  end.

(** A network on which no backend listens. *)
Definition HostClient (addr : string) : fetcher :=
  fun _ resp => (resp, Some ("dial " +:+ addr +:+ ": connection refused")).

(** The implementation, field by field in the order of [Externals]; the
    header names and the two actions are those the spec names. *)
#[global] Instance externals : Externals :=
  Build_Externals
    nat MatchString ParseConfigKeys
    Expr NewEvaluableExpression
    evalParams [] checkIfNoCache processHeaderRules
    (B "Location") (B "X-Kratgo-Proxy") (B "true")
    setAction unsetAction
    (fun s => Ok s)
    HostClient
    Store cache_New SetBytes GetBytes.

(** *** The administration side *)

Inductive jtoken :=
| JLBrace
| JRBrace
| JColon
| JComma
| JString (s : string).

Definition quote : ascii := ascii_of_nat 34.

Definition isSpace (c : ascii) : bool :=
  Ascii.eqb c " " || (nat_of_ascii c =? 10)%nat || (nat_of_ascii c =? 9)%nat
  || (nat_of_ascii c =? 13)%nat.

(** The tokens of a JSON text made of objects and strings without escapes;
    [acc] is the string being read, if any. *)
Fixpoint jlex (acc : option string) (s : string) : option (list jtoken) :=
  match s with
  | EmptyString => match acc with None => Some [] | Some _ => None end
  | String c s' =>
      match acc with
      | Some a =>
          if Ascii.eqb c quote then cons (JString a) <$> jlex None s'
          else if Ascii.eqb c "\" then None
          else jlex (Some (snoc a c)) s'
      | None =>
          if isSpace c then jlex None s'
          else if Ascii.eqb c quote then jlex (Some EmptyString) s'
          else if Ascii.eqb c "{" then cons JLBrace <$> jlex None s'
          else if Ascii.eqb c "}" then cons JRBrace <$> jlex None s'
          else if Ascii.eqb c ":" then cons JColon <$> jlex None s'
          else if Ascii.eqb c "," then cons JComma <$> jlex None s'
          else None
      end
  end.

(** The members of an object of strings, after its opening brace. *)
Fixpoint jmembers (ts : list jtoken) : option (list (string * string) * list jtoken) :=
  match ts with
  | JString k :: JColon :: JString v :: JComma :: rest =>
      '(m, r) ← jmembers rest; Some ((k, v) :: m, r)
  | JString k :: JColon :: JString v :: JRBrace :: rest => Some ([(k, v)], rest)
  | _ => None
  end.

Definition jobject (ts : list jtoken) : option (list (string * string) * list jtoken) :=
  match ts with
  | JRBrace :: rest => Some ([], rest)
  | _ => jmembers ts
  end.

Definition lookupOr (m : list (string * string)) (k d : string) : string :=
  match List.find (fun kv => bool_decide (kv.1 = k)) (rev m) with
  | Some kv => kv.2
  | None => d
  end.

(** One member of the outer object stored into the entry. *)
Definition setString (e : invalidator.Entry) (k v : string) : option invalidator.Entry :=
  if bool_decide (k = "host")
  then Some (invalidator.mkEntry v (invalidator.Path e) (invalidator.Header e))
  else if bool_decide (k = "path")
  then Some (invalidator.mkEntry (invalidator.Host e) v (invalidator.Header e))
  else if bool_decide (k = "header") then None
  else Some e.

Definition setObject (e : invalidator.Entry) (k : string) (m : list (string * string))
  : option invalidator.Entry :=
  if bool_decide (k = "header") then
    let h := invalidator.Header e in
    Some (invalidator.mkEntry (invalidator.Host e) (invalidator.Path e)
            (invalidator.mkEntryHeader (lookupOr m "key" (invalidator.Key h))
                                       (lookupOr m "value" (invalidator.Value h))))
  else if bool_decide (k = "host") || bool_decide (k = "path") then None
  else Some e.

(** The members of the outer object, after its opening brace, stored into
    the entry one by one; the tokens must end with the object. *)
Fixpoint jentry (fuel : nat) (e : invalidator.Entry) (ts : list jtoken)
  : option invalidator.Entry :=
  match fuel with
  | O => None
  | S f =>
      match ts with
      | JString k :: JColon :: JString v :: rest =>
          e' ← setString e k v;
          match rest with
          | [JRBrace] => Some e'
          | JComma :: rest' => jentry f e' rest'
          | _ => None
          end
      | JString k :: JColon :: JLBrace :: rest =>
          '(m, rest1) ← jobject rest;
          e' ← setObject e k m;
          match rest1 with
          | [JRBrace] => Some e'
          | JComma :: rest' => jentry f e' rest'
          | _ => None
          end
      | _ => None
      end
  end.

(** [json.Unmarshal(body, entry)] on the JSON texts made of objects and
    strings without escapes; other texts are errors, the empty one among
    them. *)
Definition json_Unmarshal (body : bytes) (e : invalidator.Entry)
  : invalidator.Entry * option error :=
  match jlex None (S2 body) with
  | None => (e, Some "invalid character in JSON input")
  | Some [] => (e, Some "unexpected end of JSON input")
  | Some [JLBrace; JRBrace] => (e, None)
  | Some (JLBrace :: ts) =>
      match jentry (length ts) e ts with
      | Some e' => (e', None)
      | None => (e, Some "json: cannot unmarshal into Go value of type invalidator.Entry")
      end
  | Some _ => (e, Some "json: cannot unmarshal into Go value of type invalidator.Entry")
  end.

(** The invalidator, for [Add]: its bounded queue of entries. *)
Record Invalidator := mkInvalidator {
  capacity : nat;
  chEntries : list invalidator.Entry
}.

(** Modelled from the spec: [Invalidator.Add], missing from the sources; an
    entry without host is malformed, a full queue takes no entry, any other
    entry is put at the end of the queue. *)
Definition Add (i : Invalidator) (e : invalidator.Entry) : Invalidator * option error :=
  if bool_decide (invalidator.Host e = EmptyString) then (i, Some "the entry has no host")
  else if (capacity i <=? length (chEntries i))%nat then (i, Some "the queue is full")
  else (mkInvalidator (capacity i) (chEntries i ++ [e]), None).

#[global] Instance adminExternals : AdminExternals :=
  Build_AdminExternals json_Unmarshal Invalidator Add.

End SpecModel.

(** ** The fixtures of the repository's tests, on the implementation above *)

Module Scenario.

(** [mockBackend.Do] of the proxy tests: body, status and headers are set
    on the response, the configured error is returned. *)
Definition mockBackend (body : bytes) (headers : list (string * bytes)) (statusCode : Z)
    (err : option error) : fetcher :=
  fun _ resp =>
    (fold_left (fun r kv => fasthttp.SetRespHeader r (B kv.1) kv.2) headers
       (fasthttp.SetStatusCode (fasthttp.SetBody resp body) statusCode),
     err).

(** [testConfig] of the proxy tests, with the rules of the test at hand,
    but for [MaxEntrySize]: the tests have 20, and the store modelled here,
    which refuses an entry longer than that, would take none of the
    entries the tests write; the fixture has room for them. *)
Definition testConfig (nocache : list string) (set unset : list config.Header)
  : config.Config :=
  {| config.CfgProxy :=
       {| config.Addr := "localhost:8000";
          config.BackendsAddrs :=
            ["localhost:9990"; "localhost:9991"; "localhost:9993"; "localhost:9994"];
          config.ResponseHeaders := {| config.Set_ := set; config.Unset := unset |};
          config.Nocache := nocache |};
     config.CfgCache :=
       {| config.TTL := 10; config.CleanFrequency := 5; config.MaxEntries := 5;
          config.MaxEntrySize := 512; config.HardMaxCacheSize := 30 |};
     config.CfgInvalidator := {| config.InvAddr := "localhost:8001"; config.MaxWorkers := 1 |};
     config.LogLevel := "fatal";
     config.LogOutput := "console" |}.

(** The configuration of [TestProxy_New], case [ErrorNoBackendAddrs]
    (with the backend list of case [Ok] when [addrs] is that list). *)
Definition newConfig (addrs : list string) : config.Config :=
  config.withBackendsAddrs
    (testConfig ["$(host) == 'localhost'"]
       [config.mkHeader "X-Kratgo" "true" "$(resp.header::X-Data) == '1'"]
       [config.mkHeader "X-Data" "" "$(resp.header::X-Data) == '1'"])
    addrs.

(** A proxy without rules, for a configuration [New] does not accept. *)
Definition blankProxy (c : config.Config) : Proxy :=
  {| backends := []; totalBackends := 0; currentBackend := 0; nocacheRules := [];
     headersRules := [];
     p_cache := {| SpecModel.st_config :=
                     cache.mkConfig 0 0 0 0 0 false EmptyString EmptyString;
                   SpecModel.st_data := ∅ |};
     cfg := c |}.

(** [p, err := New(cfg)] of the tests, the identifiers counted from 0. *)
Definition newProxy (c : config.Config) : Proxy :=
  match New 16 0 c with
  | Some (Ok p) => p
  | _ => blankProxy c
  end.

(** [err == nil] for that call. *)
Definition newAccepts (c : config.Config) : bool :=
  match New 16 0 c with
  | Some (Ok _) => true
  | _ => false
  end.

(** [p.backends = []fetcher{...}; p.totalBackends = len(p.backends)] *)
Definition withBackends (p : Proxy) (bs : list fetcher) : Proxy :=
  mkProxy bs (Z.of_nat (length bs)) (currentBackend p) (nocacheRules p) (headersRules p)
          (p_cache p) (cfg p).

(** A request context as the tests build it. *)
Definition request (method host path : string) : fasthttp.RequestCtx :=
  {| fasthttp.CtxRequest :=
       {| fasthttp.ReqHeader :=
            {| fasthttp.Method := B method; fasthttp.Host := B host;
               fasthttp.RequestURI := B path; fasthttp.reqLines := [];
               fasthttp.reqCookies := [] |};
          fasthttp.ReqBody := [] |};
     fasthttp.CtxResponse := fasthttp.zeroResponse |}.

(** A request context with a posted body, for the admin view. *)
Definition post (body : string) : fasthttp.RequestCtx :=
  {| fasthttp.CtxRequest :=
       {| fasthttp.ReqHeader :=
            {| fasthttp.Method := B "POST"; fasthttp.Host := B "localhost:8001";
               fasthttp.RequestURI := B "/invalidate/"; fasthttp.reqLines := [];
               fasthttp.reqCookies := [] |};
          fasthttp.ReqBody := B body |};
     fasthttp.CtxResponse := fasthttp.zeroResponse |}.

(** The backends of the tests: one that answers 200 with a body and three
    headers ([TestProxy_fetchFromBackend], case [StatusOk]), one that
    answers with a [Location] header and the status given (case
    [StatusRedirect] has 301), one that answers 200 with [X-Data: 1], one
    that answers 200 with a body only. *)
Definition backendOk : fetcher :=
  mockBackend (B "Test Body")
    [("X-Data", B "1"); ("X-Data-2", B "2"); ("X-Data-3", B "3")] 200 None.

Definition backendRedirect (status : Z) : fetcher :=
  mockBackend (B "Test Body") [("Location", B "http://www.kratgo.com")] status None.

Definition backendData : fetcher :=
  mockBackend (B "Test Body") [("X-Data", B "1")] 200 None.

Definition backendPlain : fetcher :=
  mockBackend (B "Backend Body") [] 200 None.

(** Four backends, as [testConfig] names them. *)
Definition proxy4 : Proxy := newProxy (testConfig [] [] []).

(** No rule, one backend. *)
Definition proxyOk : Proxy :=
  withBackends (newProxy (testConfig [] [] [])) [backendOk].

Definition proxyRedirect (status : Z) : Proxy :=
  withBackends (newProxy (testConfig [] [] [])) [backendRedirect status].

(** A no-cache rule whose evaluation fails on a request and holds on the
    reply of the backend, which carries the header [X-Data: 1]. *)
Definition proxyEvalError : Proxy :=
  withBackends (newProxy (testConfig ["$(resp.header::X-Data) == '1' || $(host)"] [] []))
    [backendData].

(** The response the tests load the cache with. *)
Definition cachedResponse (cachePath : string) : cache.Response :=
  cache.SetHeader
    {| cache.Path := B cachePath; cache.Body := B "Cached Body"; cache.Headers := [] |}
    (B "X-Key") (B "1").

(** The cache loaded with a response for [cachePath] under the host
    ([TestProxy_handler], cases [ResponseFromCache] and
    [ResponseFromCacheNotFound]). *)
Definition proxyCached (host cachePath : string) : Proxy :=
  let p := withBackends (newProxy (testConfig [] [] [])) [backendPlain] in
  with_cache p
    (SetBytes (p_cache p) (B host)
       (cache.SetResponse cache.AcquireEntry (cachedResponse cachePath))).1.

(** A rule with the same keyed token written twice. *)
Definition ruleTwice : string := "$(req.header::X) == $(req.header::X)".

(** An invalidator with room for two entries. *)
Definition admin2 : Admin := mkAdmin (SpecModel.mkInvalidator 2 []).


(** A JSON string literal. *)
Definition jstr (s : string) : string :=
  String SpecModel.quote s +:+ String SpecModel.quote EmptyString.

(** The body [{"host": "www.kratgo.com", "path": "/test/"}]. *)
Definition bodyHostPath : string :=
  "{" +:+ jstr "host" +:+ ": " +:+ jstr "www.kratgo.com" +:+ ", "
  +:+ jstr "path" +:+ ": " +:+ jstr "/test/" +:+ "}".

(** The reply of the first backend to the request, as [fetchFromBackend]
    holds it after the header rules. *)
Definition reply (p : Proxy) (ctx : fasthttp.RequestCtx) (path : bytes) : httpClient :=
  match backends p with
  | b :: _ =>
      (processHeaderRules (hc_do (backendRequest ctx acquireTools path) b).1
         (headersRules p) acquireEvalParams).1.1
  | [] => pt_httpClient acquireTools
  end.

(** A backend that answers 404 ([TestProxy_fetchFromBackend], case
    [NoCacheByStatusCode]), and one that cannot be reached
    ([TestProxy_handler], case [ErrorFetchFromBackend]). *)
Definition backendNotFound : fetcher :=
  mockBackend (B "Not Found") [("X-Data", B "1")] 404 None.

Definition backendDown : fetcher := mockBackend [] [] 200 (Some "Error").

Definition proxyNotFound : Proxy :=
  withBackends (newProxy (testConfig [] [] [])) [backendNotFound].

Definition proxyDown : Proxy :=
  withBackends (newProxy (testConfig [] [] [])) [backendDown].

(** The no-cache rule of [TestProxy_handler], case
    [ResponseFromBackendByNocache]. *)
Definition proxyNocache : Proxy :=
  withBackends (newProxy (testConfig ["$(host) == 'www.kratgo.com'"] [] [])) [backendPlain].

(** Two rules that compile, on a proxy that has none yet. *)
Definition proxyTwoRules : Proxy :=
  blankProxy (testConfig ["$(host) == 'localhost'"; "$(path) == '/'"] [] []).

(** Two headers to set: one with a condition, one whose value is a token. *)
Definition headersToSet : list config.Header :=
  [config.mkHeader "X-Kratgo" "true" "$(resp.header::X-Data) == '1'";
   config.mkHeader "X-Data-Out" "$(req.header::X-In)" EmptyString].

(** A rule that does not compile, after one that does. *)
Definition proxyBadRule : Proxy :=
  blankProxy (testConfig ["$(host) == 'localhost'"; "$(foo) == 'a'"; "$(path) == '/'"] [] []).

(** A store that holds, under the host, a blob that is not an entry. *)
Definition proxyBadBlob (host : string) : Proxy :=
  with_cache proxyOk
    {| SpecModel.st_config := SpecModel.st_config (p_cache proxyOk);
       SpecModel.st_data := <[host := B "?"]> (SpecModel.st_data (p_cache proxyOk)) |}.

(** The rule of [TestProxy_newEvaluableExpression], case [combo]. *)
Definition ruleCombo : string := "$(path) == '/kratgo' && $(method) != 'GET'".

(** A configuration with another [MaxEntrySize]. *)
Definition withMaxEntrySize (c : config.Config) (n : Z) : config.Config :=
  {| config.CfgProxy := config.CfgProxy c;
     config.CfgCache :=
       {| config.TTL := config.TTL (config.CfgCache c);
          config.CleanFrequency := config.CleanFrequency (config.CfgCache c);
          config.MaxEntries := config.MaxEntries (config.CfgCache c);
          config.MaxEntrySize := n;
          config.HardMaxCacheSize := config.HardMaxCacheSize (config.CfgCache c) |};
     config.CfgInvalidator := config.CfgInvalidator c;
     config.LogLevel := config.LogLevel c;
     config.LogOutput := config.LogOutput c |}.

(** A store that takes entries of 20 bytes at most, so that it refuses the
    reply of [backendOk]. *)
Definition proxyTight : Proxy :=
  withBackends (newProxy (withMaxEntrySize (testConfig [] [] []) 20)) [backendOk].

(** A header rule that unsets [Location], and a backend that answers 200
    with a [Location] header. *)
Definition proxyUnsetLocation : Proxy :=
  withBackends
    (newProxy (testConfig [] [] [config.mkHeader "Location" EmptyString EmptyString]))
    [backendRedirect 200].

(** A no-cache rule, and a condition of a header rule, whose evaluation
    fails: the value of [$(host)] is a text, not a truth value. *)
Definition proxyRuleError : Proxy :=
  withBackends (newProxy (testConfig ["$(host)"] [] [])) [backendOk].

Definition proxyHeaderRuleError (b : fetcher) : Proxy :=
  withBackends (newProxy (testConfig [] [config.mkHeader "X-Kratgo" "true" "$(host)"] []))
    [b].

(** The request of [TestProxy_handler]. *)
Definition requestKratgo : fasthttp.RequestCtx := request "GET" "www.kratgo.com" "/test/".

(** The request of [TestProxy_fetchFromBackend] and the entry its reply
    is saved in ([TestProxy_saveBackendResponse]). *)
Definition requestTest : fasthttp.RequestCtx := request "GET" "test" "/test/".

Definition entryTest : cache.Entry :=
  cache.SetResponse cache.AcquireEntry
    (visitAllSetHeader
       [(B "X-Data", B "1"); (B "X-Data-2", B "2"); (B "X-Data-3", B "3")]
       (cache.mkResponse (B "/test/") (B "Test Body") [])).

(** Three requests, one after the other. *)
Definition threeRequests : list fasthttp.RequestCtx :=
  [request "GET" "www.kratgo.com" "/a"; request "GET" "www.kratgo.com" "/b";
   request "GET" "www.kratgo.com" "/c"].

(** A configuration with a no-cache rule that does not compile
    ([TestProxy_New], case [ErrorNocacheRules]). *)
Definition badRuleConfig : config.Config := testConfig ["$(foo) == 'a'"] [] [].

End Scenario.

(** * Properties *)

(** ** Backend selection *)

Section GetBackendProperties.

Context {X : Externals}.

Lemma index_of_nat {A : Type} (l : list A) (j : nat) : index l (Z.of_nat j) = l !! j.
Proof.
  unfold index. destruct (Z.ltb_spec (Z.of_nat j) 0); [lia|].
  now rewrite Nat2Z.id.
Qed.

Lemma getBackends_app (n m : nat) (p : Proxy) :
  getBackends (n + m) p =
  '(l1, p1) ← getBackends n p; '(l2, p2) ← getBackends m p1; Some (l1 ++ l2, p2).
Proof.
  revert p. induction n as [|n IH]; intros p; simpl.
  - destruct (getBackends m p) as [[l2 p2]|]; reflexivity.
  - destruct (getBackend p) as [[b p1]|]; simpl; [|reflexivity].
    rewrite IH. destruct (getBackends n p1) as [[l1 p2]|]; simpl; [|reflexivity].
    destruct (getBackends m p2) as [[l2 p3]|]; reflexivity.
Qed.

(** With more than one backend, a call moves the cursor to [j], the index
    after it (0 after the last), and returns the backend there. *)
Lemma getBackend_next (p : Proxy) (j : nat) (b : fetcher) :
  totalBackends p <> 1%Z ->
  (if (currentBackend p >=? totalBackends p - 1)%Z then 0%Z
   else (currentBackend p + 1)%Z) = Z.of_nat j ->
  backends p !! j = Some b ->
  getBackend p = Some (b, with_currentBackend p (Z.of_nat j)).
Proof.
  intros Hn Hj Hb. unfold getBackend.
  destruct (Z.eqb_spec (totalBackends p) 1) as [|_]; [contradiction|].
  rewrite Hj, index_of_nat, Hb. reflexivity.
Qed.

(** [m + 1] calls that do not pass the last index return the backends from
    [j] on, in order. *)
Lemma getBackends_segment (m : nat) : forall (p : Proxy) (j : nat),
  totalBackends p <> 1%Z ->
  totalBackends p = Z.of_nat (length (backends p)) ->
  (if (currentBackend p >=? totalBackends p - 1)%Z then 0%Z
   else (currentBackend p + 1)%Z) = Z.of_nat j ->
  j + S m <= length (backends p) ->
  getBackends (S m) p =
  Some (take (S m) (drop j (backends p)), with_currentBackend p (Z.of_nat (j + m))).
Proof.
  induction m as [|m IH]; intros p j Hn Ht Hj Hlen.
  - destruct (lookup_lt_is_Some_2 (backends p) j) as [b Hb]; [lia|].
    simpl. rewrite (getBackend_next p j b Hn Hj Hb). simpl.
    rewrite (drop_S _ _ _ Hb). simpl. rewrite take_0.
    now replace (j + 0) with j by lia.
  - destruct (lookup_lt_is_Some_2 (backends p) j) as [b Hb]; [lia|].
    change (getBackends (S (S m)) p)
      with ('(b, p1) ← getBackend p; '(bs, p2) ← getBackends (S m) p1; Some (b :: bs, p2)).
    rewrite (getBackend_next p j b Hn Hj Hb). cbn [mbind option_bind].
    rewrite (IH (with_currentBackend p (Z.of_nat j)) (S j)); cbn [backends totalBackends
      currentBackend with_currentBackend]; try assumption; try lia.
    + cbn [mbind option_bind]. rewrite (drop_S _ _ _ Hb).
      replace (S j + m) with (j + S m) by lia. reflexivity.
    + destruct (Z.geb_spec (Z.of_nat j) (totalBackends p - 1)); lia.
Qed.

Lemma getBackends_single (p : Proxy) (b : fetcher) (n : nat) :
  totalBackends p = 1%Z -> backends p !! 0 = Some b ->
  getBackends n p = Some (replicate n b, p).
Proof.
  intros Ht Hb. induction n as [|n IH]; [reflexivity|].
  simpl. unfold getBackend. rewrite Ht. simpl.
  change 0%Z with (Z.of_nat 0). rewrite index_of_nat, Hb. simpl.
  now rewrite IH.
Qed.

(** C5. [getBackend] returns [backends[0]] on every call when exactly one
    backend is configured; with [N > 1] backends, [N] consecutive calls,
    from any state the cursor can be in, return each of the [N] backends
    exactly once: the backends returned are a permutation of the configured
    list, and the proxy they leave is again such a state. *)
Theorem getBackend_round_robin (p : Proxy) :
  totalBackends p = Z.of_nat (length (backends p)) ->
  (0 <= currentBackend p)%Z ->
  (totalBackends p = 1%Z ->
   exists b, backends p = [b] /\
     forall n, getBackends n p = Some (replicate n b, p))
  /\
  ((1 < totalBackends p)%Z ->
   exists bs p',
     getBackends (length (backends p)) p = Some (bs, p') /\
     Permutation bs (backends p) /\
     backends p' = backends p /\
     totalBackends p' = totalBackends p /\
     (0 <= currentBackend p')%Z).
Proof.
  intros Ht Hc. split.
  - intros H1. destruct (backends p) as [|b [|b' l]] eqn:Hb; simpl in Ht; try lia.
    exists b. split; [reflexivity|]. intros n.
    apply getBackends_single; [assumption|]. now rewrite Hb.
  - intros HN.
    remember (length (backends p)) as N eqn:EN.
    assert (Hn1 : totalBackends p <> 1%Z) by lia.
    set (nx := if (currentBackend p >=? totalBackends p - 1)%Z then 0%Z
               else (currentBackend p + 1)%Z).
    assert (Hnx : (0 <= nx < Z.of_nat N)%Z).
    { subst nx. destruct (Z.geb_spec (currentBackend p) (totalBackends p - 1)); lia. }
    assert (Hj : nx = Z.of_nat (Z.to_nat nx)) by lia.
    assert (HjN : Z.to_nat nx < N) by lia.
    revert Hj HjN. generalize (Z.to_nat nx). intros j Hj HjN.
    assert (Ht' : totalBackends p = Z.of_nat (length (backends p))) by (rewrite <- EN; exact Ht).
    pose proof (getBackends_segment (N - j - 1) p j Hn1 Ht' Hj) as Hseg.
    replace (S (N - j - 1)) with (N - j) in Hseg by lia.
    specialize (Hseg ltac:(rewrite <- EN; lia)).
    rewrite take_ge in Hseg by (rewrite length_drop, <- EN; lia).
    replace (j + (N - j - 1)) with (N - 1) in Hseg by lia.
    destruct j as [|j'].
    + rewrite Nat.sub_0_r in Hseg. rewrite drop_0 in Hseg.
      eexists _, _. split; [exact Hseg|].
      split; [reflexivity|]. cbn. repeat split; lia.
    + assert (Hrun : getBackends ((N - S j') + S j') p =
                     Some (drop (S j') (backends p) ++ take (S j') (backends p),
                           with_currentBackend p (Z.of_nat (0 + j')))).
      { rewrite getBackends_app, Hseg. cbn [mbind option_bind].
        rewrite (getBackends_segment j' (with_currentBackend p (Z.of_nat (N - 1))) 0);
          cbn [backends totalBackends currentBackend with_currentBackend];
          try assumption; try (rewrite <- EN; lia).
        - cbn [mbind option_bind]. now rewrite drop_0.
        - destruct (Z.geb_spec (Z.of_nat (N - 1)) (totalBackends p - 1)); lia. }
      replace ((N - S j') + S j') with N in Hrun by lia.
      eexists _, _. split; [exact Hrun|].
      split.
      { rewrite Permutation_app_comm. now rewrite take_drop. }
      cbn. repeat split; lia.
Qed.

End GetBackendProperties.

(** ** The exchange with a backend *)

Section FetchProperties.

Context {X : Externals}.

Lemma StatusCode_nonzero (r : fasthttp.Response) : fasthttp.StatusCode r <> 0%Z.
Proof.
  unfold fasthttp.StatusCode.
  destruct (Z.eqb_spec (fasthttp.statusCode (fasthttp.RespHeader r)) 0);
    [discriminate | assumption].
Qed.

Lemma StatusCode_SetStatusCode (r : fasthttp.Response) (c : Z) (b : bytes) :
  c <> 0%Z ->
  fasthttp.StatusCode (fasthttp.SetBody (fasthttp.SetStatusCode r c) b) = c.
Proof.
  intros Hc. unfold fasthttp.StatusCode, fasthttp.SetBody, fasthttp.SetStatusCode. simpl.
  destruct (Z.eqb_spec c 0); [contradiction | reflexivity].
Qed.

Lemma getBackend_cache (p p1 : Proxy) (b : fetcher) :
  getBackend p = Some (b, p1) ->
  p_cache p1 = p_cache p /\ nocacheRules p1 = nocacheRules p
  /\ headersRules p1 = headersRules p.
Proof.
  unfold getBackend. intros H.
  destruct (totalBackends p =? 1)%Z;
    [destruct (index (backends p) 0) | destruct (index (backends p) _)];
    simpl in H; inversion H; subst; auto.
Qed.

Lemma saveBackendResponse_entry (p : Proxy) (key path : bytes)
    (resp : fasthttp.Response) (entry : cache.Entry) :
  saveBackendResponse p key path resp entry =
  (let e := cache.SetResponse entry
              (visitAllSetHeader (fasthttp.respLines (fasthttp.RespHeader resp))
                 (cache.mkResponse path (fasthttp.body resp) [])) in
   let r := SetBytes (p_cache p) key e in
   (with_cache p r.1, e,
    (fun m => "Could not save response in cache for key '" +:+ S2 key +:+ "': " +:+ m)
      <$> r.2)).
Proof.
  unfold saveBackendResponse. simpl.
  destruct (SetBytes _ _ _) as [c [m|]]; reflexivity.
Qed.

(** Every way [fetchFromBackend] returns: the backend was called; an entry
    was written only for a reply of status 200 without [Location]; without
    a write the cache is as before; for a reply with [Location] the rules
    were not evaluated, and if nothing failed the reply's header is the
    header of the outbound response, whose body is untouched. *)
Lemma fetchFromBackend_returns (p : Proxy) (key path : bytes)
    (ctx : fasthttp.RequestCtx) (pt : proxyTools) (o : Outcome) (err : option error) :
  fetchFromBackend p key path ctx pt = Some (o, err) ->
  existsb isDo (o_events o) = true
  /\ (existsb isSetBytes (o_events o) = true ->
      hc_statusCode (pt_httpClient (o_tools o)) = fasthttp.StatusOK
      /\ length (respHeaderPeek (pt_httpClient (o_tools o)) headerLocation) = 0)
  /\ (existsb isSetBytes (o_events o) = false -> p_cache (o_proxy o) = p_cache p)
  /\ (0 < length (respHeaderPeek (pt_httpClient (o_tools o)) headerLocation) ->
      existsb isCheckIfNoCache (o_events o) = false
      /\ existsb isSetBytes (o_events o) = false
      /\ (err = None ->
          fasthttp.RespHeader (fasthttp.CtxResponse (o_ctx o))
          = fasthttp.RespHeader (hc_resp (pt_httpClient (o_tools o)))
          /\ fasthttp.body (fasthttp.CtxResponse (o_ctx o))
             = fasthttp.body (fasthttp.CtxResponse ctx))).
Proof.
  unfold fetchFromBackend. intros H.
  destruct (getBackend p) as [[backend p1]|] eqn:Hb; [|discriminate].
  apply getBackend_cache in Hb as (Hc & _ & _).
  cbn [mbind option_bind] in H.
  destruct (hc_do _ backend) as [hc1 [e|]] eqn:Hdo.
  { inversion H; subst; clear H. cbn. repeat split; try (intros; congruence); try lia. }
  destruct (processHeaderRules hc1 _ _) as [[hc2 [e|]] ps] eqn:Hph.
  { inversion H; subst; clear H. cbn. repeat split; try (intros; congruence); try lia. }
  destruct (0 <? length (respHeaderPeek hc2 headerLocation))%nat eqn:Hloc.
  { inversion H; subst; clear H. cbn. repeat split; try (intros; congruence); try lia. }
  apply Nat.ltb_ge in Hloc.
  destruct (checkIfNoCache _ _ _ _) as [[noCache [e|]] ps2] eqn:Hck.
  { inversion H; subst; clear H. cbn. repeat split; try (intros; congruence); try lia. }
  match type of H with
  | (if ?c then _ else _) = _ => destruct c eqn:Hcond
  end.
  { inversion H; subst; clear H. cbn. repeat split; try (intros; congruence); try lia. }
  rewrite saveBackendResponse_entry in H. cbv zeta in H.
  inversion H; subst; clear H. cbn.
  apply orb_false_iff in Hcond as [_ Hst]. apply negb_false_iff, Z.eqb_eq in Hst.
  cbn in Hst. rewrite StatusCode_SetStatusCode in Hst by apply StatusCode_nonzero.
  repeat split; try (intros; congruence); try lia.
Qed.

(** The request sent to the backend depends on the incoming request and on
    the scratch request of the tools only. *)
Lemma backendRequest_ext (c c' : fasthttp.RequestCtx) (pt pt' : proxyTools) (path : bytes) :
  fasthttp.CtxRequest c = fasthttp.CtxRequest c' ->
  pt_httpClient pt = pt_httpClient pt' ->
  backendRequest c pt path = backendRequest c' pt' path.
Proof.
  intros Hc Hp. unfold backendRequest, fasthttp.CtxMethod. now rewrite Hc, Hp.
Qed.

Lemma ctx_Error_ext (c c' : fasthttp.RequestCtx) (m : string) (code : Z) :
  fasthttp.CtxRequest c = fasthttp.CtxRequest c' ->
  fasthttp.ctx_Error c m code = fasthttp.ctx_Error c' m code.
Proof. intros H. unfold fasthttp.ctx_Error. now rewrite H. Qed.

(** C3, amended. For a reply that a backend gave without error, with
    [hc2] the reply as the header rules leave it: [fetchFromBackend] hands
    the response to the store (it calls [SetBytes], once, under the key of
    the request's host, with the entry of the tools in which the response
    of the path was set) if and only if the header rules ran without error,
    [hc2] has no [Location] header, the no-cache rules evaluated on it
    without error and none fired, and the status of the reply is exactly
    200.  The cache is then as [SetBytes] leaves it, and the refusal of the
    store, if any, is the error returned.  In every other case [SetBytes]
    is not called and the cache is as it was. *)
Theorem fetchFromBackend_caches_iff (p p1 : Proxy) (key path : bytes)
    (ctx : fasthttp.RequestCtx) (pt : proxyTools) (backend : fetcher)
    (hc1 hc2 : httpClient) (herr cerr : option error) (ps ps2 : evalParams)
    (noCache : bool) :
  getBackend p = Some (backend, p1) ->
  hc_do (backendRequest ctx pt path) backend = (hc1, None) ->
  processHeaderRules hc1 (headersRules p) (pt_params pt) = (hc2, herr, ps) ->
  checkIfNoCache (hc_req hc2) (hc_resp hc2) (nocacheRules p) ps = (noCache, cerr, ps2) ->
  let e := cache.SetResponse (pt_entry pt)
             (visitAllSetHeader (fasthttp.respLines (fasthttp.RespHeader (hc_resp hc2)))
                (cache.mkResponse path (hc_body hc2) [])) in
  exists o err,
    fetchFromBackend p key path ctx pt = Some (o, err)
    /\ (existsb isSetBytes (o_events o) = true
        <-> herr = None
            /\ length (respHeaderPeek hc2 headerLocation) = 0
            /\ cerr = None /\ noCache = false
            /\ hc_statusCode hc2 = fasthttp.StatusOK)
    /\ (existsb isSetBytes (o_events o) = true ->
        List.filter isSetBytes (o_events o) = [EvSetBytes key e]
        /\ p_cache (o_proxy o) = (SetBytes (p_cache p) key e).1
        /\ err = (fun m => "Could not save response in cache for key '"
                           +:+ S2 key +:+ "': " +:+ m)
                   <$> (SetBytes (p_cache p) key e).2)
    /\ (existsb isSetBytes (o_events o) = false ->
        p_cache (o_proxy o) = p_cache p
        /\ (herr = None ->
            0 < length (respHeaderPeek hc2 headerLocation) \/ cerr = None ->
            err = None)).
Proof.
  intros Hb Hdo Hph Hck e.
  destruct (getBackend_cache _ _ _ Hb) as (Hc & Hnc & Hhr).
  unfold fetchFromBackend. rewrite Hb. cbn [mbind option_bind].
  rewrite Hdo, Hhr, Hph.
  destruct herr as [he|].
  { eexists _, _. split; [reflexivity|]. cbn.
    split; [split; [discriminate | intros (Hq & _); discriminate Hq]|].
    split; [discriminate|]. split; [exact Hc | discriminate]. }
  destruct (Nat.ltb_spec 0 (length (respHeaderPeek hc2 headerLocation))) as [Hloc|Hloc].
  { eexists _, _. split; [reflexivity|]. cbn.
    split; [split; [discriminate | intros (_ & Hq & _); lia]|].
    split; [discriminate|]. split; [exact Hc | reflexivity]. }
  assert (Hloc0 : length (respHeaderPeek hc2 headerLocation) = 0) by lia.
  cbn [pt_params with_params with_httpClient].
  rewrite Hnc, Hck.
  destruct cerr as [ce|].
  { eexists _, _. split; [reflexivity|]. cbn.
    split; [split; [discriminate | intros (_ & _ & Hq & _); discriminate Hq]|].
    split; [discriminate|]. split; [exact Hc|]. intros _ [Hq|Hq]; [lia | discriminate Hq]. }
  cbn [fasthttp.CtxResponse with_response].
  match goal with
  | |- context [fasthttp.StatusCode ?r] =>
      replace (fasthttp.StatusCode r) with (hc_statusCode hc2)
        by (symmetry; apply StatusCode_SetStatusCode, StatusCode_nonzero)
  end.
  destruct noCache; cbn [orb].
  { eexists _, _. split; [reflexivity|]. cbn.
    split; [split; [discriminate | intros (_ & _ & _ & Hq & _); discriminate Hq]|].
    split; [discriminate|]. split; [exact Hc | reflexivity]. }
  destruct (Z.eqb_spec (hc_statusCode hc2) fasthttp.StatusOK) as [Hs|Hs]; cbn [negb].
  - rewrite saveBackendResponse_entry. cbv zeta.
    eexists _, _. split; [reflexivity|].
    cbn [o_events o_proxy pt_entry with_params with_httpClient p_cache with_cache
         fasthttp.CtxResponse fasthttp.RespHeader fasthttp.body fasthttp.SetBody
         fasthttp.SetStatusCode fasthttp.respLines copyRespHeaderTo].
    rewrite !existsb_app. cbn [existsb isSetBytes orb]. rewrite ?orb_true_r.
    split; [split; [auto | reflexivity]|].
    split; [|discriminate].
    intros _. rewrite Hc. subst e. cbn [hc_body]. auto.
  - eexists _, _. split; [reflexivity|]. cbn.
    split; [split; [discriminate | intros (_ & _ & _ & _ & Hq); contradiction]|].
    split; [discriminate|]. split; [exact Hc | reflexivity].
Qed.

End FetchProperties.

(** ** Calls that return *)

Section Returned.

Context {X : Externals}.

Lemma handler_outcome (p : Proxy) (ctx : fasthttp.RequestCtx) :
  returned (handler p ctx) = true -> handler p ctx = Some (outcome p ctx).
Proof. unfold outcome. destruct (handler p ctx); [reflexivity | discriminate]. Qed.

Lemma fetchFromBackend_fetched (p : Proxy) (key path : bytes) (ctx : fasthttp.RequestCtx)
    (pt : proxyTools) :
  returned (fetchFromBackend p key path ctx pt) = true ->
  fetchFromBackend p key path ctx pt = Some (fetched p key path ctx pt).
Proof.
  unfold fetched. destruct (fetchFromBackend p key path ctx pt); [reflexivity | discriminate].
Qed.

(** With one backend configured, [getBackend] returns it and leaves the
    proxy as it is. *)
Lemma getBackend_one (p : Proxy) (b : fetcher) (l : list fetcher) :
  totalBackends p = 1%Z -> backends p = b :: l -> getBackend p = Some (b, p).
Proof.
  intros Ht Hb. unfold getBackend. rewrite Ht, Hb. reflexivity.
Qed.

Lemma handleAll_handled (p : Proxy) (reqs : list fasthttp.RequestCtx) :
  returned (handleAll p reqs) = true ->
  handleAll p reqs = Some ((handled p reqs).1, (handled p reqs).2).
Proof.
  unfold handled. destruct (handleAll p reqs) as [[p' os]|]; [reflexivity | discriminate].
Qed.

End Returned.

(** ** The request handler *)

Section HandlerProperties.

Context {X : Externals}.

Lemma existsb_app_events (f : Event -> bool) (l1 l2 : list Event) :
  existsb f (l1 ++ l2) = existsb f l1 || existsb f l2.
Proof. apply existsb_app. Qed.

(** The end of [handler] returns what [fetchFromBackend] returns, the
    events so far in front, the error turned into the response 500. *)
Lemma handlerFetch_returns (p : Proxy) (key path : bytes) (ctx : fasthttp.RequestCtx)
    (pt : proxyTools) (ev : list Event) (o : Outcome) :
  handlerFetch p key path ctx pt ev = Some o ->
  exists o' err,
    fetchFromBackend p key path ctx pt = Some (o', err)
    /\ o_proxy o = o_proxy o' /\ o_tools o = o_tools o'
    /\ o_events o = ev ++ o_events o'
    /\ o_ctx o = match err with
                 | Some e => fasthttp.ctx_Error (o_ctx o') e fasthttp.StatusInternalServerError
                 | None => o_ctx o'
                 end.
Proof.
  unfold handlerFetch. intros H.
  destruct (fetchFromBackend p key path ctx pt) as [[o' err]|]; [|discriminate].
  simpl in H. inversion H; subst; clear H. exists o', err. simpl. auto.
Qed.

Lemma handlerFetch_progress (p : Proxy) (key path : bytes) (ctx : fasthttp.RequestCtx)
    (pt : proxyTools) (ev : list Event) :
  is_Some (getBackend p) -> is_Some (handlerFetch p key path ctx pt ev).
Proof.
  intros [[b p1] Hb]. unfold handlerFetch, fetchFromBackend. rewrite Hb.
  cbn [mbind option_bind].
  destruct (hc_do _ b) as [hc1 [e|]]; [eexists; reflexivity|].
  destruct (processHeaderRules hc1 _ _) as [[hc2 [e|]] ps]; [eexists; reflexivity|].
  destruct (0 <? length (respHeaderPeek hc2 headerLocation))%nat; [eexists; reflexivity|].
  destruct (checkIfNoCache _ _ _ _) as [[noCache [e|]] ps2]; [eexists; reflexivity|].
  match goal with |- context [if ?c then _ else _] => destruct c end;
    [eexists; reflexivity|].
  destruct (saveBackendResponse _ _ _ _ _) as [[p2 en] er]. eexists; reflexivity.
Qed.

Lemma statusCode_fold_SetRespHeader (hs : list cache.ResponseHeader) (r : fasthttp.Response) :
  fasthttp.StatusCode
    (fold_left (fun resp h => fasthttp.SetRespHeader resp (cache.Key h) (cache.Value h)) hs r)
  = fasthttp.StatusCode r
  /\ fasthttp.body
       (fold_left (fun resp h => fasthttp.SetRespHeader resp (cache.Key h) (cache.Value h)) hs r)
     = fasthttp.body r.
Proof.
  revert r. induction hs as [|h hs IH]; intros r; simpl; [auto|].
  destruct (IH (fasthttp.SetRespHeader r (cache.Key h) (cache.Value h))) as [H1 H2].
  rewrite H1, H2. auto.
Qed.

Lemma GetResponse_Some_iff (e : cache.Entry) (path : bytes) :
  (exists r, cache.GetResponse e path = Some r)
  <-> (exists r, In r (cache.Responses e) /\ cache.Path r = path).
Proof.
  unfold cache.GetResponse. split.
  - intros [r Hr]. apply find_some in Hr as [Hin Hp].
    exists r. split; [assumption|]. now apply bool_decide_eq_true in Hp.
  - intros [r [Hin Hp]].
    destruct (find _ (cache.Responses e)) as [r'|] eqn:Hf; [eauto|].
    exfalso. apply (find_none _ _ Hf) in Hin.
    apply bool_decide_eq_false in Hin. contradiction.
Qed.

(** Every way [handler] returns without a call of a backend: no rule
    fired, the cache gave an entry without error, and the entry holds a
    response for the path, which is served. *)
Lemma handler_hit (p : Proxy) (ctx : fasthttp.RequestCtx) (o : Outcome) :
  handler p ctx = Some o ->
  existsb isDo (o_events o) = false ->
  exists ps entry r,
    checkIfNoCache (fasthttp.CtxRequest ctx) (fasthttp.CtxResponse ctx)
      (nocacheRules p) acquireEvalParams = (false, None, ps)
    /\ GetBytes (p_cache p) (fasthttp.CtxHost ctx) cache.AcquireEntry = (entry, None)
    /\ cache.GetResponse entry (fasthttp.PathOriginal ctx) = Some r
    /\ o = mkOutcome p
             (with_response ctx
                (fold_left (fun resp h =>
                              fasthttp.SetRespHeader resp (cache.Key h) (cache.Value h))
                   (cache.Headers r)
                   (fasthttp.SetBody (fasthttp.CtxResponse ctx) (cache.Body r))))
             (with_entry (with_params acquireTools ps) entry)
             [EvCheckIfNoCache (fasthttp.CtxRequest ctx) (fasthttp.CtxResponse ctx);
              EvGetBytes (fasthttp.CtxHost ctx)].
Proof.
  unfold handler. intros H Hdo.
  assert (Hfetch : forall key path c pt ev,
             handlerFetch p key path c pt ev = Some o -> False).
  { intros key path c pt ev Hf.
    apply handlerFetch_returns in Hf as (o' & err & Hf & _ & _ & Hev & _).
    apply fetchFromBackend_returns in Hf as (Hd & _).
    rewrite Hev, existsb_app_events, Hd, orb_true_r in Hdo. discriminate. }
  cbn [pt_params acquireTools] in H.
  destruct (checkIfNoCache _ _ _ _) as [[noCache [e|]] ps] eqn:Hck.
  { exfalso. eapply Hfetch, H. }
  destruct noCache; cbn [negb] in H.
  { exfalso. eapply Hfetch, H. }
  cbn [pt_entry with_params] in H.
  destruct (GetBytes _ _ _) as [entry [e|]] eqn:Hg.
  { exfalso. eapply Hfetch, H. }
  cbn [pt_entry with_entry] in H.
  destruct (cache.GetResponse entry _) as [r|] eqn:Hr.
  - inversion H; subst; clear H. exists ps, entry, r. auto.
  - exfalso. eapply Hfetch, H.
Qed.

(** Every way [handler] returns after a call of a backend: the outcome is
    that of [fetchFromBackend], after the evaluation of the rules on the
    request and, at most, a read of the cache. *)
Lemma handler_miss (p : Proxy) (ctx : fasthttp.RequestCtx) (o : Outcome) :
  handler p ctx = Some o ->
  existsb isDo (o_events o) = true ->
  exists c pt ev o' err,
    fetchFromBackend p (fasthttp.CtxHost ctx) (fasthttp.PathOriginal ctx) c pt
    = Some (o', err)
    /\ o_proxy o = o_proxy o' /\ o_tools o = o_tools o'
    /\ o_events o = ev ++ o_events o'
    /\ List.filter isCheckIfNoCache ev
       = [EvCheckIfNoCache (fasthttp.CtxRequest ctx) (fasthttp.CtxResponse ctx)]
    /\ existsb isSetBytes ev = false
    /\ o_ctx o = match err with
                 | Some e => fasthttp.ctx_Error (o_ctx o') e fasthttp.StatusInternalServerError
                 | None => o_ctx o'
                 end.
Proof.
  unfold handler. intros H Hdo.
  cbn [pt_params acquireTools] in H.
  destruct (checkIfNoCache _ _ _ _) as [[noCache [e|]] ps] eqn:Hck.
  { apply handlerFetch_returns in H as (o' & err & Hf & H1 & H2 & H3 & H4).
    eexists _, _, _, o', err. repeat split; eauto. }
  destruct noCache; cbn [negb] in H.
  { apply handlerFetch_returns in H as (o' & err & Hf & H1 & H2 & H3 & H4).
    eexists _, _, _, o', err. repeat split; eauto. }
  cbn [pt_entry with_params] in H.
  destruct (GetBytes _ _ _) as [entry [e|]] eqn:Hg.
  { apply handlerFetch_returns in H as (o' & err & Hf & H1 & H2 & H3 & H4).
    eexists _, _, _, o', err. repeat split; eauto. }
  cbn [pt_entry with_entry] in H.
  destruct (cache.GetResponse entry _) as [r|] eqn:Hr.
  - inversion H; subst; clear H. discriminate Hdo.
  - apply handlerFetch_returns in H as (o' & err & Hf & H1 & H2 & H3 & H4).
    eexists _, _, _, o', err. repeat split; eauto.
Qed.

Lemma filter_none (f : Event -> bool) (l : list Event) :
  existsb f l = false -> List.filter f l = [].
Proof.
  induction l as [|a l IH]; simpl; [reflexivity|].
  destruct (f a); simpl; [discriminate | exact IH].
Qed.

(** C2, as the code has it. When the evaluation of the no-cache rules on
    the request returns an error, [handler] sets the response 500 and then
    goes on: it calls [fetchFromBackend], so a backend receives the
    request. *)
Theorem handler_eval_error_reaches_backend (p : Proxy) (ctx : fasthttp.RequestCtx)
    (b : bool) (e : error) (ps : evalParams) :
  checkIfNoCache (fasthttp.CtxRequest ctx) (fasthttp.CtxResponse ctx)
    (nocacheRules p) acquireEvalParams = (b, Some e, ps) ->
  is_Some (getBackend p) ->
  handler p ctx
  = handlerFetch p (fasthttp.CtxHost ctx) (fasthttp.PathOriginal ctx)
      (fasthttp.ctx_Error ctx e fasthttp.StatusInternalServerError)
      (with_params acquireTools ps)
      [EvCheckIfNoCache (fasthttp.CtxRequest ctx) (fasthttp.CtxResponse ctx)]
  /\ exists o, handler p ctx = Some o /\ existsb isDo (o_events o) = true.
Proof.
  intros Hck Hb.
  assert (Hh : handler p ctx
               = handlerFetch p (fasthttp.CtxHost ctx) (fasthttp.PathOriginal ctx)
                   (fasthttp.ctx_Error ctx e fasthttp.StatusInternalServerError)
                   (with_params acquireTools ps)
                   [EvCheckIfNoCache (fasthttp.CtxRequest ctx) (fasthttp.CtxResponse ctx)]).
  { unfold handler. cbn [pt_params acquireTools]. rewrite Hck. reflexivity. }
  split; [exact Hh|].
  destruct (handlerFetch_progress p (fasthttp.CtxHost ctx) (fasthttp.PathOriginal ctx)
              (fasthttp.ctx_Error ctx e fasthttp.StatusInternalServerError)
              (with_params acquireTools ps)
              [EvCheckIfNoCache (fasthttp.CtxRequest ctx) (fasthttp.CtxResponse ctx)] Hb)
    as [o Ho].
  exists o. rewrite Hh. split; [exact Ho|].
  apply handlerFetch_returns in Ho as (o' & err & Hf & _ & _ & Hev & _).
  apply fetchFromBackend_returns in Hf as (Hd & _).
  now rewrite Hev, existsb_app_events, Hd, orb_true_r.
Qed.

(** The end of [handler] for a reply that has a [Location] header after
    the header rules: [fetchFromBackend] returns [nil] at once, with the
    header of the reply copied to the response and nothing else done. *)
Lemma handlerFetch_location (p p1 : Proxy) (key path : bytes) (c : fasthttp.RequestCtx)
    (pt : proxyTools) (ev : list Event) (backend : fetcher) (hc1 hc2 : httpClient)
    (ps2 : evalParams) :
  getBackend p = Some (backend, p1) ->
  hc_do (backendRequest c pt path) backend = (hc1, None) ->
  processHeaderRules hc1 (headersRules p) (pt_params pt) = (hc2, None, ps2) ->
  0 < length (respHeaderPeek hc2 headerLocation) ->
  exists o,
    handlerFetch p key path c pt ev = Some o
    /\ fasthttp.RespHeader (fasthttp.CtxResponse (o_ctx o)) = fasthttp.RespHeader (hc_resp hc2)
    /\ fasthttp.body (fasthttp.CtxResponse (o_ctx o)) = fasthttp.body (fasthttp.CtxResponse c)
    /\ o_events o = ev ++ [EvDo (hc_req hc1); EvProcessHeaderRules]
    /\ p_cache (o_proxy o) = p_cache p
    /\ pt_httpClient (o_tools o) = hc2.
Proof.
  intros Hb Hdo Hph Hloc.
  destruct (getBackend_cache _ _ _ Hb) as (Hc & _ & Hhr).
  unfold handlerFetch, fetchFromBackend. rewrite Hb. cbn [mbind option_bind].
  rewrite Hdo, Hhr, Hph.
  apply Nat.ltb_lt in Hloc. rewrite Hloc. cbn [mbind option_bind].
  eexists. split; [reflexivity|]. cbn. auto.
Qed.

(** C4, amended. When the reply of the backend, as the header rules leave
    it, has a [Location] header (the backend and the header rules having
    returned no error), the handler answers with the header of that reply,
    status and header lines, but not with its body: the body of the
    outbound response is the one the request context had before the call
    of the backend (that of the incoming context, or the text of the error
    when the handler had set a 500 on the way).  It writes nothing to the
    cache, which stays as it was, and it evaluates the no-cache rules once
    only, on the request before the exchange, never on the reply; the
    backend is called once. *)
Theorem handler_redirect_passthrough (p p1 : Proxy) (ctx : fasthttp.RequestCtx)
    (backend : fetcher) (hc1 hc2 : httpClient) (noCache : bool) (rerr : option error)
    (ps ps2 : evalParams) :
  checkIfNoCache (fasthttp.CtxRequest ctx) (fasthttp.CtxResponse ctx)
    (nocacheRules p) acquireEvalParams = (noCache, rerr, ps) ->
  (rerr = None -> noCache = false ->
   (GetBytes (p_cache p) (fasthttp.CtxHost ctx) cache.AcquireEntry).2 = None ->
   cache.GetResponse (GetBytes (p_cache p) (fasthttp.CtxHost ctx) cache.AcquireEntry).1
     (fasthttp.PathOriginal ctx) = None) ->
  getBackend p = Some (backend, p1) ->
  hc_do (backendRequest ctx acquireTools (fasthttp.PathOriginal ctx)) backend = (hc1, None) ->
  processHeaderRules hc1 (headersRules p) ps = (hc2, None, ps2) ->
  0 < length (respHeaderPeek hc2 headerLocation) ->
  exists o,
    handler p ctx = Some o
    /\ fasthttp.RespHeader (fasthttp.CtxResponse (o_ctx o)) = fasthttp.RespHeader (hc_resp hc2)
    /\ fasthttp.StatusCode (fasthttp.CtxResponse (o_ctx o)) = hc_statusCode hc2
    /\ fasthttp.body (fasthttp.CtxResponse (o_ctx o))
       = match rerr with
         | Some e => B e
         | None =>
             if noCache then fasthttp.body (fasthttp.CtxResponse ctx)
             else match (GetBytes (p_cache p) (fasthttp.CtxHost ctx) cache.AcquireEntry).2 with
                  | Some e => B e
                  | None => fasthttp.body (fasthttp.CtxResponse ctx)
                  end
         end
    /\ existsb isSetBytes (o_events o) = false
    /\ p_cache (o_proxy o) = p_cache p
    /\ List.filter isCheckIfNoCache (o_events o)
       = [EvCheckIfNoCache (fasthttp.CtxRequest ctx) (fasthttp.CtxResponse ctx)]
    /\ List.filter isDo (o_events o) = [EvDo (hc_req hc1)]
    /\ pt_httpClient (o_tools o) = hc2.
Proof.
  intros Hck Hmiss Hb Hdo Hph Hloc.
  assert (Hend : forall c pt ev body0,
             fasthttp.CtxRequest c = fasthttp.CtxRequest ctx ->
             pt_httpClient pt = pt_httpClient acquireTools ->
             pt_params pt = ps ->
             fasthttp.body (fasthttp.CtxResponse c) = body0 ->
             List.filter isCheckIfNoCache ev
             = [EvCheckIfNoCache (fasthttp.CtxRequest ctx) (fasthttp.CtxResponse ctx)] ->
             List.filter isDo ev = [] ->
             existsb isSetBytes ev = false ->
             exists o,
               handlerFetch p (fasthttp.CtxHost ctx) (fasthttp.PathOriginal ctx) c pt ev = Some o
               /\ fasthttp.RespHeader (fasthttp.CtxResponse (o_ctx o))
                  = fasthttp.RespHeader (hc_resp hc2)
               /\ fasthttp.StatusCode (fasthttp.CtxResponse (o_ctx o)) = hc_statusCode hc2
               /\ fasthttp.body (fasthttp.CtxResponse (o_ctx o)) = body0
               /\ existsb isSetBytes (o_events o) = false
               /\ p_cache (o_proxy o) = p_cache p
               /\ List.filter isCheckIfNoCache (o_events o)
                  = [EvCheckIfNoCache (fasthttp.CtxRequest ctx) (fasthttp.CtxResponse ctx)]
               /\ List.filter isDo (o_events o) = [EvDo (hc_req hc1)]
               /\ pt_httpClient (o_tools o) = hc2).
  { intros c pt ev body0 Hreq Hhc Hps Hbody Hfc Hfd Hfs.
    destruct (handlerFetch_location p p1 (fasthttp.CtxHost ctx) (fasthttp.PathOriginal ctx)
                c pt ev backend hc1 hc2 ps2 Hb) as (o & Ho & Hh & Hbd & Hev & Hc & Ht).
    - now rewrite (backendRequest_ext c ctx pt acquireTools _ Hreq Hhc).
    - now rewrite Hps.
    - exact Hloc.
    - exists o. split; [exact Ho|]. split; [exact Hh|].
      split; [unfold fasthttp.StatusCode, hc_statusCode, fasthttp.StatusCode;
              now rewrite Hh|].
      split; [now rewrite Hbd|].
      rewrite Hev, existsb_app_events, !List.filter_app, Hfs, Hfc, Hfd. cbn. auto. }
  unfold handler. cbn [pt_params acquireTools]. rewrite Hck.
  destruct rerr as [e|].
  { apply Hend; reflexivity. }
  destruct noCache; cbn [negb].
  { apply Hend; reflexivity. }
  cbn [pt_entry with_params acquireTools].
  destruct (GetBytes (p_cache p) (fasthttp.CtxHost ctx) cache.AcquireEntry)
    as [entry [e|]] eqn:Hg; cbn [snd fst] in *.
  { apply Hend; reflexivity. }
  cbn [pt_entry with_entry].
  rewrite (Hmiss eq_refl eq_refl eq_refl).
  apply Hend; reflexivity.
Qed.

(** C6. When no no-cache rule fired on the request and the cache gives the
    entry of the request's host without error, the handler serves the
    response from the cache and calls no backend if and only if the entry
    holds a response whose [Path] equals the original path of the request;
    served from the cache, the outbound body is the cached one and the
    proxy is unchanged; otherwise the request goes to a backend. *)
Theorem handler_hit_iff (p : Proxy) (ctx : fasthttp.RequestCtx)
    (ps : evalParams) (entry : cache.Entry) :
  checkIfNoCache (fasthttp.CtxRequest ctx) (fasthttp.CtxResponse ctx)
    (nocacheRules p) acquireEvalParams = (false, None, ps) ->
  GetBytes (p_cache p) (fasthttp.CtxHost ctx) cache.AcquireEntry = (entry, None) ->
  is_Some (getBackend p) ->
  exists o,
    handler p ctx = Some o
    /\ (existsb isDo (o_events o) = false
        <-> exists r, In r (cache.Responses entry)
                      /\ cache.Path r = fasthttp.PathOriginal ctx)
    /\ (existsb isDo (o_events o) = false ->
        o_proxy o = p
        /\ exists r, cache.GetResponse entry (fasthttp.PathOriginal ctx) = Some r
                     /\ fasthttp.body (fasthttp.CtxResponse (o_ctx o)) = cache.Body r).
Proof.
  intros Hck Hg Hb.
  assert (Hex : exists o, handler p ctx = Some o).
  { unfold handler. cbn [pt_params acquireTools]. rewrite Hck. cbn [negb pt_entry with_params acquireTools].
    rewrite Hg. cbn [pt_entry with_entry].
    destruct (cache.GetResponse entry _); [eexists; reflexivity|].
    apply handlerFetch_progress, Hb. }
  destruct Hex as [o Ho]. exists o. split; [exact Ho|].
  assert (Hhit : existsb isDo (o_events o) = false ->
                 exists r, cache.GetResponse entry (fasthttp.PathOriginal ctx) = Some r
                           /\ o_proxy o = p
                           /\ fasthttp.body (fasthttp.CtxResponse (o_ctx o)) = cache.Body r).
  { intros Hdo. destruct (handler_hit p ctx o Ho Hdo) as (ps' & entry' & r & Hck' & Hg' & Hr & Heq).
    rewrite Hg in Hg'. inversion Hg'; subst entry'.
    exists r. subst o. cbn.
    repeat split; [assumption|].
    now destruct (statusCode_fold_SetRespHeader (cache.Headers r)
                    (fasthttp.SetBody (fasthttp.CtxResponse ctx) (cache.Body r))). }
  split; [split|].
  - intros Hdo. apply GetResponse_Some_iff.
    destruct (Hhit Hdo) as (r & Hr & _). eauto.
  - intros Hin. apply GetResponse_Some_iff in Hin as [r Hr].
    revert Ho. unfold handler. cbn [pt_params acquireTools]. rewrite Hck.
    cbn [negb pt_entry with_params acquireTools]. rewrite Hg. cbn [pt_entry with_entry]. rewrite Hr.
    intros Ho. inversion Ho. reflexivity.
  - intros Hdo. destruct (Hhit Hdo) as (r & Hr & Hp & Hbody). eauto.
Qed.

(** C10. The cache-hit path of the handler (the one that calls no backend)
    copies the cached body and headers into the outbound response and
    leaves its status code alone, so a response the server handed over
    fresh goes out with the default status 200; and whenever the handler
    writes an entry to the cache, the status of the backend reply it holds
    is 200.  A cached response ([cache.Response]) has no status field. *)
Theorem handler_hit_status (p : Proxy) (ctx : fasthttp.RequestCtx) (o : Outcome) :
  handler p ctx = Some o ->
  (existsb isDo (o_events o) = false ->
   fasthttp.StatusCode (fasthttp.CtxResponse (o_ctx o))
   = fasthttp.StatusCode (fasthttp.CtxResponse ctx)
   /\ (fasthttp.CtxResponse ctx = fasthttp.zeroResponse ->
       fasthttp.StatusCode (fasthttp.CtxResponse (o_ctx o)) = fasthttp.StatusOK)
   /\ exists entry r,
        GetBytes (p_cache p) (fasthttp.CtxHost ctx) cache.AcquireEntry = (entry, None)
        /\ cache.GetResponse entry (fasthttp.PathOriginal ctx) = Some r
        /\ fasthttp.CtxResponse (o_ctx o)
           = fold_left (fun resp h =>
                          fasthttp.SetRespHeader resp (cache.Key h) (cache.Value h))
               (cache.Headers r)
               (fasthttp.SetBody (fasthttp.CtxResponse ctx) (cache.Body r)))
  /\ (existsb isSetBytes (o_events o) = true ->
      hc_statusCode (pt_httpClient (o_tools o)) = fasthttp.StatusOK).
Proof.
  intros H. split.
  - intros Hdo.
    destruct (handler_hit p ctx o H Hdo) as (ps & entry & r & _ & Hg & Hr & Heq).
    subst o. cbn [o_ctx with_response fasthttp.CtxResponse].
    destruct (statusCode_fold_SetRespHeader (cache.Headers r)
                (fasthttp.SetBody (fasthttp.CtxResponse ctx) (cache.Body r))) as [Hs _].
    rewrite Hs.
    assert (Hsame : fasthttp.StatusCode (fasthttp.SetBody (fasthttp.CtxResponse ctx) (cache.Body r))
                    = fasthttp.StatusCode (fasthttp.CtxResponse ctx)) by reflexivity.
    rewrite Hsame. split; [reflexivity|]. split.
    + intros Hz. rewrite Hz. reflexivity.
    + exists entry, r. auto.
  - intros Hsb.
    destruct (existsb isDo (o_events o)) eqn:Hdo.
    + apply handler_miss in H as (c & pt & ev & o' & err & Hf & _ & Ht & Hev & _ & Hnsb & _);
        [|assumption].
      apply fetchFromBackend_returns in Hf as (_ & Hst & _).
      rewrite Hev, existsb_app_events, Hnsb in Hsb. simpl in Hsb.
      rewrite Ht. now destruct (Hst Hsb).
    + apply handler_hit in H as (ps & entry & r & _ & _ & _ & Ho); [|assumption].
      subst o. discriminate Hsb.
Qed.

End HandlerProperties.

(** ** The rule compiler *)

Section ReplaceProperties.

Local Open Scope string_scope.

(** [+:+] unfolded on a text whose first character is known. *)
Ltac append_step :=
  repeat match goal with
         | |- context [String ?c ?s +:+ ?r] =>
             change (String c s +:+ r) with (String c (s +:+ r))
         | |- context [EmptyString +:+ ?r] => change (EmptyString +:+ r) with r
         end.

Lemma append_nil_r (s : string) : s +:+ EmptyString = s.
Proof. induction s as [|c s IH]; append_step; [reflexivity | now rewrite IH]. Qed.

Lemma prefix_append (t rest : string) : String.prefix t (t +:+ rest) = true.
Proof.
  induction t as [|c t IH]; append_step; simpl; [destruct rest; reflexivity|].
  destruct (ascii_dec c c); [exact IH | contradiction].
Qed.

(** The characters of a replaced occurrence are passed over. *)
Lemma replaceFrom_skip (old new t rest : string) :
  GoStrings.replaceFrom old new None (String.length t) (t +:+ rest)
  = GoStrings.replaceFrom old new None 0 rest.
Proof.
  induction t as [|c t IH]; append_step; simpl.
  - destruct rest; reflexivity.
  - exact IH.
Qed.

(** An occurrence at the front is replaced, and the scan goes on after it. *)
Lemma replaceFrom_here (t new rest : string) :
  GoStrings.replaceFrom (String "$" t) new None 0 (String "$" t +:+ rest)
  = new +:+ GoStrings.replaceFrom (String "$" t) new None 0 rest.
Proof.
  change (String "$" t +:+ rest) with (String "$" (t +:+ rest)).
  cbn [GoStrings.replaceFrom].
  change (String "$" (t +:+ rest)) with (String "$" t +:+ rest).
  rewrite prefix_append. cbn [fmap option_fmap option_map String.length].
  replace (S (String.length t) - 1) with (String.length t) by lia.
  now rewrite replaceFrom_skip.
Qed.

(** Text without [$] holds no occurrence of a token and is copied. *)
Lemma replaceFrom_copy (t new a rest : string) :
  GoStrings.ContainsRune a "$" = false ->
  GoStrings.replaceFrom (String "$" t) new None 0 (a +:+ rest)
  = a +:+ GoStrings.replaceFrom (String "$" t) new None 0 rest.
Proof.
  induction a as [|c a IH]; intros Ha; [reflexivity|].
  simpl in Ha. apply orb_false_iff in Ha as [Hc Ha].
  change (String c a +:+ rest) with (String c (a +:+ rest)).
  cbn [GoStrings.replaceFrom String.prefix].
  destruct (ascii_dec "$" c) as [E|_].
  - subst c. discriminate Hc.
  - now rewrite (IH Ha).
Qed.

(** [strings.Replace] with [n = -1] on a text that holds the same token
    twice: both occurrences become the same new text. *)
Lemma Replace_twice (a b c t new : string) :
  GoStrings.ContainsRune a "$" = false ->
  GoStrings.ContainsRune b "$" = false ->
  GoStrings.ContainsRune c "$" = false ->
  GoStrings.Replace (a +:+ String "$" t +:+ b +:+ String "$" t +:+ c) (String "$" t) new (-1)
  = a +:+ new +:+ b +:+ new +:+ c.
Proof.
  intros Ha Hb Hc. unfold GoStrings.Replace.
  destruct (bool_decide_reflect (String "$" t = new)) as [E|_]; cbn [orb Z.eqb Z.ltb Z.compare].
  - now rewrite E.
  - rewrite (replaceFrom_copy _ _ a _ Ha), replaceFrom_here.
    rewrite (replaceFrom_copy _ _ b _ Hb), replaceFrom_here.
    rewrite <- (append_nil_r c) at 1.
    rewrite (replaceFrom_copy _ _ c _ Hc). cbn [GoStrings.replaceFrom].
    now rewrite append_nil_r.
Qed.

End ReplaceProperties.

Section CompileProperties.

Context {X : Externals}.

Local Open Scope string_scope.

(** One turn of the loop of [newEvaluableExpression]: every occurrence of
    the token that [ParseConfigKeys] returned is replaced by its
    identifier, and one descriptor is added. *)
Lemma compileLoop_step (fuel : nat) (g g' : genState) (rule configKey evalKey evalSubKey : string)
    (params : list ruleParam) :
  MatchString rule = true ->
  ParseConfigKeys g rule = (configKey, evalKey, evalSubKey, g') ->
  configKey <> EmptyString ->
  compileLoop (S fuel) g rule params
  = compileLoop fuel g' (GoStrings.Replace rule configKey evalKey (-1))
      (params ++ [mkRuleParam evalKey evalSubKey]).
Proof.
  intros Hm Hp Hne. cbn [compileLoop]. rewrite Hm, Hp.
  destruct (bool_decide_reflect (configKey = EmptyString)); [contradiction | reflexivity].
Qed.

(** C1, amended. For a rule that holds the same keyed token twice (and no
    other [$]), [newEvaluableExpression] replaces both occurrences in one
    turn of its loop by the one identifier [ParseConfigKeys] generated for
    the token, and emits one [ruleParam] descriptor for them: the compiled
    expression is that of the text with the same identifier in both
    places. *)
Theorem newEvaluableExpression_same_token_twice (fuel : nat) (g g' : genState)
    (a b c t evalKey evalSubKey : string) :
  GoStrings.ContainsRune a "$" = false ->
  GoStrings.ContainsRune b "$" = false ->
  GoStrings.ContainsRune c "$" = false ->
  MatchString (a +:+ String "$" t +:+ b +:+ String "$" t +:+ c) = true ->
  ParseConfigKeys g (a +:+ String "$" t +:+ b +:+ String "$" t +:+ c)
  = (String "$" t, evalKey, evalSubKey, g') ->
  MatchString (a +:+ evalKey +:+ b +:+ evalKey +:+ c) = false ->
  newEvaluableExpression (S (S fuel)) g (a +:+ String "$" t +:+ b +:+ String "$" t +:+ c)
  = Some (match NewEvaluableExpression (a +:+ evalKey +:+ b +:+ evalKey +:+ c) with
          | Ok expr => Ok (expr, [mkRuleParam evalKey evalSubKey])
          | Error e => Error e
          end, g').
Proof.
  intros Ha Hb Hc Hm Hp Hm'. unfold newEvaluableExpression.
  rewrite (compileLoop_step _ _ _ _ _ _ _ _ Hm Hp) by discriminate.
  rewrite (Replace_twice a b c t evalKey Ha Hb Hc).
  cbn [compileLoop]. rewrite Hm'. cbn [mbind option_bind app].
  destruct (NewEvaluableExpression _); reflexivity.
Qed.

End CompileProperties.

(** ** Construction of the proxy *)

Section NewProperties.

Context {X : Externals}.

(** The proxy [New] returns has as many backends as [totalBackends] says,
    and its cursor at 0: the state [getBackend] starts from. *)
Lemma New_backends (fuel : nat) (g : genState) (c : config.Config) (p : Proxy) :
  New fuel g c = Some (Ok p) ->
  totalBackends p = Z.of_nat (length (backends p))
  /\ currentBackend p = 0%Z
  /\ length (backends p) = length (config.BackendsAddrs (config.CfgProxy c)).
Proof.
  unfold New, parseNocacheRules, parseHeadersRules.
  cbn [cfg nocacheRules headersRules with_nocacheRules with_headersRules].
  intros H.
  destruct (getLogOutput _) as [lo|e]; [|discriminate].
  destruct (config.CleanFrequency _ =? 0)%Z; [discriminate|].
  destruct (cache_New _) as [store|e]; [|discriminate].
  destruct (parseNocacheLoop _ _ _ _) as [[[r1 [e|]] g1]|]; cbn in H; try discriminate.
  destruct (parseHeadersLoop fuel g1 setHeaderAction _ _) as [[[r2 [e|]] g2]|];
    cbn in H; try discriminate.
  destruct (parseHeadersLoop fuel g2 unsetHeaderAction _ _) as [[[r3 [e|]] g3]|];
    cbn in H; try discriminate.
  inversion H; subst; clear H. cbn. rewrite length_map. auto.
Qed.

(** C7, as the code has it. [New] never looks at the number of backend
    addresses: a configuration it accepts with some list of addresses it
    accepts with the empty list too, and returns a proxy without backend,
    on which [getBackend] panics. *)
Theorem New_accepts_no_backends (fuel : nat) (g : genState) (c : config.Config)
    (addrs : list string) (p : Proxy) :
  New fuel g (config.withBackendsAddrs c addrs) = Some (Ok p) ->
  exists p0,
    New fuel g (config.withBackendsAddrs c []) = Some (Ok p0)
    /\ backends p0 = [] /\ totalBackends p0 = 0%Z
    /\ getBackend p0 = None.
Proof.
  unfold New, parseNocacheRules, parseHeadersRules.
  cbn [config.withBackendsAddrs config.LogOutput config.CfgCache config.CfgProxy
       config.LogLevel config.BackendsAddrs config.Nocache config.ResponseHeaders
       cfg nocacheRules headersRules with_nocacheRules with_headersRules].
  intros H.
  destruct (getLogOutput _) as [lo|e]; [|discriminate].
  destruct (config.CleanFrequency _ =? 0)%Z; [discriminate|].
  destruct (cache_New _) as [store|e]; [|discriminate].
  destruct (parseNocacheLoop _ _ _ _) as [[[r1 [e|]] g1]|]; cbn in H |- *; try discriminate.
  destruct (parseHeadersLoop fuel g1 setHeaderAction _ _) as [[[r2 [e|]] g2]|];
    cbn in H |- *; try discriminate.
  destruct (parseHeadersLoop fuel g2 unsetHeaderAction _ _) as [[[r3 [e|]] g3]|];
    cbn in H |- *; try discriminate.
  eexists. split; [reflexivity|]. cbn. repeat split.
Qed.

End NewProperties.

(** ** The invalidation view *)

Section AdminProperties.

Context {A : AdminExternals}.


End AdminProperties.

(** ** The codec and the store of the executable implementation *)

Section CodecProperties.

Import SpecModel.

Lemma to_nat_byteOf (n : nat) : n < 256 -> Byte.to_nat (byteOf n) = n.
Proof.
  intros Hn. unfold byteOf.
  destruct (Byte.of_nat n) as [b|] eqn:E.
  - simpl. now apply Byte.to_of_nat.
  - apply Byte.of_nat_None_iff in E. lia.
Qed.

Lemma getLen_putUvarint (fuel : nat) : forall (n : nat) (rest : bytes),
  n <= fuel -> getLen (putUvarint fuel n ++ rest) = Some (n, rest).
Proof.
  induction fuel as [|f IH]; intros n rest Hn.
  - assert (n = 0) by lia. subst n. reflexivity.
  - cbn [putUvarint]. destruct (Nat.ltb_spec n 128) as [Hlt|Hge].
    + cbn [app getLen]. rewrite to_nat_byteOf by lia.
      destruct (Nat.ltb_spec n 128); [reflexivity | lia].
    + cbn [app getLen].
      pose proof (Nat.mod_upper_bound n 128 ltac:(lia)) as Hm.
      rewrite to_nat_byteOf by lia.
      destruct (Nat.ltb_spec (128 + n mod 128) 128); [lia|].
      assert (Hd : n / 128 <= f).
      { pose proof (Nat.div_lt n 128 ltac:(lia) ltac:(lia)). lia. }
      rewrite (IH _ rest Hd). cbn [mbind option_bind].
      f_equal. f_equal.
      pose proof (Nat.div_mod_eq n 128). lia.
Qed.

Lemma getLen_putLen (n : nat) (rest : bytes) : getLen (putLen n ++ rest) = Some (n, rest).
Proof. apply getLen_putUvarint. lia. Qed.

Lemma getBytes_putBytes (b rest : bytes) : getBytes (putBytes b ++ rest) = Some (b, rest).
Proof.
  unfold getBytes, putBytes. rewrite <- app_assoc, getLen_putLen.
  cbn [mbind option_bind].
  destruct (Nat.leb_spec (length b) (length (b ++ rest))) as [_|H];
    [|rewrite length_app in H; lia].
  now rewrite take_app_length, drop_app_length.
Qed.

(** Items written one after the other are read back in order. *)
Lemma getMany_concat {A : Type} (put : A -> bytes) (get : bytes -> option (A * bytes)) :
  (forall x rest, get (put x ++ rest) = Some (x, rest)) ->
  forall xs rest, getMany get (length xs) (concat (map put xs) ++ rest) = Some (xs, rest).
Proof.
  intros Hget xs. induction xs as [|x xs IH]; intros rest; [reflexivity|].
  cbn [length map concat getMany]. rewrite <- app_assoc, Hget.
  cbn [mbind option_bind]. now rewrite IH.
Qed.

Lemma getHeader_putHeader (h : cache.ResponseHeader) (rest : bytes) :
  getHeader (putHeader h ++ rest) = Some (h, rest).
Proof.
  unfold getHeader, putHeader. rewrite <- app_assoc, getBytes_putBytes.
  cbn [mbind option_bind]. rewrite getBytes_putBytes. now destruct h.
Qed.

Lemma getResponse_putResponse (r : cache.Response) (rest : bytes) :
  getResponse (putResponse r ++ rest) = Some (r, rest).
Proof.
  unfold getResponse, putResponse. rewrite <- !app_assoc, getBytes_putBytes.
  cbn [mbind option_bind]. rewrite getBytes_putBytes. cbn [mbind option_bind].
  rewrite getLen_putLen. cbn [mbind option_bind].
  rewrite (getMany_concat putHeader getHeader getHeader_putHeader).
  now destruct r.
Qed.

Lemma Unmarshal_Marshal (e : cache.Entry) : Unmarshal (Marshal e) = Some e.
Proof.
  unfold Unmarshal, Marshal.
  rewrite bool_decide_eq_true_2 by reflexivity.
  rewrite getLen_putLen. cbn [mbind option_bind].
  rewrite <- (app_nil_r (concat _)).
  rewrite (getMany_concat putResponse getResponse getResponse_putResponse).
  now destruct e.
Qed.

(** C9. Decoding the encoding of an entry yields the entry, whatever its
    responses, paths, bodies and headers; so after a [SetBytes] that the
    store accepted, [GetBytes] under the same key gives the entry back,
    every response with the same [Path], [Body] and [Headers]. *)
Theorem codec_round_trip (e : cache.Entry) :
  Unmarshal (Marshal e) = Some e
  /\ forall (c c' : Store) (host : bytes) (dst : cache.Entry),
       SetBytes c host e = (c', None) -> GetBytes c' host dst = (e, None).
Proof.
  split; [apply Unmarshal_Marshal|].
  intros c c' host dst. unfold SetBytes, GetBytes.
  destruct (_ <? _)%Z; [discriminate|].
  intros H. inversion H; subst; clear H. cbn [st_data].
  rewrite lookup_insert_eq. now rewrite Unmarshal_Marshal.
Qed.

End CodecProperties.

(** ** Backend selection: cycles, panics, frame *)

Section GetBackendCycles.

Context {X : Externals}.

Lemma with_currentBackend_same (p : Proxy) (c : Z) :
  currentBackend p = c -> with_currentBackend p c = p.
Proof. intros <-. destruct p; reflexivity. Qed.

Lemma with_currentBackend_twice (p : Proxy) (c d : Z) :
  with_currentBackend (with_currentBackend p c) d = with_currentBackend p d.
Proof. reflexivity. Qed.

(** With more than one backend and the cursor on one of them, as many calls
    as there are backends return the backends after the cursor, then those
    up to it, and leave the proxy as it was. *)
Lemma getBackends_cycle (p : Proxy) :
  totalBackends p = Z.of_nat (length (backends p)) ->
  (1 < totalBackends p)%Z ->
  (0 <= currentBackend p < totalBackends p)%Z ->
  getBackends (length (backends p)) p
  = Some (rotate (S (Z.to_nat (currentBackend p))) (backends p), p).
Proof.
  intros Ht HN Hc.
  remember (length (backends p)) as N eqn:EN in |- *.
  remember (Z.to_nat (currentBackend p)) as c eqn:Ec in |- *.
  assert (Hcz : currentBackend p = Z.of_nat c) by lia.
  assert (Hn1 : totalBackends p <> 1%Z) by lia.
  unfold rotate. rewrite <- EN.
  destruct (decide (S c = N)) as [Hlast|Hmid].
  - (* the cursor is on the last backend *)
    replace (S c mod N) with 0 by (rewrite Hlast, Nat.Div0.mod_same; reflexivity).
    rewrite drop_0, take_0, app_nil_r.
    destruct N as [|m]; [lia|].
    rewrite (getBackends_segment m p 0 Hn1 Ht); try lia.
    + rewrite drop_0, firstn_all2 by lia.
      rewrite with_currentBackend_same; [reflexivity|]. lia.
    + destruct (Z.geb_spec (currentBackend p) (totalBackends p - 1)); lia.
  - (* the cursor is before the last backend *)
    assert (HcN : S c < N) by lia.
    rewrite Nat.mod_small by lia.
    replace N with ((N - S c) + S c) at 1 by lia.
    rewrite getBackends_app.
    replace (N - S c) with (S (N - S c - 1)) by lia.
    rewrite (getBackends_segment (N - S c - 1) p (S c) Hn1 Ht); try lia.
    + cbn [mbind option_bind].
      rewrite (getBackends_segment c (with_currentBackend p _) 0);
        cbn [backends totalBackends currentBackend with_currentBackend];
        try assumption; try lia.
      * cbn [mbind option_bind]. rewrite with_currentBackend_twice, drop_0.
        rewrite with_currentBackend_same by lia.
        rewrite firstn_all2; [reflexivity|]. rewrite length_drop. lia.
      * destruct (Z.geb_spec (Z.of_nat (S c + (N - S c - 1))) (totalBackends p - 1)); lia.
    + destruct (Z.geb_spec (currentBackend p) (totalBackends p - 1)); lia.
Qed.

Lemma rotate_Permutation {A : Type} (n : nat) (l : list A) : Permutation (rotate n l) l.
Proof.
  unfold rotate. rewrite Permutation_app_comm. now rewrite take_drop.
Qed.

(** X1. Fairness over whole cycles: with [N > 1] backends and the cursor on
    one of them, [k * N] consecutive calls return [k] times the backends in
    the order after the cursor, so every backend is returned [k] times, and
    the proxy is then as it was at the start. *)
Theorem getBackends_whole_cycles (p : Proxy) (k : nat) :
  totalBackends p = Z.of_nat (length (backends p)) ->
  (1 < totalBackends p)%Z ->
  (0 <= currentBackend p < totalBackends p)%Z ->
  getBackends (k * length (backends p)) p
  = Some (concat (replicate k (rotate (S (Z.to_nat (currentBackend p))) (backends p))), p)
  /\ Permutation
       (concat (replicate k (rotate (S (Z.to_nat (currentBackend p))) (backends p))))
       (concat (replicate k (backends p))).
Proof.
  intros Ht HN Hc. split.
  - induction k as [|k IH]; [reflexivity|].
    change (S k * length (backends p)) with (length (backends p) + k * length (backends p)).
    rewrite getBackends_app, (getBackends_cycle p Ht HN Hc).
    cbn [mbind option_bind]. rewrite IH. reflexivity.
  - induction k as [|k IH]; [reflexivity|].
    cbn [replicate concat]. apply Permutation_app; [apply rotate_Permutation | exact IH].
Qed.

(** A well-formed proxy with a backend has one to return. *)
Lemma getBackend_some (p : Proxy) :
  wellFormed p -> backends p <> [] -> is_Some (getBackend p).
Proof.
  intros [Ht Hc] Hne. unfold getBackend.
  destruct (backends p) as [|b l] eqn:Hb; [contradiction|].
  cbn [length] in Ht.
  destruct (Z.eqb_spec (totalBackends p) 1) as [H1|H1].
  - change 0%Z with (Z.of_nat 0). rewrite index_of_nat. cbn. eauto.
  - set (nx := if (currentBackend p >=? totalBackends p - 1)%Z then 0%Z
               else (currentBackend p + 1)%Z).
    assert (Hnx : (0 <= nx < Z.of_nat (S (length l)))%Z).
    { subst nx. destruct (Z.geb_spec (currentBackend p) (totalBackends p - 1)); lia. }
    replace nx with (Z.of_nat (Z.to_nat nx)) by lia.
    rewrite index_of_nat.
    destruct (lookup_lt_is_Some_2 (b :: l) (Z.to_nat nx)) as [b' Hb'];
      [cbn [length]; lia|].
    rewrite Hb'. cbn. eauto.
Qed.

(** X2. On a well-formed proxy [getBackend] panics exactly when no backend
    is configured. *)
Theorem getBackend_panics_iff_no_backend (p : Proxy) :
  wellFormed p -> (getBackend p = None <-> backends p = []).
Proof.
  intros Hw. split.
  - intros H. destruct (backends p) as [|b l] eqn:Hb; [reflexivity|exfalso].
    destruct (getBackend_some p Hw) as [x Hx]; [rewrite Hb; discriminate|].
    rewrite H in Hx. discriminate Hx.
  - intros Hb. destruct Hw as [Ht Hc]. unfold getBackend.
    rewrite Hb in *. cbn [length] in Ht. rewrite Ht.
    cbn [Z.eqb Z.of_nat].
    assert (Hnil : forall i, index (@nil fetcher) i = None).
    { intros i. unfold index. destruct (i <? 0)%Z; reflexivity. }
    rewrite !Hnil. destruct (_ >=? _)%Z; reflexivity.
Qed.

(** [getBackend] only moves the cursor, to an index of the list, and
    returns the backend at the cursor it leaves (with several backends) or
    the first one (with one): the backend is a configured one, and a
    well-formed proxy stays well-formed. *)
Lemma getBackend_frame (p p' : Proxy) (b : fetcher) :
  getBackend p = Some (b, p') ->
  p' = with_currentBackend p (currentBackend p')
  /\ In b (backends p)
  /\ (totalBackends p = 1%Z -> p' = p /\ backends p !! 0 = Some b)
  /\ (totalBackends p <> 1%Z ->
      (0 <= currentBackend p')%Z
      /\ backends p !! Z.to_nat (currentBackend p') = Some b
      /\ (currentBackend p' = 0%Z \/ currentBackend p' = (currentBackend p + 1)%Z))
  /\ (wellFormed p -> wellFormed p').
Proof.
  unfold getBackend, index. intros H.
  destruct (Z.eqb_spec (totalBackends p) 1) as [H1|H1].
  - cbn [Z.ltb Z.compare] in H. change (Z.to_nat 0) with 0 in H.
    destruct (backends p !! 0) as [b0|] eqn:Hb; cbn in H; [|discriminate].
    inversion H; subst; clear H.
    split; [now rewrite with_currentBackend_same|].
    split; [eapply list_elem_of_In, list_elem_of_lookup_2, Hb|].
    split; [auto|]. split; [contradiction|auto].
  - set (nx := if (currentBackend p >=? totalBackends p - 1)%Z then 0%Z
               else (currentBackend p + 1)%Z) in *.
    destruct (Z.ltb_spec nx 0) as [|Hnx]; [discriminate|].
    destruct (backends p !! Z.to_nat nx) as [b0|] eqn:Hb; cbn in H; [|discriminate].
    inversion H; subst; clear H.
    cbn [currentBackend with_currentBackend].
    split; [reflexivity|].
    split; [eapply list_elem_of_In, list_elem_of_lookup_2, Hb|].
    split; [contradiction|].
    split.
    + intros _. split; [assumption|]. split; [assumption|].
      subst nx. destruct (_ >=? _)%Z; auto.
    + intros [Ht Hc]. split; [exact Ht | exact Hnx].
Qed.

End GetBackendCycles.

(** ** The rule compiler: what it hands to the expression compiler *)

Section CompileResults.

Context {X : Externals}.

(** The loop ends on a text without token; it adds one descriptor per turn,
    none exactly when the rule holds no token, and then leaves the text and
    the identifier state alone. *)
Lemma compileLoop_ok (fuel : nat) : forall (g g' : genState) (rule text : string)
    (ps ps' : list ruleParam),
  compileLoop fuel g rule ps = Some (Ok (text, ps'), g') ->
  MatchString text = false
  /\ exists new, ps' = ps ++ new
       /\ (new = [] <-> MatchString rule = false)
       /\ (MatchString rule = false -> text = rule /\ g' = g).
Proof.
  induction fuel as [|fuel IH]; intros g g' rule text ps ps' H; [discriminate|].
  cbn [compileLoop] in H.
  destruct (MatchString rule) eqn:Hm.
  - destruct (ParseConfigKeys g rule) as [[[configKey evalKey] evalSubKey] g1].
    destruct (bool_decide _ && bool_decide _ && bool_decide _); [discriminate|].
    apply IH in H as (Ht & new & Hps & _).
    split; [exact Ht|].
    exists (mkRuleParam evalKey evalSubKey :: new).
    split; [now rewrite Hps, <- app_assoc|].
    split; [split; discriminate | discriminate].
  - inversion H; subst; clear H.
    split; [exact Hm|]. exists []. rewrite app_nil_r. repeat split; auto.
Qed.

(** The only error of the loop itself is that of a token
    [ParseConfigKeys] does not know. *)
Lemma compileLoop_error (fuel : nat) : forall (g g' : genState) (rule : string)
    (ps : list ruleParam) (e : error),
  compileLoop fuel g rule ps = Some (Error e, g') ->
  exists text g0, MatchString text = true
    /\ ParseConfigKeys g0 text = (EmptyString, EmptyString, EmptyString, g')
    /\ e = "Invalid condition: " +:+ text.
Proof.
  induction fuel as [|fuel IH]; intros g g' rule ps e H; [discriminate|].
  cbn [compileLoop] in H.
  destruct (MatchString rule) eqn:Hm; [|discriminate].
  destruct (ParseConfigKeys g rule) as [[[configKey evalKey] evalSubKey] g1] eqn:Hp.
  destruct (bool_decide_reflect (configKey = EmptyString)) as [E1|];
    [|cbn [andb] in H; eauto].
  destruct (bool_decide_reflect (evalKey = EmptyString)) as [E2|];
    [|cbn [andb] in H; eauto].
  destruct (bool_decide_reflect (evalSubKey = EmptyString)) as [E3|];
    [|cbn [andb] in H; eauto].
  cbn [andb] in H. inversion H; subst; clear H.
  exists rule, g. auto.
Qed.

(** X3. Whenever [newEvaluableExpression] returns an expression, it is the
    expression of a text in which no [$(...)] token is left; it returns no
    descriptor exactly when the rule held no token, and in that case the
    text compiled is the rule itself and no identifier was generated. *)
Theorem newEvaluableExpression_compiles_token_free_text (fuel : nat) (g g' : genState)
    (rule : string) (expr : EvaluableExpression) (params : list ruleParam) :
  newEvaluableExpression fuel g rule = Some (Ok (expr, params), g') ->
  exists text,
    MatchString text = false
    /\ NewEvaluableExpression text = Ok expr
    /\ (params = [] <-> MatchString rule = false)
    /\ (MatchString rule = false -> text = rule /\ g' = g).
Proof.
  unfold newEvaluableExpression. intros H.
  destruct (compileLoop fuel g rule []) as [[[[text ps]|e] g1]|] eqn:Hl;
    cbn [mbind option_bind] in H; try discriminate.
  destruct (NewEvaluableExpression text) as [ex|e] eqn:Hn; [|discriminate].
  inversion H; subst; clear H.
  apply compileLoop_ok in Hl as (Ht & new & Hps & Hnew & Hsame).
  cbn [app] in Hps. subst new. exists text. auto.
Qed.

(** X4. The two errors of [newEvaluableExpression]: a token that
    [ParseConfigKeys] does not know, reported as an invalid condition with
    the text as it stands at that turn of the loop, or the error of the
    expression compiler on a text without token. *)
Theorem newEvaluableExpression_errors (fuel : nat) (g g' : genState) (rule : string)
    (e : error) :
  newEvaluableExpression fuel g rule = Some (Error e, g') ->
  (exists text g0, MatchString text = true
     /\ ParseConfigKeys g0 text = (EmptyString, EmptyString, EmptyString, g')
     /\ e = "Invalid condition: " +:+ text)
  \/ (exists text, MatchString text = false /\ NewEvaluableExpression text = Error e).
Proof.
  unfold newEvaluableExpression. intros H.
  destruct (compileLoop fuel g rule []) as [[[[text ps]|e0] g1]|] eqn:Hl;
    cbn [mbind option_bind] in H; try discriminate.
  - destruct (NewEvaluableExpression text) as [ex|e1] eqn:Hn; [discriminate|].
    inversion H; subst; clear H.
    apply compileLoop_ok in Hl as (Ht & _). right. eauto.
  - inversion H; subst; clear H.
    apply compileLoop_error in Hl. left. exact Hl.
Qed.

End CompileResults.

(** ** Two different tokens in one rule *)

Section ReplaceTwoTokens.

Local Open Scope string_scope.

Ltac append_head :=
  repeat match goal with
         | |- context [String ?c ?s +:+ ?r] =>
             change (String c s +:+ r) with (String c (s +:+ r))
         | |- context [EmptyString +:+ ?r] => change (EmptyString +:+ r) with r
         end.

Lemma ContainsRune_append (a b : string) (c : ascii) :
  GoStrings.ContainsRune (a +:+ b) c
  = GoStrings.ContainsRune a c || GoStrings.ContainsRune b c.
Proof.
  induction a as [|x a IH]; append_head; [reflexivity|].
  cbn [GoStrings.ContainsRune]. now rewrite IH, orb_assoc.
Qed.

(** A text without [$] comes out of the scan as it went in. *)
Lemma replaceFrom_none (t new a : string) :
  GoStrings.ContainsRune a "$" = false ->
  GoStrings.replaceFrom (String "$" t) new None 0 a = a.
Proof.
  intros Ha. rewrite <- (append_nil_r a) at 1.
  rewrite (replaceFrom_copy t new a EmptyString Ha). cbn [GoStrings.replaceFrom].
  apply append_nil_r.
Qed.

(** A [$] that does not start an occurrence of the token is copied. *)
Lemma replaceFrom_other (t new rest : string) :
  String.prefix t rest = false ->
  GoStrings.replaceFrom (String "$" t) new None 0 (String "$" rest)
  = String "$" (GoStrings.replaceFrom (String "$" t) new None 0 rest).
Proof.
  intros Hp. cbn [GoStrings.replaceFrom String.prefix].
  destruct (ascii_dec "$" "$") as [_|N]; [|contradiction].
  now rewrite Hp.
Qed.

(** [strings.Replace] with [n = -1] on a text with two different tokens:
    the occurrence of the first is replaced, the second token stays. *)
Lemma Replace_first_of_two (a b c t1 t2 new : string) :
  GoStrings.ContainsRune a "$" = false ->
  GoStrings.ContainsRune b "$" = false ->
  GoStrings.ContainsRune (t2 +:+ c) "$" = false ->
  String.prefix t1 (t2 +:+ c) = false ->
  GoStrings.Replace (a +:+ String "$" t1 +:+ b +:+ String "$" t2 +:+ c) (String "$" t1) new (-1)
  = a +:+ new +:+ b +:+ String "$" t2 +:+ c.
Proof.
  intros Ha Hb Hc Hp. unfold GoStrings.Replace.
  destruct (bool_decide_reflect (String "$" t1 = new)) as [E|_]; cbn [orb Z.eqb Z.ltb Z.compare].
  - now rewrite E.
  - rewrite (replaceFrom_copy _ _ a _ Ha), replaceFrom_here.
    rewrite (replaceFrom_copy _ _ b _ Hb).
    change (String "$" t2 +:+ c) with (String "$" (t2 +:+ c)).
    rewrite (replaceFrom_other _ _ _ Hp), (replaceFrom_none _ _ _ Hc).
    reflexivity.
Qed.

(** The second token replaced in the text the first turn left. *)
Lemma Replace_second_of_two (a b c k1 t2 new : string) :
  GoStrings.ContainsRune a "$" = false ->
  GoStrings.ContainsRune k1 "$" = false ->
  GoStrings.ContainsRune b "$" = false ->
  GoStrings.ContainsRune c "$" = false ->
  GoStrings.Replace (a +:+ k1 +:+ b +:+ String "$" t2 +:+ c) (String "$" t2) new (-1)
  = a +:+ k1 +:+ b +:+ new +:+ c.
Proof.
  intros Ha Hk Hb Hc. unfold GoStrings.Replace.
  destruct (bool_decide_reflect (String "$" t2 = new)) as [E|_]; cbn [orb Z.eqb Z.ltb Z.compare].
  - now rewrite E.
  - rewrite (replaceFrom_copy _ _ a _ Ha), (replaceFrom_copy _ _ k1 _ Hk).
    rewrite (replaceFrom_copy _ _ b _ Hb), replaceFrom_here.
    now rewrite (replaceFrom_none _ _ _ Hc).
Qed.

End ReplaceTwoTokens.

Section CompileTwoTokens.

Context {X : Externals}.

Local Open Scope string_scope.

(** X5. A rule with two different tokens (the second not an extension of
    the first, no other [$] in the rule or in the first identifier)
    compiles in two turns of the loop: each token is replaced by the
    identifier [ParseConfigKeys] gives for it, and the descriptors come out
    in the order of the tokens. *)
Theorem newEvaluableExpression_two_tokens (fuel : nat) (g g1 g2 : genState)
    (a b c t1 t2 k1 s1 k2 s2 : string) :
  GoStrings.ContainsRune (a +:+ k1 +:+ b) "$" = false ->
  GoStrings.ContainsRune (t2 +:+ c) "$" = false ->
  String.prefix t1 (t2 +:+ c) = false ->
  MatchString (a +:+ String "$" t1 +:+ b +:+ String "$" t2 +:+ c) = true ->
  ParseConfigKeys g (a +:+ String "$" t1 +:+ b +:+ String "$" t2 +:+ c)
  = (String "$" t1, k1, s1, g1) ->
  MatchString (a +:+ k1 +:+ b +:+ String "$" t2 +:+ c) = true ->
  ParseConfigKeys g1 (a +:+ k1 +:+ b +:+ String "$" t2 +:+ c)
  = (String "$" t2, k2, s2, g2) ->
  MatchString (a +:+ k1 +:+ b +:+ k2 +:+ c) = false ->
  newEvaluableExpression (S (S (S fuel))) g
    (a +:+ String "$" t1 +:+ b +:+ String "$" t2 +:+ c)
  = Some (match NewEvaluableExpression (a +:+ k1 +:+ b +:+ k2 +:+ c) with
          | Ok expr => Ok (expr, [mkRuleParam k1 s1; mkRuleParam k2 s2])
          | Error e => Error e
          end, g2).
Proof.
  intros Hab Htc Hp Hm1 Hp1 Hm2 Hp2 Hm3.
  rewrite !ContainsRune_append in Hab.
  apply orb_false_iff in Hab as [Ha Hkb]. apply orb_false_iff in Hkb as [Hk Hb].
  assert (Hc : GoStrings.ContainsRune c "$" = false).
  { rewrite ContainsRune_append in Htc. now apply orb_false_iff in Htc as [_ Hc]. }
  unfold newEvaluableExpression.
  rewrite (compileLoop_step _ _ _ _ _ _ _ _ Hm1 Hp1) by discriminate.
  rewrite (Replace_first_of_two a b c t1 t2 k1 Ha Hb Htc Hp).
  rewrite (compileLoop_step _ _ _ _ _ _ _ _ Hm2 Hp2) by discriminate.
  rewrite (Replace_second_of_two a b c k1 t2 k2 Ha Hk Hb Hc).
  cbn [compileLoop]. rewrite Hm3. cbn [mbind option_bind app].
  destruct (NewEvaluableExpression _); reflexivity.
Qed.

End CompileTwoTokens.

(** ** The rules [New] compiles *)

Section ParseRules.

Context {X : Externals}.

Lemma parseNocacheLoop_result (fuel : nat) (rules : list string) :
  forall (g g' : genState) (acc acc' : list Rule) (err : option error),
  parseNocacheLoop fuel g rules acc = Some (acc', err, g') ->
  exists done : list Rule,
    acc' = acc ++ done
    /\ match err with
       | None => Forall2 (compiledFrom fuel) rules done
       | Some e =>
           exists pre s post e0 g1,
             rules = pre ++ s :: post
             /\ Forall2 (compiledFrom fuel) pre done
             /\ newEvaluableExpression fuel g1 s = Some (Error e0, g')
             /\ e = ruleError s e0
       end.
Proof.
  induction rules as [|s rules IH]; intros g g' acc acc' err H; cbn [parseNocacheLoop] in H.
  - inversion H; subst; clear H. exists []. rewrite app_nil_r. split; [reflexivity|constructor].
  - destruct (newEvaluableExpression fuel g s) as [[[[expr params]|e0] g1]|] eqn:Hc;
      cbn [mbind option_bind] in H; [| |discriminate].
    + apply IH in H as (done & Hacc & Herr).
      exists (mkRule expr ([] ++ params) :: done).
      split; [now rewrite Hacc, <- app_assoc|].
      assert (Hr : compiledFrom fuel s (mkRule expr ([] ++ params))).
      { exists g, g1. exact Hc. }
      destruct err as [e|].
      * destruct Herr as (pre & s' & post & e0 & g2 & Hrules & Hpre & Hs' & He).
        exists (s :: pre), s', post, e0, g2. rewrite Hrules.
        split; [reflexivity|]. split; [constructor; assumption|]. auto.
      * constructor; assumption.
    + inversion H; subst; clear H. exists []. rewrite app_nil_r.
      split; [reflexivity|].
      exists [], s, rules, e0, g. repeat split; [constructor | exact Hc].
Qed.

(** X6. When [parseNocacheRules] returns no error it has added to
    [p.nocacheRules] one rule per configured no-cache rule, in the order of
    the configuration, each the compilation of its text, and has touched
    nothing else of the proxy. *)
Theorem parseNocacheRules_one_rule_each (fuel : nat) (g g' : genState) (p p' : Proxy) :
  parseNocacheRules fuel g p = Some (p', None, g') ->
  exists done : list Rule,
    p' = with_nocacheRules p (nocacheRules p ++ done)
    /\ Forall2 (compiledFrom fuel) (config.Nocache (config.CfgProxy (cfg p))) done
    /\ length (nocacheRules p')
       = length (nocacheRules p) + length (config.Nocache (config.CfgProxy (cfg p))).
Proof.
  unfold parseNocacheRules. intros H.
  destruct (parseNocacheLoop _ _ _ _) as [[[acc' err] g1]|] eqn:Hl;
    cbn [mbind option_bind] in H; [|discriminate].
  inversion H; subst; clear H.
  apply parseNocacheLoop_result in Hl as (done & Hacc & Hall).
  exists done. subst acc'. split; [reflexivity|]. split; [exact Hall|].
  cbn [nocacheRules with_nocacheRules]. rewrite length_app.
  now rewrite (Forall2_length _ _ _ Hall).
Qed.

(** X7. When [parseNocacheRules] returns an error, it is the error of the
    first configured rule that does not compile, wrapped with the text of
    that rule; the rules before it were compiled and are in
    [p.nocacheRules], the rules after it were not looked at. *)
Theorem parseNocacheRules_first_error (fuel : nat) (g g' : genState) (p p' : Proxy)
    (e : error) :
  parseNocacheRules fuel g p = Some (p', Some e, g') ->
  exists pre s post e0 g1 done,
    config.Nocache (config.CfgProxy (cfg p)) = pre ++ s :: post
    /\ Forall2 (compiledFrom fuel) pre done
    /\ newEvaluableExpression fuel g1 s = Some (Error e0, g')
    /\ e = "Could not get the evaluable expression for rule '" +:+ s +:+ "': " +:+ e0
    /\ p' = with_nocacheRules p (nocacheRules p ++ done).
Proof.
  unfold parseNocacheRules. intros H.
  destruct (parseNocacheLoop _ _ _ _) as [[[acc' err] g1]|] eqn:Hl;
    cbn [mbind option_bind] in H; [|discriminate].
  inversion H; subst; clear H.
  apply parseNocacheLoop_result in Hl as (done & Hacc & pre & s & post & e0 & g2 & H1 & H2 & H3 & H4).
  exists pre, s, post, e0, g2, done. subst acc'. auto.
Qed.

Lemma parseHeadersLoop_result (fuel : nat) (action : string) (headers : list config.Header) :
  forall (g g' : genState) (acc acc' : list HeaderRule),
  parseHeadersLoop fuel g action headers acc = Some (acc', None, g') ->
  exists done : list HeaderRule,
    acc' = acc ++ done /\ Forall2 (headerRuleFrom fuel action) headers done.
Proof.
  induction headers as [|h headers IH]; intros g g' acc acc' H;
    cbn [parseHeadersLoop] in H.
  - inversion H; subst; clear H. exists []. rewrite app_nil_r. split; [reflexivity|constructor].
  - destruct (bool_decide_reflect (config.When h <> EmptyString)) as [Hw|Hw].
    + destruct (newEvaluableExpression fuel g (config.When h))
        as [[[[expr params]|e0] g1]|] eqn:Hc; cbn [mbind option_bind] in H;
        [| discriminate | discriminate].
      destruct (bool_decide_reflect (action = setHeaderAction)) as [Ha|Ha].
      * destruct (ParseConfigKeys g1 (config.Value h)) as [[[ck ek] sk] g2] eqn:Hp.
        match type of H with
        | context [if ?c then _ else _] => destruct c eqn:Hk
        end;
          (apply IH in H as (done & Hacc & Hall);
           eexists (_ :: done); split; [rewrite Hacc, <- app_assoc; reflexivity|];
           constructor; [|exact Hall];
           cbn [app]; repeat split; cbn; try congruence;
           [intros _; exists expr, g, g1; split; [reflexivity | exact Hc]
           |intros _; exists g1; rewrite Hp, Hk; reflexivity]).
      * apply IH in H as (done & Hacc & Hall).
        eexists (_ :: done). split; [rewrite Hacc, <- app_assoc; reflexivity|].
        constructor; [|exact Hall].
        cbn [app]. repeat split; cbn; try congruence.
        intros _. exists expr, g, g1. split; [reflexivity | exact Hc].
    + assert (Hw' : config.When h = EmptyString).
      { destruct (decide (config.When h = EmptyString)); [assumption | contradiction]. }
      cbn [mbind option_bind] in H.
      destruct (bool_decide_reflect (action = setHeaderAction)) as [Ha|Ha].
      * destruct (ParseConfigKeys g (config.Value h)) as [[[ck ek] sk] g2] eqn:Hp.
        match type of H with
        | context [if ?c then _ else _] => destruct c eqn:Hk
        end;
          (apply IH in H as (done & Hacc & Hall);
           eexists (_ :: done); split; [rewrite Hacc, <- app_assoc; reflexivity|];
           constructor; [|exact Hall];
           repeat split; cbn; try congruence;
           intros _; exists g; rewrite Hp, Hk; reflexivity).
      * apply IH in H as (done & Hacc & Hall).
        eexists (_ :: done). split; [rewrite Hacc, <- app_assoc; reflexivity|].
        constructor; [|exact Hall].
        repeat split; cbn; try congruence.
Qed.

Lemma parseHeadersLoop_error (fuel : nat) (action : string) (headers : list config.Header) :
  forall (g g' : genState) (acc acc' : list HeaderRule) (e : error),
  parseHeadersLoop fuel g action headers acc = Some (acc', Some e, g') ->
  exists h e0,
    In h headers /\ config.When h <> EmptyString /\ e = ruleError (config.When h) e0.
Proof.
  induction headers as [|h headers IH]; intros g g' acc acc' e H;
    cbn [parseHeadersLoop] in H; [discriminate|].
  assert (Hrest : forall g1 acc1,
             parseHeadersLoop fuel g1 action headers acc1 = Some (acc', Some e, g') ->
             exists h0 e0, In h0 (h :: headers) /\ config.When h0 <> EmptyString
                           /\ e = ruleError (config.When h0) e0).
  { intros g1 acc1 H1. apply IH in H1 as (h0 & e0 & Hin & Hw & He).
    exists h0, e0. split; [now right | auto]. }
  destruct (bool_decide_reflect (config.When h <> EmptyString)) as [Hw|Hw].
  - destruct (newEvaluableExpression fuel g (config.When h))
      as [[[[expr params]|e0] g1]|]; cbn [mbind option_bind] in H; [| |discriminate].
    + destruct (bool_decide (action = setHeaderAction)).
      * destruct (ParseConfigKeys g1 (config.Value h)) as [[[ck ek] sk] g2].
        destruct (bool_decide (ek <> EmptyString)); eapply Hrest, H.
      * eapply Hrest, H.
    + inversion H; subst; clear H. exists h, e0. split; [now left | auto].
  - cbn [mbind option_bind] in H.
    destruct (bool_decide (action = setHeaderAction)).
    + destruct (ParseConfigKeys g (config.Value h)) as [[[ck ek] sk] g2].
      destruct (bool_decide (ek <> EmptyString)); eapply Hrest, H.
    + eapply Hrest, H.
Qed.

(** X8. When [parseHeadersRules] returns no error it has added to
    [p.headersRules] one rule per configured header, in order, with the
    action it was called with and the name of the header; a header without
    [When] gives a rule without expression, and only the set action
    resolves a value. *)
Theorem parseHeadersRules_one_rule_each (fuel : nat) (g g' : genState) (p p' : Proxy)
    (action : string) (headers : list config.Header) :
  parseHeadersRules fuel g p action headers = Some (p', None, g') ->
  exists done : list HeaderRule,
    p' = with_headersRules p (headersRules p ++ done)
    /\ Forall2 (headerRuleFrom fuel action) headers done.
Proof.
  unfold parseHeadersRules. intros H.
  destruct (parseHeadersLoop _ _ _ _ _) as [[[acc' err] g1]|] eqn:Hl;
    cbn [mbind option_bind] in H; [|discriminate].
  inversion H; subst; clear H.
  apply parseHeadersLoop_result in Hl as (done & Hacc & Hall).
  exists done. subst acc'. auto.
Qed.

End ParseRules.

(** ** What [New] returns *)

Section NewResults.

Context {X : Externals}.

(** The configuration [New] hands to [cache.New]. *)
Lemma New_inversion (fuel : nat) (g : genState) (c : config.Config) (p : Proxy) :
  New fuel g c = Some (Ok p) ->
  exists lo store rs hs1 hs2 g1 g2 g3,
    getLogOutput (config.LogOutput c) = Ok lo
    /\ (config.CleanFrequency (config.CfgCache c) =? 0)%Z = false
    /\ cache_New
         {| cache.TTL := mul64 (config.TTL (config.CfgCache c)) minute;
            cache.CleanFrequency := mul64 (config.CleanFrequency (config.CfgCache c)) minute;
            cache.MaxEntries := config.MaxEntries (config.CfgCache c);
            cache.MaxEntrySize := config.MaxEntrySize (config.CfgCache c);
            cache.HardMaxCacheSize := config.HardMaxCacheSize (config.CfgCache c);
            cache.Verbose := bool_decide (config.LogLevel c = "debug");
            cache.LogLevel := config.LogLevel c;
            cache.LogOutput := lo |} = Ok store
    /\ parseNocacheLoop fuel g (config.Nocache (config.CfgProxy c)) [] = Some (rs, None, g1)
    /\ parseHeadersLoop fuel g1 setHeaderAction
         (config.Set_ (config.ResponseHeaders (config.CfgProxy c))) [] = Some (hs1, None, g2)
    /\ parseHeadersLoop fuel g2 unsetHeaderAction
         (config.Unset (config.ResponseHeaders (config.CfgProxy c))) hs1
       = Some (hs2, None, g3)
    /\ p = mkProxy (map HostClient (config.BackendsAddrs (config.CfgProxy c)))
             (Z.of_nat (length (config.BackendsAddrs (config.CfgProxy c)))) 0 rs hs2 store c.
Proof.
  unfold New, parseNocacheRules, parseHeadersRules.
  cbn [cfg nocacheRules headersRules with_nocacheRules with_headersRules].
  intros H.
  destruct (getLogOutput _) as [lo|e]; [|discriminate].
  destruct (config.CleanFrequency _ =? 0)%Z eqn:Hcf; [discriminate|].
  destruct (cache_New _) as [store|e] eqn:Hst; [|discriminate].
  destruct (parseNocacheLoop _ _ _ _) as [[[r1 [e|]] g1]|] eqn:H1; cbn in H; try discriminate.
  destruct (parseHeadersLoop fuel g1 setHeaderAction _ _) as [[[r2 [e|]] g2]|] eqn:H2;
    cbn in H; try discriminate.
  destruct (parseHeadersLoop fuel g2 unsetHeaderAction _ _) as [[[r3 [e|]] g3]|] eqn:H3;
    cbn in H; try discriminate.
  inversion H; subst; clear H.
  exists lo, store, r1, r2, r3, g1, g2, g3. repeat split; auto.
Qed.

(** One minute is not lost in the multiplication: the product of a
    duration in minutes by [time.Minute] is exact in [int64] exactly for
    the durations of at most 153722867 minutes, either sign. *)
Lemma mul64_minute (t : Z) :
  mul64 t minute = (t * minute)%Z <-> (-153722867 <= t <= 153722867)%Z.
Proof.
  unfold mul64, minute. split.
  - intros H.
    assert (Hr : (- 2 ^ 63 <= t * 60000000000 < 2 ^ 63)%Z).
    { rewrite <- H.
      pose proof (Z.mod_pos_bound (t * 60000000000 + 2 ^ 63) (2 ^ 64) ltac:(lia)). lia. }
    lia.
  - intros H. rewrite Z.mod_small; lia.
Qed.

(** X9. The proxy [New] returns is well-formed, with the cursor at 0, one
    backend client per configured address in the order of the
    configuration, the configuration it was given, and the store that
    [cache.New] returned for the configured sizes and the durations
    multiplied by a minute; the clean frequency of such a configuration is
    not 0. *)
Theorem New_proxy (fuel : nat) (g : genState) (c : config.Config) (p : Proxy) :
  New fuel g c = Some (Ok p) ->
  wellFormed p
  /\ currentBackend p = 0%Z
  /\ backends p = map HostClient (config.BackendsAddrs (config.CfgProxy c))
  /\ cfg p = c
  /\ config.CleanFrequency (config.CfgCache c) <> 0%Z
  /\ exists lo,
       getLogOutput (config.LogOutput c) = Ok lo
       /\ cache_New
            {| cache.TTL := mul64 (config.TTL (config.CfgCache c)) minute;
               cache.CleanFrequency :=
                 mul64 (config.CleanFrequency (config.CfgCache c)) minute;
               cache.MaxEntries := config.MaxEntries (config.CfgCache c);
               cache.MaxEntrySize := config.MaxEntrySize (config.CfgCache c);
               cache.HardMaxCacheSize := config.HardMaxCacheSize (config.CfgCache c);
               cache.Verbose := bool_decide (config.LogLevel c = "debug");
               cache.LogLevel := config.LogLevel c;
               cache.LogOutput := lo |} = Ok (p_cache p).
Proof.
  intros H.
  apply New_inversion in H as (lo & store & rs & hs1 & hs2 & g1 & g2 & g3
                               & Hlo & Hcf & Hst & _ & _ & _ & ->).
  cbn [backends totalBackends currentBackend cfg p_cache].
  split; [split; cbn [backends totalBackends currentBackend]; [now rewrite length_map | lia]|].
  repeat split.
  - now apply Z.eqb_neq.
  - exists lo. auto.
Qed.

(** X10. The rules of the proxy [New] returns: one no-cache rule per
    configured rule, in order; then the header rules, those of the headers
    to set first and those of the headers to unset after them, one per
    configured header, in order. *)
Theorem New_rules (fuel : nat) (g : genState) (c : config.Config) (p : Proxy) :
  New fuel g c = Some (Ok p) ->
  Forall2 (compiledFrom fuel) (config.Nocache (config.CfgProxy c)) (nocacheRules p)
  /\ exists hs1 hs2,
       headersRules p = hs1 ++ hs2
       /\ Forall2 (headerRuleFrom fuel setHeaderAction)
            (config.Set_ (config.ResponseHeaders (config.CfgProxy c))) hs1
       /\ Forall2 (headerRuleFrom fuel unsetHeaderAction)
            (config.Unset (config.ResponseHeaders (config.CfgProxy c))) hs2.
Proof.
  intros H.
  apply New_inversion in H as (lo & store & rs & hs1 & hs2 & g1 & g2 & g3
                               & _ & _ & _ & Hn & Hs & Hu & ->).
  cbn [nocacheRules headersRules].
  apply parseNocacheLoop_result in Hn as (done & -> & Hn). cbn [app] in Hn |- *.
  apply parseHeadersLoop_result in Hs as (done1 & -> & Hs). cbn [app] in Hs, Hu |- *.
  apply parseHeadersLoop_result in Hu as (done2 & -> & Hu).
  split; [exact Hn|]. exists done1, done2. auto.
Qed.

(** X11. The errors of [New]: that of the log output; the refusal of a
    clean frequency of 0; that of [cache.New]; or that of the first rule
    that does not compile, a no-cache rule or the condition of a header to
    set or to unset, with the text of the rule in it.  There is no error
    for an empty list of backends. *)
Theorem New_errors (fuel : nat) (g : genState) (c : config.Config) (e : error) :
  New fuel g c = Some (Error e) ->
  getLogOutput (config.LogOutput c) = Error e
  \/ (config.CleanFrequency (config.CfgCache c) = 0%Z
      /\ e = "Cache.CleanFrequency configuration must be greater than 0")
  \/ (exists cc, cache_New cc = Error e)
  \/ (exists s e0,
        (In s (config.Nocache (config.CfgProxy c))
         \/ exists h, In h (config.Set_ (config.ResponseHeaders (config.CfgProxy c))
                            ++ config.Unset (config.ResponseHeaders (config.CfgProxy c)))
                      /\ config.When h = s /\ s <> EmptyString)
        /\ e = "Could not get the evaluable expression for rule '" +:+ s +:+ "': " +:+ e0).
Proof.
  unfold New, parseNocacheRules, parseHeadersRules.
  cbn [cfg nocacheRules headersRules with_nocacheRules with_headersRules].
  intros H.
  destruct (getLogOutput _) as [lo|e1]; [|left; congruence].
  destruct (Z.eqb_spec (config.CleanFrequency (config.CfgCache c)) 0) as [Hz|_];
    [right; left; split; [exact Hz | congruence]|].
  destruct (cache_New _) as [store|e1] eqn:Hst; [|right; right; left; eexists; rewrite Hst; congruence].
  right. right. right.
  destruct (parseNocacheLoop _ _ _ _) as [[[r1 [e1|]] g1]|] eqn:H1; cbn in H; try discriminate.
  { inversion H; subst; clear H.
    apply parseNocacheLoop_result in H1
      as (done & _ & pre & s & post & e0 & g2 & Hr & _ & _ & He).
    exists s, e0. split; [|exact He]. left. rewrite Hr. apply in_or_app. right. now left. }
  destruct (parseHeadersLoop fuel g1 setHeaderAction _ _) as [[[r2 [e1|]] g2]|] eqn:H2;
    cbn in H; try discriminate.
  { inversion H; subst; clear H.
    apply parseHeadersLoop_error in H2 as (h & e0 & Hin & Hw & He).
    exists (config.When h), e0. split; [|exact He].
    right. exists h. split; [apply in_or_app; now left | auto]. }
  destruct (parseHeadersLoop fuel g2 unsetHeaderAction _ _) as [[[r3 [e1|]] g3]|] eqn:H3;
    cbn in H; try discriminate.
  inversion H; subst; clear H.
  apply parseHeadersLoop_error in H3 as (h & e0 & Hin & Hw & He).
  exists (config.When h), e0. split; [|exact He].
  right. exists h. split; [apply in_or_app; now right | auto].
Qed.

(** X12. The durations [New] hands to [cache.New] are the configured
    minutes times [time.Minute] as long as neither exceeds 153722867
    minutes in absolute value: up to there the [int64] product does not
    wrap around. *)
Theorem New_cache_durations (fuel : nat) (g : genState) (c : config.Config) (p : Proxy) :
  New fuel g c = Some (Ok p) ->
  (-153722867 <= config.TTL (config.CfgCache c) <= 153722867)%Z ->
  (-153722867 <= config.CleanFrequency (config.CfgCache c) <= 153722867)%Z ->
  exists lo,
    cache_New
      {| cache.TTL := (config.TTL (config.CfgCache c) * 60000000000)%Z;
         cache.CleanFrequency :=
           (config.CleanFrequency (config.CfgCache c) * 60000000000)%Z;
         cache.MaxEntries := config.MaxEntries (config.CfgCache c);
         cache.MaxEntrySize := config.MaxEntrySize (config.CfgCache c);
         cache.HardMaxCacheSize := config.HardMaxCacheSize (config.CfgCache c);
         cache.Verbose := bool_decide (config.LogLevel c = "debug");
         cache.LogLevel := config.LogLevel c;
         cache.LogOutput := lo |} = Ok (p_cache p).
Proof.
  intros H Ht Hf.
  apply New_inversion in H as (lo & store & rs & hs1 & hs2 & g1 & g2 & g3
                               & _ & _ & Hst & _ & _ & _ & ->).
  exists lo. cbn [p_cache].
  apply mul64_minute in Ht, Hf. rewrite Ht, Hf in Hst. exact Hst.
Qed.

End NewResults.

(** ** Saving a reply *)

Section SaveProperties.

Context {X : Externals}.

Lemma find_setResponse_same (l : list cache.Response) (r : cache.Response) :
  List.find (fun r' => bool_decide (cache.Path r' = cache.Path r)) (cache.setResponse l r)
  = Some r.
Proof.
  induction l as [|r' l IH]; cbn [cache.setResponse List.find].
  - now rewrite bool_decide_eq_true_2.
  - destruct (bool_decide_reflect (cache.Path r' = cache.Path r)) as [E|N];
      cbn [List.find].
    + now rewrite bool_decide_eq_true_2.
    + now rewrite bool_decide_eq_false_2.
Qed.

Lemma find_setResponse_other (l : list cache.Response) (r : cache.Response) (path : bytes) :
  path <> cache.Path r ->
  List.find (fun r' => bool_decide (cache.Path r' = path)) (cache.setResponse l r)
  = List.find (fun r' => bool_decide (cache.Path r' = path)) l.
Proof.
  intros Hp. induction l as [|r' l IH]; cbn [cache.setResponse List.find].
  - now rewrite bool_decide_eq_false_2 by congruence.
  - destruct (bool_decide_reflect (cache.Path r' = cache.Path r)) as [E|N];
      cbn [List.find].
    + rewrite !bool_decide_eq_false_2 by congruence. reflexivity.
    + destruct (bool_decide (cache.Path r' = path)); [reflexivity | exact IH].
Qed.

(** The response [saveBackendResponse] builds from a reply: the path and
    the body as given, one header per header line, in order. *)
Lemma visitAllSetHeader_fields (h : fasthttp.args) (r : cache.Response) :
  cache.Path (visitAllSetHeader h r) = cache.Path r
  /\ cache.Body (visitAllSetHeader h r) = cache.Body r
  /\ cache.Headers (visitAllSetHeader h r)
     = cache.Headers r ++ map (fun kv => cache.mkResponseHeader kv.1 kv.2) h.
Proof.
  unfold visitAllSetHeader. revert r.
  induction h as [|[k v] h IH]; intros r; cbn [fold_left map fst snd].
  - now rewrite app_nil_r.
  - destruct (IH (cache.SetHeader r k v)) as (H1 & H2 & H3).
    rewrite H1, H2, H3. cbn [cache.SetHeader cache.Path cache.Body cache.Headers fst snd].
    now rewrite <- app_assoc.
Qed.

(** X13. [saveBackendResponse] writes under the key the entry it was given
    with the response of the path replaced by the new one: in the entry
    written, the response found for the path has the body and the header
    lines of the reply, the responses of the other paths are those of the
    entry before; the proxy changes in its cache only, and the error, if
    any, is that of the store with the key in its text. *)
Theorem saveBackendResponse_entry_written (p : Proxy) (key path : bytes)
    (resp : fasthttp.Response) (entry : cache.Entry) :
  let '(p', entry', err) := saveBackendResponse p key path resp entry in
  p' = with_cache p (SetBytes (p_cache p) key entry').1
  /\ err = (fun m => "Could not save response in cache for key '" +:+ S2 key +:+ "': " +:+ m)
             <$> (SetBytes (p_cache p) key entry').2
  /\ cache.GetResponse entry' path
     = Some (cache.mkResponse path (fasthttp.body resp)
               (map (fun kv => cache.mkResponseHeader kv.1 kv.2)
                  (fasthttp.respLines (fasthttp.RespHeader resp))))
  /\ forall other, other <> path ->
       cache.GetResponse entry' other = cache.GetResponse entry other.
Proof.
  rewrite saveBackendResponse_entry. cbv zeta.
  set (r := visitAllSetHeader _ _).
  destruct (visitAllSetHeader_fields (fasthttp.respLines (fasthttp.RespHeader resp))
              (cache.mkResponse path (fasthttp.body resp) [])) as (Hp & Hb & Hh).
  fold r in Hp, Hb, Hh. cbn [cache.Path cache.Body cache.Headers app] in Hp, Hb, Hh.
  assert (Hr : r = cache.mkResponse path (fasthttp.body resp)
                     (map (fun kv => cache.mkResponseHeader kv.1 kv.2)
                        (fasthttp.respLines (fasthttp.RespHeader resp)))).
  { destruct r as [rp rb rh]. cbn in Hp, Hb, Hh. now subst. }
  split; [reflexivity|]. split; [reflexivity|].
  clearbody r. subst r.
  unfold cache.GetResponse, cache.SetResponse. cbn [cache.Responses].
  split.
  - exact (find_setResponse_same _ (cache.mkResponse path _ _)).
  - intros other Ho. apply find_setResponse_other. exact Ho.
Qed.

End SaveProperties.

(** ** The ways [fetchFromBackend] returns *)

Section FetchResults.

Context {X : Externals}.

(** The six returns of [fetchFromBackend], in the order of the code: the
    error of the backend, the error of the header rules, the reply with a
    [Location] header, the error of the no-cache rules, the reply that is
    not to be cached, the reply that is saved. *)
Ltac fetch_returns H Hb :=
  unfold fetchFromBackend in H;
  destruct (getBackend _) as [[?backend ?p1]|] eqn:Hb; [|discriminate H];
  cbn [mbind option_bind] in H;
  destruct (hc_do _ _) as [?hc1 [?e|]] eqn:?Hdo;
    [|destruct (processHeaderRules _ _ _) as [[?hc2 [?e|]] ?ps] eqn:?Hph;
      [|destruct (0 <? length _)%nat eqn:?Hloc;
        [|destruct (checkIfNoCache _ _ _ _) as [[?noCache [?e|]] ?ps2] eqn:?Hck;
          [|match type of H with
            | (if ?c then _ else _) = _ => destruct c eqn:?Hcond
            end;
            [|rewrite saveBackendResponse_entry in H; cbv zeta in H]]]]];
  inversion H; subst; clear H.

(** X14. The errors of [fetchFromBackend].  The error of the backend and
    that of the header rules come back with a text in front, and leave the
    request context as it was; the error of the no-cache rules on the reply
    comes back as it is, after the headers of the reply were copied but
    before status and body are; in these three cases nothing is written to
    the cache.  The only other error is that of the cache write, after the
    reply was put in the request context. *)
Theorem fetchFromBackend_errors (p : Proxy) (key path : bytes) (ctx : fasthttp.RequestCtx)
    (pt : proxyTools) (o : Outcome) (e : error) :
  fetchFromBackend p key path ctx pt = Some (o, Some e) ->
  (exists req m,
     o_events o = [EvDo req]
     /\ e = "Could not fetch response from backend: " +:+ m
     /\ o_ctx o = ctx /\ p_cache (o_proxy o) = p_cache p)
  \/ (exists req m,
        o_events o = [EvDo req; EvProcessHeaderRules]
        /\ e = "Could not process headers rules: " +:+ m
        /\ o_ctx o = ctx /\ p_cache (o_proxy o) = p_cache p)
  \/ (exists req rq rs b ps ps',
        o_events o = [EvDo req; EvProcessHeaderRules; EvCheckIfNoCache rq rs]
        /\ checkIfNoCache rq rs (nocacheRules p) ps = (b, Some e, ps')
        /\ fasthttp.body (fasthttp.CtxResponse (o_ctx o))
           = fasthttp.body (fasthttp.CtxResponse ctx)
        /\ p_cache (o_proxy o) = p_cache p)
  \/ (exists req rq rs entry m,
        o_events o = [EvDo req; EvProcessHeaderRules; EvCheckIfNoCache rq rs;
                      EvSetBytes key entry]
        /\ SetBytes (p_cache p) key entry = (p_cache (o_proxy o), Some m)
        /\ e = "Could not save response in cache for key '" +:+ S2 key +:+ "': " +:+ m
        /\ fasthttp.body (fasthttp.CtxResponse (o_ctx o))
           = hc_body (pt_httpClient (o_tools o))).
Proof.
  intros H. fetch_returns H Hb;
    destruct (getBackend_cache _ _ _ Hb) as (Hc & Hnc & Hhr).
  - left. exists (hc_req hc1), e0. cbn. auto.
  - right. left. exists (hc_req hc1), e0. cbn. auto.
  - right. right. left.
    exists (hc_req hc1), (hc_req hc2), (hc_resp hc2), noCache, ps, ps2.
    cbn. rewrite <- Hnc. auto.
  - right. right. right. cbn in *.
    destruct (SetBytes (p_cache p1) key _) as [c [m|]] eqn:Hs; cbn in *; [|discriminate].
    match goal with H : Some _ = Some _ |- _ => inversion H; subst; clear H end.
    eexists (hc_req hc1), (hc_req hc2), (hc_resp hc2), _, m.
    rewrite <- Hc, Hs. auto.
Qed.

(** X15. A reply without [Location] header on which the no-cache rules
    evaluate without error goes out as the backend gave it, whatever its
    status and whether or not it is cached: the outbound response has the
    status, the body and the header lines of the reply as the header rules
    left it. *)
Theorem fetchFromBackend_passes_reply (p p1 : Proxy) (key path : bytes)
    (ctx : fasthttp.RequestCtx) (pt : proxyTools) (backend : fetcher)
    (hc1 hc2 : httpClient) (ps ps2 : evalParams) (noCache : bool) :
  getBackend p = Some (backend, p1) ->
  hc_do (backendRequest ctx pt path) backend = (hc1, None) ->
  processHeaderRules hc1 (headersRules p) (pt_params pt) = (hc2, None, ps) ->
  length (respHeaderPeek hc2 headerLocation) = 0 ->
  checkIfNoCache (hc_req hc2) (hc_resp hc2) (nocacheRules p) ps = (noCache, None, ps2) ->
  exists o err,
    fetchFromBackend p key path ctx pt = Some (o, err)
    /\ fasthttp.StatusCode (fasthttp.CtxResponse (o_ctx o)) = hc_statusCode hc2
    /\ fasthttp.body (fasthttp.CtxResponse (o_ctx o)) = hc_body hc2
    /\ fasthttp.respLines (fasthttp.RespHeader (fasthttp.CtxResponse (o_ctx o)))
       = fasthttp.respLines (fasthttp.RespHeader (hc_resp hc2))
    /\ pt_httpClient (o_tools o) = hc2.
Proof.
  intros Hb Hdo Hph Hloc Hck.
  destruct (getBackend_cache _ _ _ Hb) as (Hc & Hnc & Hhr).
  unfold fetchFromBackend. rewrite Hb. cbn [mbind option_bind].
  rewrite Hdo, Hhr, Hph, Hloc. cbn [Nat.ltb Nat.leb pt_params with_params with_httpClient].
  rewrite Hnc, Hck.
  assert (Hst : forall r b, fasthttp.StatusCode
                  (fasthttp.SetBody (fasthttp.SetStatusCode r (hc_statusCode hc2)) b)
                = hc_statusCode hc2)
    by (intros; apply StatusCode_SetStatusCode, StatusCode_nonzero).
  match goal with
  | |- context [if ?c then _ else _] => destruct c
  end.
  - eexists _, _. split; [reflexivity|]. cbn. rewrite Hst. auto.
  - rewrite saveBackendResponse_entry. cbv zeta.
    eexists _, _. split; [reflexivity|]. cbn. rewrite Hst. auto.
Qed.

(** X16. A reply with a [Location] header: [fetchFromBackend] returns no
    error after the header rules; the header of the reply, status included,
    is the header of the outbound response, but the body of the reply is
    not handed on: the outbound body is the one the request context had.
    The no-cache rules are not evaluated and the cache is not written. *)
Theorem fetchFromBackend_location_keeps_body (p p1 : Proxy) (key path : bytes)
    (ctx : fasthttp.RequestCtx) (pt : proxyTools) (backend : fetcher)
    (hc1 hc2 : httpClient) (ps : evalParams) :
  getBackend p = Some (backend, p1) ->
  hc_do (backendRequest ctx pt path) backend = (hc1, None) ->
  processHeaderRules hc1 (headersRules p) (pt_params pt) = (hc2, None, ps) ->
  0 < length (respHeaderPeek hc2 headerLocation) ->
  exists o,
    fetchFromBackend p key path ctx pt = Some (o, None)
    /\ o_events o = [EvDo (hc_req hc1); EvProcessHeaderRules]
    /\ fasthttp.RespHeader (fasthttp.CtxResponse (o_ctx o)) = fasthttp.RespHeader (hc_resp hc2)
    /\ fasthttp.body (fasthttp.CtxResponse (o_ctx o))
       = fasthttp.body (fasthttp.CtxResponse ctx)
    /\ o_proxy o = p1 /\ p_cache p1 = p_cache p.
Proof.
  intros Hb Hdo Hph Hloc.
  destruct (getBackend_cache _ _ _ Hb) as (Hc & Hnc & Hhr).
  unfold fetchFromBackend. rewrite Hb. cbn [mbind option_bind].
  rewrite Hdo, Hhr, Hph.
  apply Nat.ltb_lt in Hloc. rewrite Hloc.
  eexists. split; [reflexivity|]. cbn. auto.
Qed.

Lemma with_cache_same (p : Proxy) (c : Cache) : p_cache p = c -> with_cache p c = p.
Proof. intros <-. destruct p; reflexivity. Qed.

(** Every return of [fetchFromBackend]: the proxy is the one [getBackend]
    left, but for the cache; the calls made are the first ones of: the
    backend, the header rules, the no-cache rules, the cache write; what a
    cache write writes is the entry of the tools with the response that
    just went into the request context, of status 200. *)
Lemma fetchFromBackend_shape (p : Proxy) (key path : bytes) (ctx : fasthttp.RequestCtx)
    (pt : proxyTools) (o : Outcome) (err : option error) :
  fetchFromBackend p key path ctx pt = Some (o, err) ->
  (exists b p1, getBackend p = Some (b, p1)
                /\ o_proxy o = with_cache p1 (p_cache (o_proxy o)))
  /\ (exists req rq rs e,
        o_events o `prefix_of`
          [EvDo req; EvProcessHeaderRules; EvCheckIfNoCache rq rs; EvSetBytes key e])
  /\ (forall k e, In (EvSetBytes k e) (o_events o) ->
        k = key
        /\ e = cache.SetResponse (pt_entry pt)
                 (cache.mkResponse path
                    (fasthttp.body (fasthttp.CtxResponse (o_ctx o)))
                    (map (fun kv => cache.mkResponseHeader kv.1 kv.2)
                       (fasthttp.respLines
                          (fasthttp.RespHeader (fasthttp.CtxResponse (o_ctx o))))))
        /\ fasthttp.StatusCode (fasthttp.CtxResponse (o_ctx o)) = fasthttp.StatusOK
        /\ p_cache (o_proxy o) = (SetBytes (p_cache p) key e).1
        /\ err = (fun m => "Could not save response in cache for key '"
                           +:+ S2 key +:+ "': " +:+ m)
                   <$> (SetBytes (p_cache p) key e).2).
Proof.
  intros H. fetch_returns H Hb;
    destruct (getBackend_cache _ _ _ Hb) as (Hc & Hnc & Hhr);
    cbn [o_proxy o_events o_ctx o_tools].
  1-5: split; [exists backend, p1; split;
                 [reflexivity | now rewrite with_cache_same]|].
  1-3: split; [exists (hc_req hc1), fasthttp.zeroRequest, fasthttp.zeroResponse,
                 cache.AcquireEntry; eexists; cbn [app]; reflexivity|].
  4-5: split; [exists (hc_req hc1), (hc_req hc2), (hc_resp hc2), cache.AcquireEntry;
               eexists; cbn [app]; reflexivity|].
  1-5: intros k en Hin; cbn in Hin; intuition discriminate.
  split; [exists backend, p1; split; [reflexivity|reflexivity]|].
  split; [eexists _, _, _, _; exists []; cbn [app]; reflexivity|].
  intros k en Hin. cbn in Hin.
  destruct Hin as [Hin|[Hin|[Hin|[Hin|[]]]]]; try discriminate Hin.
  inversion Hin; subst; clear Hin.
  apply orb_false_iff in Hcond as [_ Hst]. apply negb_false_iff, Z.eqb_eq in Hst.
  cbn [with_response fasthttp.CtxResponse pt_entry with_params with_httpClient
       p_cache with_cache] in *.
  match goal with
  | |- context [visitAllSetHeader ?h ?r] =>
      destruct (visitAllSetHeader_fields h r) as (Hp & Hbd & Hh);
      destruct (visitAllSetHeader h r) as [rp rb rh] eqn:Hv
  end.
  cbn [cache.Path cache.Body cache.Headers app] in Hp, Hbd, Hh. subst rp rb rh.
  rewrite Hc. auto.
Qed.

End FetchResults.

(** ** The ways [handler] returns *)

Section HandlerResults.

Context {X : Externals}.

(** The two ways through [handler]: the response served from the cache, or
    the end of the handler from the call of [fetchFromBackend] on, reached
    after the evaluation of the rules alone (a rule fired, or failed) or
    after the read of the cache too (which failed, or found no response
    for the path); the request context is then the incoming one or an
    error response on it, the tools hold the entry read, if any. *)
Lemma handler_paths (p : Proxy) (ctx : fasthttp.RequestCtx) (o : Outcome) :
  handler p ctx = Some o ->
  (exists ps entry r,
     checkIfNoCache (fasthttp.CtxRequest ctx) (fasthttp.CtxResponse ctx)
       (nocacheRules p) acquireEvalParams = (false, None, ps)
     /\ GetBytes (p_cache p) (fasthttp.CtxHost ctx) cache.AcquireEntry = (entry, None)
     /\ cache.GetResponse entry (fasthttp.PathOriginal ctx) = Some r
     /\ o = mkOutcome p
              (with_response ctx
                 (fold_left (fun resp h =>
                               fasthttp.SetRespHeader resp (cache.Key h) (cache.Value h))
                    (cache.Headers r)
                    (fasthttp.SetBody (fasthttp.CtxResponse ctx) (cache.Body r))))
              (with_entry (with_params acquireTools ps) entry)
              [EvCheckIfNoCache (fasthttp.CtxRequest ctx) (fasthttp.CtxResponse ctx);
               EvGetBytes (fasthttp.CtxHost ctx)])
  \/ (exists c pt ev,
        handlerFetch p (fasthttp.CtxHost ctx) (fasthttp.PathOriginal ctx) c pt ev = Some o
        /\ fasthttp.CtxRequest c = fasthttp.CtxRequest ctx
        /\ pt_httpClient pt = pt_httpClient acquireTools
        /\ (c = ctx \/ exists e, c = fasthttp.ctx_Error ctx e fasthttp.StatusInternalServerError)
        /\ ((ev = [EvCheckIfNoCache (fasthttp.CtxRequest ctx) (fasthttp.CtxResponse ctx)]
             /\ pt_entry pt = cache.AcquireEntry)
            \/ (ev = [EvCheckIfNoCache (fasthttp.CtxRequest ctx) (fasthttp.CtxResponse ctx);
                      EvGetBytes (fasthttp.CtxHost ctx)]
                /\ exists err,
                     GetBytes (p_cache p) (fasthttp.CtxHost ctx) cache.AcquireEntry
                     = (pt_entry pt, err)))).
Proof.
  unfold handler. intros H.
  cbn [pt_params acquireTools] in H.
  destruct (checkIfNoCache _ _ _ _) as [[noCache [e|]] ps] eqn:Hck.
  { right. eexists _, _, _. split; [exact H|]. cbn. eauto 10. }
  destruct noCache; cbn [negb] in H.
  { right. eexists _, _, _. split; [exact H|]. cbn. eauto 10. }
  cbn [pt_entry with_params] in H.
  destruct (GetBytes _ _ _) as [entry [e|]] eqn:Hg.
  { right. eexists _, _, _. split; [exact H|]. cbn. eauto 10. }
  cbn [pt_entry with_entry] in H.
  destruct (cache.GetResponse entry _) as [r|] eqn:Hr.
  - left. inversion H; subst; clear H. exists ps, entry, r. auto.
  - right. eexists _, _, _. split; [exact H|]. cbn. eauto 10.
Qed.

(** X17. The calls of one request, in order: the no-cache rules on the
    request; then, possibly, one read of the cache under the host; then,
    unless the response came from the cache, the first ones of: one call of
    a backend, the header rules, the no-cache rules on the reply, one write
    of the cache under the host.  So a request never reaches two backends,
    the cache is never read after the backend was called nor written before
    it was, and never under another key than the host of the request. *)
Theorem handler_trace (p : Proxy) (ctx : fasthttp.RequestCtx) (o : Outcome) :
  handler p ctx = Some o ->
  exists read rest req rq rs e,
    o_events o
    = EvCheckIfNoCache (fasthttp.CtxRequest ctx) (fasthttp.CtxResponse ctx) :: read ++ rest
    /\ (read = [] \/ read = [EvGetBytes (fasthttp.CtxHost ctx)])
    /\ rest `prefix_of`
         [EvDo req; EvProcessHeaderRules; EvCheckIfNoCache rq rs;
          EvSetBytes (fasthttp.CtxHost ctx) e]
    /\ (rest = [] <-> existsb isDo (o_events o) = false)
    /\ (rest = [] -> read = [EvGetBytes (fasthttp.CtxHost ctx)]).
Proof.
  intros H. apply handler_paths in H as [(ps & entry & r & _ & _ & _ & ->)|H].
  - exists [EvGetBytes (fasthttp.CtxHost ctx)], [], fasthttp.zeroRequest,
      fasthttp.zeroRequest, fasthttp.zeroResponse, cache.AcquireEntry.
    cbn. repeat split; auto. eexists; reflexivity.
  - destruct H as (c & pt & ev & H & _ & _ & _ & Hev).
    apply handlerFetch_returns in H as (o' & err & Hf & _ & _ & Ho & _).
    pose proof (fetchFromBackend_returns _ _ _ _ _ _ _ Hf) as (Hdo & _).
    apply fetchFromBackend_shape in Hf as (_ & (req & rq & rs & e & Hpre) & _).
    assert (Hne : o_events o' <> []).
    { intros E. rewrite E in Hdo. discriminate Hdo. }
    destruct Hev as [[-> _]|[-> _]].
    + exists [], (o_events o'), req, rq, rs, e. rewrite Ho. cbn [app].
      split; [reflexivity|]. split; [auto|]. split; [exact Hpre|].
      split; [|contradiction].
      split; [contradiction|]. cbn [existsb isDo orb]. rewrite Hdo. discriminate.
    + exists [EvGetBytes (fasthttp.CtxHost ctx)], (o_events o'), req, rq, rs, e.
      rewrite Ho. cbn [app].
      split; [reflexivity|]. split; [auto|]. split; [exact Hpre|].
      split; [|auto].
      split; [contradiction|]. cbn [existsb isDo orb]. rewrite Hdo. discriminate.
Qed.

(** X18. What a request can change of the proxy: nothing but the cursor
    and the cache.  The cursor moves only when a backend is called, and
    then to where [getBackend] puts it; the cache changes only by a write;
    a well-formed proxy stays well-formed. *)
Theorem handler_frame (p : Proxy) (ctx : fasthttp.RequestCtx) (o : Outcome) :
  handler p ctx = Some o ->
  sameSetup p (o_proxy o)
  /\ (wellFormed p -> wellFormed (o_proxy o))
  /\ (existsb isDo (o_events o) = false -> o_proxy o = p)
  /\ (existsb isDo (o_events o) = true ->
      exists b p1, getBackend p = Some (b, p1)
                   /\ currentBackend (o_proxy o) = currentBackend p1)
  /\ (existsb isSetBytes (o_events o) = false -> p_cache (o_proxy o) = p_cache p).
Proof.
  intros H. apply handler_paths in H as [(ps & entry & r & _ & _ & _ & ->)|H].
  - cbn. unfold sameSetup.
    split; [auto 10|]. split; [auto|]. split; [auto|]. split; [discriminate | auto].
  - destruct H as (c & pt & ev & H & _ & _ & _ & Hev).
    apply handlerFetch_returns in H as (o' & err & Hf & Hp & _ & Ho & _).
    pose proof (fetchFromBackend_returns _ _ _ _ _ _ _ Hf) as (Hdo & _ & Hkeep & _).
    apply fetchFromBackend_shape in Hf as ((b & p1 & Hb & Hp1) & _ & _).
    destruct (getBackend_frame _ _ _ Hb) as (Hcur & _ & _ & _ & Hwf).
    rewrite Hp, Hp1. rewrite Hcur.
    assert (Hnoset : existsb isSetBytes ev = false)
      by (destruct Hev as [[-> _]|[-> _]]; reflexivity).
    split; [unfold sameSetup; cbn; auto|].
    split.
    { intros Hw. destruct (Hwf Hw) as [Ht Hc]. rewrite Hcur in Ht, Hc. exact (conj Ht Hc). }
    split.
    { intros Hd. rewrite Ho, existsb_app_events, Hdo, orb_true_r in Hd. discriminate. }
    split.
    { intros _. exists b, p1. split; [exact Hb|]. reflexivity. }
    intros Hs. rewrite Ho, existsb_app_events, Hnoset in Hs. cbn [orb] in Hs.
    cbn [p_cache with_cache with_currentBackend]. exact (Hkeep Hs).
Qed.

(** With a backend to call, [handler] returns. *)
Lemma handler_progress (p : Proxy) (ctx : fasthttp.RequestCtx) :
  is_Some (getBackend p) -> is_Some (handler p ctx).
Proof.
  intros Hb. unfold handler.
  destruct (checkIfNoCache _ _ _ _) as [[noCache [e|]] ps];
    [now apply handlerFetch_progress|].
  destruct noCache; cbn [negb]; [now apply handlerFetch_progress|].
  destruct (GetBytes _ _ _) as [entry [e|]]; [now apply handlerFetch_progress|].
  destruct (cache.GetResponse _ _); [eexists; reflexivity | now apply handlerFetch_progress].
Qed.

Lemma sameSetup_trans (p p1 p2 : Proxy) :
  sameSetup p p1 -> sameSetup p1 p2 -> sameSetup p p2.
Proof.
  unfold sameSetup. intros (A1 & A2 & A3 & A4 & A5) (B1 & B2 & B3 & B4 & B5).
  repeat split; congruence.
Qed.

(** A request leaves the backends and the rules alone, and a well-formed
    proxy well-formed. *)
Lemma handler_keeps_setup (p : Proxy) (ctx : fasthttp.RequestCtx) (o : Outcome) :
  handler p ctx = Some o ->
  sameSetup p (o_proxy o) /\ (wellFormed p -> wellFormed (o_proxy o)).
Proof.
  intros H. apply handler_paths in H as [(ps & entry & r & _ & _ & _ & ->)|H].
  - cbn. unfold sameSetup. auto 10.
  - destruct H as (c & pt & ev & H & _).
    apply handlerFetch_returns in H as (o' & err & Hf & Hp & _).
    apply fetchFromBackend_shape in Hf as ((b & p1 & Hb & Hp1) & _ & _).
    destruct (getBackend_frame _ _ _ Hb) as (Hcur & _ & _ & _ & Hwf).
    rewrite Hp, Hp1. rewrite Hcur.
    split; [unfold sameSetup; cbn; auto 10|].
    intros Hw. destruct (Hwf Hw) as [Ht Hc]. rewrite Hcur in Ht, Hc. exact (conj Ht Hc).
Qed.

(** X19. A well-formed proxy with at least one backend never panics: any
    number of requests, handled one after the other, are all answered, and
    leave a well-formed proxy with the same backends, rules and
    configuration. *)
Theorem handleAll_never_panics (reqs : list fasthttp.RequestCtx) (p : Proxy) :
  wellFormed p -> backends p <> [] ->
  exists p' os,
    handleAll p reqs = Some (p', os)
    /\ length os = length reqs
    /\ wellFormed p' /\ sameSetup p p'.
Proof.
  revert p. induction reqs as [|ctx reqs IH]; intros p Hw Hne.
  - exists p, []. unfold sameSetup. cbn. auto 10.
  - destruct (handler_progress p ctx (getBackend_some p Hw Hne)) as [o Ho].
    destruct (handler_keeps_setup _ _ _ Ho) as [Hs Hw'].
    destruct (IH (o_proxy o) (Hw' Hw)) as (p' & os & Hall & Hlen & Hwp & Hsp).
    { destruct Hs as (Hb & _). now rewrite Hb. }
    exists p', (o :: os). cbn [handleAll]. rewrite Ho. cbn [mbind option_bind].
    rewrite Hall. cbn. split; [reflexivity|]. split; [now rewrite Hlen|].
    split; [exact Hwp|]. exact (sameSetup_trans _ _ _ Hs Hsp).
Qed.

Lemma prefix_of_existsb {A : Type} (f : A -> bool) (l1 l2 : list A) :
  l1 `prefix_of` l2 -> existsb f l2 = false -> existsb f l1 = false.
Proof.
  intros [k ->]. rewrite existsb_app. intros H. now apply orb_false_iff in H as [H _].
Qed.

(** X20. What is cached is what is served.  When a request makes the
    handler write the cache, the write is under the host of the request;
    the entry written holds, for the path of the request, a response with
    the body and the header lines of the outbound response, whose status is
    200.  If the store refuses the write, the client gets the answer 500
    with the text of the store's error instead. *)
Theorem handler_caches_what_it_serves (p : Proxy) (ctx : fasthttp.RequestCtx) (o : Outcome)
    (key : bytes) (e : cache.Entry) :
  handler p ctx = Some o ->
  In (EvSetBytes key e) (o_events o) ->
  key = fasthttp.CtxHost ctx
  /\ p_cache (o_proxy o) = (SetBytes (p_cache p) key e).1
  /\ exists r,
       cache.GetResponse e (fasthttp.PathOriginal ctx) = Some r
       /\ cache.Path r = fasthttp.PathOriginal ctx
       /\ match (SetBytes (p_cache p) key e).2 with
          | None =>
              fasthttp.StatusCode (fasthttp.CtxResponse (o_ctx o)) = fasthttp.StatusOK
              /\ fasthttp.body (fasthttp.CtxResponse (o_ctx o)) = cache.Body r
              /\ map (fun kv => cache.mkResponseHeader kv.1 kv.2)
                   (fasthttp.respLines (fasthttp.RespHeader (fasthttp.CtxResponse (o_ctx o))))
                 = cache.Headers r
          | Some m =>
              fasthttp.StatusCode (fasthttp.CtxResponse (o_ctx o))
              = fasthttp.StatusInternalServerError
              /\ fasthttp.body (fasthttp.CtxResponse (o_ctx o))
                 = B ("Could not save response in cache for key '" +:+ S2 key +:+ "': " +:+ m)
          end.
Proof.
  intros H Hin. apply handler_paths in H as [(ps & entry & r & _ & _ & _ & ->)|H].
  - cbn in Hin. intuition discriminate.
  - destruct H as (c & pt & ev & H & _ & _ & _ & Hev).
    apply handlerFetch_returns in H as (o' & err & Hf & Hp & _ & Ho & Hctx).
    rewrite Ho in Hin. apply in_app_or in Hin as [Hin|Hin].
    { destruct Hev as [[-> _]|[-> _]]; cbn in Hin; intuition discriminate. }
    apply fetchFromBackend_shape in Hf as (_ & _ & Hset).
    destruct (Hset _ _ Hin) as (-> & He & Hst & Hc & Herr).
    split; [reflexivity|]. rewrite Hp. split; [exact Hc|].
    eexists. split; [|split].
    + rewrite He. unfold cache.GetResponse, cache.SetResponse. cbn [cache.Responses].
      exact (find_setResponse_same _ (cache.mkResponse (fasthttp.PathOriginal ctx) _ _)).
    + reflexivity.
    + rewrite Hctx, Herr.
      destruct (SetBytes (p_cache p) (fasthttp.CtxHost ctx) e).2 as [m|];
        cbn [fmap option_fmap option_map cache.Body cache.Headers].
      * split; reflexivity.
      * auto.
Qed.

(** X21. A backend that cannot be reached.  When the call of the backend
    fails, the request is answered from the cache if the cache holds the
    response, and otherwise with status 500 and the text of the failure;
    the header rules are not run and the cache is not written. *)
Theorem handler_backend_down (p p1 : Proxy) (ctx : fasthttp.RequestCtx) (backend : fetcher)
    (hc1 : httpClient) (e : error) :
  getBackend p = Some (backend, p1) ->
  hc_do (backendRequest ctx acquireTools (fasthttp.PathOriginal ctx)) backend
  = (hc1, Some e) ->
  exists o,
    handler p ctx = Some o
    /\ (existsb isDo (o_events o) = false
        \/ (o_ctx o
            = fasthttp.ctx_Error ctx ("Could not fetch response from backend: " +:+ e)
                fasthttp.StatusInternalServerError
            /\ existsb isProcessHeaderRules (o_events o) = false
            /\ existsb isSetBytes (o_events o) = false
            /\ p_cache (o_proxy o) = p_cache p)).
Proof.
  intros Hb Hdo.
  destruct (handler_progress p ctx) as [o Ho]; [rewrite Hb; eauto|].
  exists o. split; [exact Ho|].
  apply handler_paths in Ho as [(ps & entry & r & _ & _ & _ & ->)|H].
  - left. reflexivity.
  - right. destruct H as (c & pt & ev & H & Hreq & Hhc & _ & Hev).
    destruct (getBackend_cache _ _ _ Hb) as (Hc & _ & _).
    unfold handlerFetch, fetchFromBackend in H. rewrite Hb in H.
    cbn [mbind option_bind] in H.
    rewrite (backendRequest_ext c ctx pt acquireTools _ Hreq Hhc), Hdo in H.
    cbn [mbind option_bind] in H. inversion H; subst; clear H.
    cbn [o_ctx o_events o_proxy].
    split; [now apply ctx_Error_ext|].
    rewrite !existsb_app_events.
    destruct Hev as [[-> _]|[-> _]]; cbn; auto.
Qed.

(** X22. An error of the cache read is not the end of the request: the
    handler prepares the answer 500 and then goes to a backend all the
    same, with the entry as the failed read left it. *)
Theorem handler_cache_error_reaches_backend (p : Proxy) (ctx : fasthttp.RequestCtx)
    (ps : evalParams) (entry : cache.Entry) (e : error) :
  checkIfNoCache (fasthttp.CtxRequest ctx) (fasthttp.CtxResponse ctx)
    (nocacheRules p) acquireEvalParams = (false, None, ps) ->
  GetBytes (p_cache p) (fasthttp.CtxHost ctx) cache.AcquireEntry = (entry, Some e) ->
  is_Some (getBackend p) ->
  handler p ctx
  = handlerFetch p (fasthttp.CtxHost ctx) (fasthttp.PathOriginal ctx)
      (fasthttp.ctx_Error ctx e fasthttp.StatusInternalServerError)
      (with_entry (with_params acquireTools ps) entry)
      [EvCheckIfNoCache (fasthttp.CtxRequest ctx) (fasthttp.CtxResponse ctx);
       EvGetBytes (fasthttp.CtxHost ctx)]
  /\ exists o, handler p ctx = Some o /\ existsb isDo (o_events o) = true.
Proof.
  intros Hck Hg Hb.
  assert (Hh : handler p ctx
               = handlerFetch p (fasthttp.CtxHost ctx) (fasthttp.PathOriginal ctx)
                   (fasthttp.ctx_Error ctx e fasthttp.StatusInternalServerError)
                   (with_entry (with_params acquireTools ps) entry)
                   [EvCheckIfNoCache (fasthttp.CtxRequest ctx) (fasthttp.CtxResponse ctx);
                    EvGetBytes (fasthttp.CtxHost ctx)]).
  { unfold handler. cbn [pt_params acquireTools]. rewrite Hck. cbn [negb].
    cbn [pt_entry with_params acquireTools]. rewrite Hg. reflexivity. }
  split; [exact Hh|].
  destruct (handlerFetch_progress p (fasthttp.CtxHost ctx) (fasthttp.PathOriginal ctx)
              (fasthttp.ctx_Error ctx e fasthttp.StatusInternalServerError)
              (with_entry (with_params acquireTools ps) entry)
              [EvCheckIfNoCache (fasthttp.CtxRequest ctx) (fasthttp.CtxResponse ctx);
               EvGetBytes (fasthttp.CtxHost ctx)] Hb)
    as [o Ho].
  exists o. rewrite Hh. split; [exact Ho|].
  apply handlerFetch_returns in Ho as (o' & err & Hf & _ & _ & Hev & _).
  apply fetchFromBackend_returns in Hf as (Hd & _).
  now rewrite Hev, existsb_app_events, Hd, orb_true_r.
Qed.

(** X23. A no-cache rule that fires on the request keeps the request away
    from the cache read: the backend is called without it.  The entry of
    the tools is then empty, so if the reply is cached after all (no rule
    fires on it), the entry written for the host holds this one response
    only. *)
Theorem handler_nocache_rule_skips_cache (p : Proxy) (ctx : fasthttp.RequestCtx)
    (ps : evalParams) :
  checkIfNoCache (fasthttp.CtxRequest ctx) (fasthttp.CtxResponse ctx)
    (nocacheRules p) acquireEvalParams = (true, None, ps) ->
  is_Some (getBackend p) ->
  exists o,
    handler p ctx = Some o
    /\ existsb isGetBytes (o_events o) = false
    /\ existsb isDo (o_events o) = true
    /\ forall key e, In (EvSetBytes key e) (o_events o) -> length (cache.Responses e) = 1.
Proof.
  intros Hck Hb.
  assert (Hh : handler p ctx
               = handlerFetch p (fasthttp.CtxHost ctx) (fasthttp.PathOriginal ctx) ctx
                   (with_params acquireTools ps)
                   [EvCheckIfNoCache (fasthttp.CtxRequest ctx) (fasthttp.CtxResponse ctx)]).
  { unfold handler. cbn [pt_params acquireTools]. rewrite Hck. reflexivity. }
  destruct (handlerFetch_progress p (fasthttp.CtxHost ctx) (fasthttp.PathOriginal ctx) ctx
              (with_params acquireTools ps)
              [EvCheckIfNoCache (fasthttp.CtxRequest ctx) (fasthttp.CtxResponse ctx)] Hb)
    as [o Ho].
  exists o. rewrite Hh. split; [exact Ho|].
  apply handlerFetch_returns in Ho as (o' & err & Hf & _ & _ & Hev & _).
  pose proof (fetchFromBackend_returns _ _ _ _ _ _ _ Hf) as (Hd & _).
  apply fetchFromBackend_shape in Hf as (_ & (req & rq & rs & e0 & Hpre) & Hset).
  rewrite Hev, !existsb_app_events, Hd, orb_true_r.
  split; [|split; [reflexivity|]].
  - cbn [existsb isGetBytes orb].
    apply (prefix_of_existsb _ _ _ Hpre). reflexivity.
  - intros key e Hin. apply in_app_or in Hin as [Hin|Hin];
      [cbn in Hin; intuition discriminate|].
    destruct (Hset _ _ Hin) as (_ & -> & _). reflexivity.
Qed.

(** X24. A response the handler has cached is served to the next request
    for the same host and path.  After a request whose reply was written
    to the cache, a request on which no rule fires and to which the store
    gives the entry written is answered without a backend, with the body
    of the first answer, and leaves the proxy as the first one left it. *)
Theorem handler_write_then_hit (p : Proxy) (ctx ctx2 : fasthttp.RequestCtx) (o : Outcome)
    (key : bytes) (e : cache.Entry) (ps : evalParams) :
  handler p ctx = Some o ->
  In (EvSetBytes key e) (o_events o) ->
  (SetBytes (p_cache p) key e).2 = None ->
  fasthttp.PathOriginal ctx2 = fasthttp.PathOriginal ctx ->
  checkIfNoCache (fasthttp.CtxRequest ctx2) (fasthttp.CtxResponse ctx2)
    (nocacheRules p) acquireEvalParams = (false, None, ps) ->
  GetBytes (p_cache (o_proxy o)) (fasthttp.CtxHost ctx2) cache.AcquireEntry = (e, None) ->
  exists o2,
    handler (o_proxy o) ctx2 = Some o2
    /\ existsb isDo (o_events o2) = false
    /\ fasthttp.body (fasthttp.CtxResponse (o_ctx o2))
       = fasthttp.body (fasthttp.CtxResponse (o_ctx o))
    /\ fasthttp.StatusCode (fasthttp.CtxResponse (o_ctx o2))
       = fasthttp.StatusCode (fasthttp.CtxResponse ctx2)
    /\ o_proxy o2 = o_proxy o.
Proof.
  intros H Hin Hok Hpath Hck Hg.
  destruct (handler_keeps_setup _ _ _ H) as [(_ & _ & Hnc & _) _].
  apply handler_paths in H as [(ps0 & entry & r & _ & _ & _ & ->)|H].
  { cbn in Hin. intuition discriminate. }
  destruct H as (c & pt & ev & H & _ & _ & _ & Hev).
  apply handlerFetch_returns in H as (o' & err & Hf & Hp & _ & Ho & Hctx).
  rewrite Ho in Hin. apply in_app_or in Hin as [Hin|Hin].
  { destruct Hev as [[-> _]|[-> _]]; cbn in Hin; intuition discriminate. }
  apply fetchFromBackend_shape in Hf as (_ & _ & Hset).
  destruct (Hset _ _ Hin) as (-> & He & _ & _ & Herr).
  rewrite Hok in Herr. cbn in Herr. subst err.
  assert (Hr : cache.GetResponse e (fasthttp.PathOriginal ctx2)
               = Some (cache.mkResponse (fasthttp.PathOriginal ctx)
                         (fasthttp.body (fasthttp.CtxResponse (o_ctx o')))
                         (map (fun kv => cache.mkResponseHeader kv.1 kv.2)
                            (fasthttp.respLines
                               (fasthttp.RespHeader (fasthttp.CtxResponse (o_ctx o'))))))).
  { rewrite He, Hpath. unfold cache.GetResponse, cache.SetResponse. cbn [cache.Responses].
    exact (find_setResponse_same _ (cache.mkResponse (fasthttp.PathOriginal ctx) _ _)). }
  unfold handler. cbn [pt_params acquireTools]. rewrite Hnc, Hck. cbn [negb].
  cbn [pt_entry with_params acquireTools]. rewrite Hg. cbn [pt_entry with_entry]. rewrite Hr.
  eexists. split; [reflexivity|].
  cbn [o_events o_ctx o_proxy with_response fasthttp.CtxResponse cache.Headers cache.Body].
  destruct (statusCode_fold_SetRespHeader
              (map (fun kv => cache.mkResponseHeader kv.1 kv.2)
                 (fasthttp.respLines
                    (fasthttp.RespHeader (fasthttp.CtxResponse (o_ctx o')))))
              (fasthttp.SetBody (fasthttp.CtxResponse ctx2)
                 (fasthttp.body (fasthttp.CtxResponse (o_ctx o'))))) as [Hs Hbd].
  rewrite Hs, Hbd, Hctx. cbn. auto.
Qed.

(** The cursor [getBackend] leaves, with several backends. *)
Lemma getBackend_cursor (p p1 : Proxy) (b : fetcher) :
  totalBackends p <> 1%Z ->
  getBackend p = Some (b, p1) ->
  currentBackend p1
  = (if (currentBackend p >=? totalBackends p - 1)%Z then 0 else currentBackend p + 1)%Z.
Proof.
  unfold getBackend. intros Hn H.
  destruct (Z.eqb_spec (totalBackends p) 1) as [|_]; [contradiction|].
  destruct (index (backends p) _) as [b0|]; cbn in H; [|discriminate].
  inversion H; subst; clear H. reflexivity.
Qed.

(** A request served from the cache leaves the proxy as it is; one that
    reaches a backend leaves the cursor where [getBackend] put it. *)
Lemma handler_cursor (p : Proxy) (ctx : fasthttp.RequestCtx) (o : Outcome) :
  handler p ctx = Some o ->
  if existsb isDo (o_events o)
  then exists b p1, getBackend p = Some (b, p1)
                    /\ currentBackend (o_proxy o) = currentBackend p1
  else o_proxy o = p.
Proof.
  intros H. apply handler_paths in H as [(ps & entry & r & _ & _ & _ & ->)|H].
  - reflexivity.
  - destruct H as (c & pt & ev & H & _).
    apply handlerFetch_returns in H as (o' & err & Hf & Hp & _ & Ho & _).
    pose proof (fetchFromBackend_returns _ _ _ _ _ _ _ Hf) as (Hdo & _).
    apply fetchFromBackend_shape in Hf as ((b & p1 & Hb & Hp1) & _ & _).
    rewrite Ho, existsb_app_events, Hdo, orb_true_r.
    exists b, p1. split; [exact Hb|]. rewrite Hp, Hp1. reflexivity.
Qed.

(** X25. Round robin over requests.  With several backends and the cursor
    on one of them, after any number of requests handled one after the
    other the cursor has advanced, around the list, by the number of
    requests that reached a backend: requests served from the cache do not
    move it. *)
Theorem handleAll_cursor (reqs : list fasthttp.RequestCtx) :
  forall (p p' : Proxy) (os : list Outcome),
  wellFormed p ->
  (1 < totalBackends p)%Z ->
  (currentBackend p < totalBackends p)%Z ->
  handleAll p reqs = Some (p', os) ->
  currentBackend p'
  = ((currentBackend p
      + Z.of_nat (length (List.filter (fun o => existsb isDo (o_events o)) os)))
     mod totalBackends p)%Z.
Proof.
  induction reqs as [|ctx reqs IH]; intros p p' os Hw HN Hc H; cbn [handleAll] in H.
  - inversion H; subst; clear H. cbn. destruct Hw as [_ H0].
    rewrite Z.add_0_r, Z.mod_small; lia.
  - destruct (handler p ctx) as [o|] eqn:Ho; cbn [mbind option_bind] in H; [|discriminate].
    destruct (handleAll (o_proxy o) reqs) as [[p2 os2]|] eqn:Hall;
      cbn [mbind option_bind] in H; [|discriminate].
    inversion H; subst; clear H.
    destruct (handler_keeps_setup _ _ _ Ho) as [(_ & Ht & _) Hw'].
    specialize (Hw' Hw).
    pose proof (handler_cursor _ _ _ Ho) as Hcur.
    cbn [List.filter].
    destruct (existsb isDo (o_events o)).
    + destruct Hcur as (b & p1 & Hb & Hcur).
      rewrite (getBackend_cursor p p1 b) in Hcur by (try exact Hb; lia).
      rewrite (IH (o_proxy o) p' os2 Hw') by
        (try exact Hall; rewrite ?Ht, ?Hcur;
         try destruct (Z.geb_spec (currentBackend p) (totalBackends p - 1)); lia).
      rewrite Ht, Hcur. cbn [length]. destruct Hw as [_ H0].
      destruct (Z.geb_spec (currentBackend p) (totalBackends p - 1)) as [Hge|Hlt].
      * assert (E : currentBackend p = (totalBackends p - 1)%Z) by lia.
        rewrite E, Nat2Z.inj_succ.
        replace (totalBackends p - 1
                 + Z.succ (Z.of_nat (length (List.filter
                                           (fun o => existsb isDo (o_events o)) os2))))%Z
          with (Z.of_nat (length (List.filter (fun o => existsb isDo (o_events o)) os2))
                + 1 * totalBackends p)%Z by lia.
        rewrite Z.mod_add by lia. reflexivity.
      * rewrite Nat2Z.inj_succ. f_equal. lia.
    + rewrite Hcur in Hall. exact (IH p p' os2 Hw HN Hc Hall).
Qed.

End HandlerResults.

(** ** The statements on the fixtures of the tests *)

Section Scenarios.

Import Scenario.

Local Abbreviation X0 := SpecModel.externals.

Lemma newProxy_accepted (c : config.Config) :
  newAccepts c = true -> New 16 0 c = Some (Ok (newProxy c)).
Proof.
  unfold newAccepts, newProxy.
  destruct (New (X := X0) 16 0 c) as [[p|e]|]; [reflexivity | discriminate | discriminate].
Qed.

(** C1: the rule with the same keyed token twice compiles to an expression
    with one identifier in both places and to one descriptor, where the
    claim has two distinct identifiers and two descriptors. *)
Lemma compile_same_token_twice_counterexample :
  newEvaluableExpression (X := X0) 8 0 ruleTwice
  = Some (Ok (SpecModel.EEq (SpecModel.EVar "V_reqHeader00") (SpecModel.EVar "V_reqHeader00"),
              [mkRuleParam "V_reqHeader00" "X"]), 1)
  /\ length [mkRuleParam "V_reqHeader00" "X"] <> 2.
Proof. split; [vm_compute; reflexivity | discriminate]. Qed.

Lemma newEvaluableExpression_same_token_twice_witness :
  (@MatchString X0 ruleTwice = true
   /\ @ParseConfigKeys X0 0 ruleTwice = ("$(req.header::X)", "V_reqHeader00", "X", 1)
   /\ @MatchString X0 "V_reqHeader00 == V_reqHeader00" = false)
  /\ newEvaluableExpression (X := X0) 8 0 ruleTwice
     = Some (match @NewEvaluableExpression X0 "V_reqHeader00 == V_reqHeader00" with
             | Ok expr => Ok (expr, [mkRuleParam "V_reqHeader00" "X"])
             | Error e => Error e
             end, 1).
Proof.
  split; [repeat split; vm_compute; reflexivity|].
  apply (newEvaluableExpression_same_token_twice (X := X0) 6 0 1
           EmptyString " == " EmptyString "(req.header::X)" "V_reqHeader00" "X");
    vm_compute; reflexivity.
Defined.

(** C2: a no-cache rule whose evaluation fails on the request; the backend
    is called all the same. *)
Lemma handler_eval_error_reaches_backend_witness :
  (@checkIfNoCache X0
     (fasthttp.CtxRequest (request "GET" "www.kratgo.com" "/test/"))
     (fasthttp.CtxResponse (request "GET" "www.kratgo.com" "/test/"))
     (nocacheRules proxyEvalError) acquireEvalParams
   = (false, Some (SpecModel.notBoolOperand "||"),
      [("V_respHeader00", EmptyString); ("V_host", "www.kratgo.com")])
   /\ is_Some (getBackend proxyEvalError))
  /\ exists o, handler proxyEvalError (request "GET" "www.kratgo.com" "/test/") = Some o
               /\ existsb isDo (o_events o) = true.
Proof.
  assert (H1 : @checkIfNoCache X0
                 (fasthttp.CtxRequest (request "GET" "www.kratgo.com" "/test/"))
                 (fasthttp.CtxResponse (request "GET" "www.kratgo.com" "/test/"))
                 (nocacheRules proxyEvalError) acquireEvalParams
               = (false, Some (SpecModel.notBoolOperand "||"),
                  [("V_respHeader00", EmptyString); ("V_host", "www.kratgo.com")]))
    by (vm_compute; reflexivity).
  assert (H2 : is_Some (getBackend proxyEvalError)).
  { exists (backendData, proxyEvalError).
    apply (getBackend_one (X := X0) proxyEvalError backendData []); vm_compute; reflexivity. }
  split; [split; [exact H1 | exact H2]|].
  exact (proj2 (handler_eval_error_reaches_backend (X := X0) proxyEvalError
                  (request "GET" "www.kratgo.com" "/test/") false
                  (SpecModel.notBoolOperand "||")
                  [("V_respHeader00", EmptyString); ("V_host", "www.kratgo.com")] H1 H2)).
Defined.

(** C2, the run: after the evaluator error on the request the backend is
    called, and its reply, on which the rule holds, goes out with status
    200 and the backend's body; nothing is written to the cache. *)
Example handler_eval_error_answers_200 :
  handler proxyEvalError (request "GET" "www.kratgo.com" "/test/")
  = Some (outcome proxyEvalError (request "GET" "www.kratgo.com" "/test/"))
  /\ existsb isDo (o_events (outcome proxyEvalError (request "GET" "www.kratgo.com" "/test/")))
     = true
  /\ fasthttp.StatusCode
       (fasthttp.CtxResponse
          (o_ctx (outcome proxyEvalError (request "GET" "www.kratgo.com" "/test/"))))
     = 200%Z
  /\ fasthttp.body
       (fasthttp.CtxResponse
          (o_ctx (outcome proxyEvalError (request "GET" "www.kratgo.com" "/test/"))))
     = B "Test Body"
  /\ existsb isSetBytes
       (o_events (outcome proxyEvalError (request "GET" "www.kratgo.com" "/test/")))
     = false.
Proof.
  split; [apply handler_outcome; vm_compute; reflexivity|].
  repeat split; vm_compute; reflexivity.
Qed.

(** C3: four replies with status 200 on which no no-cache rule evaluates
    to true.  The first has a [Location] header: [fetchFromBackend]
    returns without error and without a write, the cache as before, where
    the claim has a write.  The second has none and goes to a store that
    refuses it: [SetBytes] is called, the cache is as before and the
    refusal is returned, where the claim has the response in the cache.
    On the third the evaluation of the no-cache rule fails, for the fourth
    that of a header rule: the error is returned and nothing is written. *)
Lemma fetchFromBackend_location_200_counterexample :
  (fetchFromBackend (proxyRedirect 200) (B "test") (B "/test/")
     (request "GET" "test" "/test/") acquireTools
   = Some (fetched (proxyRedirect 200) (B "test") (B "/test/")
             (request "GET" "test" "/test/") acquireTools)
   /\ nocacheRules (proxyRedirect 200) = []
   /\ (fetched (proxyRedirect 200) (B "test") (B "/test/")
         (request "GET" "test" "/test/") acquireTools).2 = None
   /\ hc_statusCode
        (pt_httpClient
           (o_tools (fetched (proxyRedirect 200) (B "test") (B "/test/")
                       (request "GET" "test" "/test/") acquireTools).1)) = 200%Z
   /\ existsb isSetBytes
        (o_events (fetched (proxyRedirect 200) (B "test") (B "/test/")
                     (request "GET" "test" "/test/") acquireTools).1) = false
   /\ p_cache (o_proxy (fetched (proxyRedirect 200) (B "test") (B "/test/")
                          (request "GET" "test" "/test/") acquireTools).1)
      = p_cache (proxyRedirect 200))
  /\ (fetchFromBackend proxyTight (B "test") (B "/test/") requestTest acquireTools
      = Some (fetched proxyTight (B "test") (B "/test/") requestTest acquireTools)
      /\ nocacheRules proxyTight = []
      /\ hc_statusCode
           (pt_httpClient
              (o_tools (fetched proxyTight (B "test") (B "/test/") requestTest
                          acquireTools).1)) = 200%Z
      /\ respHeaderPeek
           (pt_httpClient
              (o_tools (fetched proxyTight (B "test") (B "/test/") requestTest
                          acquireTools).1)) headerLocation = []
      /\ existsb isSetBytes
           (o_events (fetched proxyTight (B "test") (B "/test/") requestTest
                        acquireTools).1) = true
      /\ p_cache (o_proxy (fetched proxyTight (B "test") (B "/test/") requestTest
                             acquireTools).1)
         = p_cache proxyTight
      /\ @GetBytes X0
           (p_cache (o_proxy (fetched proxyTight (B "test") (B "/test/") requestTest
                                acquireTools).1))
           (B "test") cache.AcquireEntry = (cache.AcquireEntry, None)
      /\ (fetched proxyTight (B "test") (B "/test/") requestTest acquireTools).2
         = Some ("Could not save response in cache for key 'test': "
                 +:+ "entry is bigger than max entry size"))
  /\ (fetchFromBackend proxyRuleError (B "test") (B "/test/") requestTest acquireTools
      = Some (fetched proxyRuleError (B "test") (B "/test/") requestTest acquireTools)
      /\ hc_statusCode
           (pt_httpClient
              (o_tools (fetched proxyRuleError (B "test") (B "/test/") requestTest
                          acquireTools).1)) = 200%Z
      /\ List.filter isCheckIfNoCache
           (o_events (fetched proxyRuleError (B "test") (B "/test/") requestTest
                        acquireTools).1)
         = [EvCheckIfNoCache
              (hc_req (pt_httpClient
                         (o_tools (fetched proxyRuleError (B "test") (B "/test/") requestTest
                                     acquireTools).1)))
              (hc_resp (pt_httpClient
                          (o_tools (fetched proxyRuleError (B "test") (B "/test/")
                                      requestTest acquireTools).1)))]
      /\ existsb isSetBytes
           (o_events (fetched proxyRuleError (B "test") (B "/test/") requestTest
                        acquireTools).1) = false
      /\ (fetched proxyRuleError (B "test") (B "/test/") requestTest acquireTools).2
         = Some SpecModel.notBool)
  /\ (fetchFromBackend (proxyHeaderRuleError backendOk) (B "test") (B "/test/") requestTest
        acquireTools
      = Some (fetched (proxyHeaderRuleError backendOk) (B "test") (B "/test/") requestTest
                acquireTools)
      /\ nocacheRules (proxyHeaderRuleError backendOk) = []
      /\ hc_statusCode
           (pt_httpClient
              (o_tools (fetched (proxyHeaderRuleError backendOk) (B "test") (B "/test/")
                          requestTest acquireTools).1)) = 200%Z
      /\ existsb isSetBytes
           (o_events (fetched (proxyHeaderRuleError backendOk) (B "test") (B "/test/")
                        requestTest acquireTools).1) = false
      /\ (fetched (proxyHeaderRuleError backendOk) (B "test") (B "/test/") requestTest
            acquireTools).2
         = Some ("Could not process headers rules: " +:+ SpecModel.notBool)).
Proof.
  repeat apply conj; try (apply fetchFromBackend_fetched); vm_compute; reflexivity.
Qed.

(** C3: the reply of [TestProxy_fetchFromBackend], case [StatusOk], which
    the store accepts. *)
Lemma fetchFromBackend_caches_iff_witness :
  (getBackend proxyOk = Some (backendOk, proxyOk)
   /\ @processHeaderRules X0
        (hc_do (X := X0)
           (backendRequest (request "POST" "test" "/test/") acquireTools (B "/test/"))
           backendOk).1
        (headersRules proxyOk) (pt_params acquireTools)
      = (reply proxyOk (request "POST" "test" "/test/") (B "/test/"), None, [])
   /\ @checkIfNoCache X0
        (hc_req (reply proxyOk (request "POST" "test" "/test/") (B "/test/")))
        (hc_resp (reply proxyOk (request "POST" "test" "/test/") (B "/test/")))
        (nocacheRules proxyOk) [] = (false, None, []))
  /\ exists o,
       fetchFromBackend proxyOk (B "test") (B "/test/") (request "POST" "test" "/test/")
         acquireTools = Some (o, None)
       /\ List.filter isSetBytes (o_events o) = [EvSetBytes (B "test") entryTest]
       /\ @GetBytes X0 (p_cache (o_proxy o)) (B "test") cache.AcquireEntry
          = (entryTest, None).
Proof.
  assert (H1 : getBackend proxyOk = Some (backendOk, proxyOk))
    by (apply (getBackend_one (X := X0) proxyOk backendOk []); vm_compute; reflexivity).
  assert (H2 : hc_do (X := X0)
                 (backendRequest (request "POST" "test" "/test/") acquireTools (B "/test/"))
                 backendOk
               = ((hc_do (X := X0)
                     (backendRequest (request "POST" "test" "/test/") acquireTools (B "/test/"))
                     backendOk).1, None))
    by (vm_compute; reflexivity).
  assert (H3 : @processHeaderRules X0
                 (hc_do (X := X0)
                    (backendRequest (request "POST" "test" "/test/") acquireTools (B "/test/"))
                    backendOk).1
                 (headersRules proxyOk) (pt_params acquireTools)
               = (reply proxyOk (request "POST" "test" "/test/") (B "/test/"), None, []))
    by (vm_compute; reflexivity).
  assert (H4 : @checkIfNoCache X0
                 (hc_req (reply proxyOk (request "POST" "test" "/test/") (B "/test/")))
                 (hc_resp (reply proxyOk (request "POST" "test" "/test/") (B "/test/")))
                 (nocacheRules proxyOk) [] = (false, None, []))
    by (vm_compute; reflexivity).
  split; [auto|].
  pose proof (fetchFromBackend_caches_iff (X := X0) proxyOk proxyOk (B "test") (B "/test/")
                (request "POST" "test" "/test/") acquireTools backendOk _ _ None None [] []
                false H1 H2 H3 H4) as C.
  cbv zeta in C. destruct C as (o & err & Hf & Hiff & Hset & _).
  assert (Hcall : existsb isSetBytes (o_events o) = true).
  { apply Hiff. repeat split; vm_compute; reflexivity. }
  destruct (Hset Hcall) as (Hev & Hc & Herr).
  assert (He : cache.SetResponse (pt_entry (X := X0) acquireTools)
                 (visitAllSetHeader
                    (fasthttp.respLines
                       (fasthttp.RespHeader
                          (hc_resp (reply proxyOk (request "POST" "test" "/test/")
                                      (B "/test/")))))
                    (cache.mkResponse (B "/test/")
                       (hc_body (reply proxyOk (request "POST" "test" "/test/")
                                   (B "/test/"))) []))
               = entryTest)
    by (vm_compute; reflexivity).
  rewrite He in Hev, Hc, Herr.
  assert (Hok : (@SetBytes X0 (p_cache proxyOk) (B "test") entryTest).2 = None)
    by (vm_compute; reflexivity).
  rewrite Hok in Herr. cbn in Herr. subst err.
  exists o. split; [exact Hf|]. split; [exact Hev|].
  rewrite Hc. vm_compute; reflexivity.
Defined.

(** C4: the reply of [TestProxy_fetchFromBackend], case [StatusRedirect]:
    status 301, a [Location] header and a body. *)
Lemma handler_redirect_passthrough_witness :
  (@checkIfNoCache X0 (fasthttp.CtxRequest requestKratgo) (fasthttp.CtxResponse requestKratgo)
     (nocacheRules (proxyRedirect 301)) acquireEvalParams = (false, None, [])
   /\ getBackend (proxyRedirect 301) = Some (backendRedirect 301, proxyRedirect 301)
   /\ @processHeaderRules X0
        (hc_do (X := X0)
           (backendRequest requestKratgo acquireTools (fasthttp.PathOriginal requestKratgo))
           (backendRedirect 301)).1
        (headersRules (proxyRedirect 301)) []
      = (reply (proxyRedirect 301) requestKratgo (B "/test/"), None, [])
   /\ 0 < length (respHeaderPeek (reply (proxyRedirect 301) requestKratgo (B "/test/"))
                    headerLocation))
  /\ exists o,
       handler (proxyRedirect 301) requestKratgo = Some o
       /\ fasthttp.StatusCode (fasthttp.CtxResponse (o_ctx o)) = 301%Z
       /\ fasthttp.Peek (fasthttp.respLines
                           (fasthttp.RespHeader (fasthttp.CtxResponse (o_ctx o))))
            (B "Location") = B "http://www.kratgo.com"
       /\ fasthttp.body (fasthttp.CtxResponse (o_ctx o)) = []
       /\ existsb isSetBytes (o_events o) = false
       /\ p_cache (o_proxy o) = p_cache (proxyRedirect 301).
Proof.
  assert (H1 : @checkIfNoCache X0 (fasthttp.CtxRequest requestKratgo)
                 (fasthttp.CtxResponse requestKratgo)
                 (nocacheRules (proxyRedirect 301)) acquireEvalParams = (false, None, []))
    by (vm_compute; reflexivity).
  assert (H2 : (None : option error) = None -> false = false ->
               (@GetBytes X0 (p_cache (proxyRedirect 301)) (fasthttp.CtxHost requestKratgo)
                  cache.AcquireEntry).2 = None ->
               cache.GetResponse
                 (@GetBytes X0 (p_cache (proxyRedirect 301)) (fasthttp.CtxHost requestKratgo)
                    cache.AcquireEntry).1 (fasthttp.PathOriginal requestKratgo) = None)
    by (intros _ _ _; vm_compute; reflexivity).
  assert (H3 : getBackend (proxyRedirect 301)
               = Some (backendRedirect 301, proxyRedirect 301))
    by (apply (getBackend_one (X := X0) (proxyRedirect 301) (backendRedirect 301) []);
        vm_compute; reflexivity).
  assert (H4 : hc_do (X := X0)
                 (backendRequest requestKratgo acquireTools
                    (fasthttp.PathOriginal requestKratgo)) (backendRedirect 301)
               = ((hc_do (X := X0)
                     (backendRequest requestKratgo acquireTools
                        (fasthttp.PathOriginal requestKratgo)) (backendRedirect 301)).1,
                  None))
    by (vm_compute; reflexivity).
  assert (H5 : @processHeaderRules X0
                 (hc_do (X := X0)
                    (backendRequest requestKratgo acquireTools
                       (fasthttp.PathOriginal requestKratgo)) (backendRedirect 301)).1
                 (headersRules (proxyRedirect 301)) []
               = (reply (proxyRedirect 301) requestKratgo (B "/test/"), None, []))
    by (vm_compute; reflexivity).
  assert (H6 : 0 < length (respHeaderPeek (reply (proxyRedirect 301) requestKratgo (B "/test/"))
                             headerLocation))
    by (vm_compute; lia).
  split; [auto|].
  destruct (handler_redirect_passthrough (X := X0) (proxyRedirect 301) (proxyRedirect 301)
              requestKratgo (backendRedirect 301) _ _ false None [] [] H1 H2 H3 H4 H5 H6)
    as (o & Ho & Hh & Hs & Hb & Hn & Hc & _).
  exists o. split; [exact Ho|].
  split; [rewrite Hs; vm_compute; reflexivity|].
  split; [rewrite Hh; vm_compute; reflexivity|].
  split; [rewrite Hb; vm_compute; reflexivity|].
  split; assumption.
Defined.

(** C4: three replies with a [Location] header.  The first, of status
    301, has a body, and the client gets none of it, where the claim has
    the reply passed as it is.  The second, of status 200, meets a header
    rule that unsets [Location]: the no-cache rules are evaluated on it and
    it is written to the cache, where the claim has neither.  For the
    third, of status 301, the header rules fail: the client gets the answer
    500 and not the reply. *)
Lemma handler_redirect_counterexample :
  (handler (proxyRedirect 301) requestKratgo = Some (outcome (proxyRedirect 301) requestKratgo)
   /\ respHeaderPeek (pt_httpClient (o_tools (outcome (proxyRedirect 301) requestKratgo)))
        headerLocation = B "http://www.kratgo.com"
   /\ hc_body (pt_httpClient (o_tools (outcome (proxyRedirect 301) requestKratgo)))
      = B "Test Body"
   /\ fasthttp.body (fasthttp.CtxResponse (o_ctx (outcome (proxyRedirect 301) requestKratgo)))
      = []
   /\ fasthttp.body (fasthttp.CtxResponse (o_ctx (outcome (proxyRedirect 301) requestKratgo)))
      <> hc_body (pt_httpClient (o_tools (outcome (proxyRedirect 301) requestKratgo))))
  /\ (respHeaderPeek
        (hc_do (X := X0)
           (backendRequest requestKratgo acquireTools (fasthttp.PathOriginal requestKratgo))
           (backendRedirect 200)).1 headerLocation = B "http://www.kratgo.com"
      /\ handler proxyUnsetLocation requestKratgo
         = Some (outcome proxyUnsetLocation requestKratgo)
      /\ existsb isSetBytes (o_events (outcome proxyUnsetLocation requestKratgo)) = true
      /\ List.filter isCheckIfNoCache (o_events (outcome proxyUnsetLocation requestKratgo))
         = [EvCheckIfNoCache (fasthttp.CtxRequest requestKratgo)
              (fasthttp.CtxResponse requestKratgo);
            EvCheckIfNoCache
              (hc_req (pt_httpClient (o_tools (outcome proxyUnsetLocation requestKratgo))))
              (hc_resp (pt_httpClient (o_tools (outcome proxyUnsetLocation requestKratgo))))]
      /\ @GetBytes X0 (p_cache proxyUnsetLocation) (B "www.kratgo.com") cache.AcquireEntry
         = (cache.AcquireEntry, None)
      /\ (@GetBytes X0 (p_cache (o_proxy (outcome proxyUnsetLocation requestKratgo)))
            (B "www.kratgo.com") cache.AcquireEntry).1 <> cache.AcquireEntry)
  /\ (handler (proxyHeaderRuleError (backendRedirect 301)) requestKratgo
      = Some (outcome (proxyHeaderRuleError (backendRedirect 301)) requestKratgo)
      /\ respHeaderPeek
           (pt_httpClient
              (o_tools (outcome (proxyHeaderRuleError (backendRedirect 301)) requestKratgo)))
           headerLocation = B "http://www.kratgo.com"
      /\ fasthttp.StatusCode
           (fasthttp.CtxResponse
              (o_ctx (outcome (proxyHeaderRuleError (backendRedirect 301)) requestKratgo)))
         = 500%Z
      /\ fasthttp.Peek
           (fasthttp.respLines
              (fasthttp.RespHeader
                 (fasthttp.CtxResponse
                    (o_ctx (outcome (proxyHeaderRuleError (backendRedirect 301))
                              requestKratgo)))))
           (B "Location") = []).
Proof.
  split; [|split].
  - split; [apply handler_outcome; vm_compute; reflexivity|].
    repeat split; try (vm_compute; reflexivity). vm_compute. discriminate.
  - split; [vm_compute; reflexivity|].
    split; [apply handler_outcome; vm_compute; reflexivity|].
    repeat split; try (vm_compute; reflexivity). vm_compute. discriminate.
  - split; [apply handler_outcome; vm_compute; reflexivity|].
    repeat split; vm_compute; reflexivity.
Qed.

(** C5: the four backends of [testConfig], the cursor where [New] leaves it. *)
Lemma getBackend_round_robin_witness :
  (totalBackends proxy4 = Z.of_nat (length (backends proxy4))
   /\ (0 <= currentBackend proxy4)%Z /\ (1 < totalBackends proxy4)%Z)
  /\ exists bs p',
       getBackends (length (backends proxy4)) proxy4 = Some (bs, p')
       /\ Permutation bs (backends proxy4)
       /\ backends p' = backends proxy4
       /\ totalBackends p' = totalBackends proxy4
       /\ (0 <= currentBackend p')%Z.
Proof.
  assert (H1 : totalBackends proxy4 = Z.of_nat (length (backends proxy4)))
    by (vm_compute; reflexivity).
  assert (H2 : (0 <= currentBackend proxy4)%Z) by (vm_compute; discriminate).
  assert (H3 : (1 < totalBackends proxy4)%Z) by (vm_compute; reflexivity).
  split; [auto|].
  exact (proj2 (getBackend_round_robin (X := X0) proxy4 H1 H2) H3).
Defined.

(** C6: the cache holds a response for the path of the request. *)
Lemma handler_hit_iff_witness :
  (@checkIfNoCache X0
     (fasthttp.CtxRequest (request "GET" "www.kratgo.com" "/test/"))
     (fasthttp.CtxResponse (request "GET" "www.kratgo.com" "/test/"))
     (nocacheRules (proxyCached "www.kratgo.com" "/test/")) acquireEvalParams
   = (false, None, [])
   /\ @GetBytes X0 (p_cache (proxyCached "www.kratgo.com" "/test/"))
        (fasthttp.CtxHost (request "GET" "www.kratgo.com" "/test/")) cache.AcquireEntry
      = (cache.SetResponse cache.AcquireEntry (cachedResponse "/test/"), None)
   /\ is_Some (getBackend (proxyCached "www.kratgo.com" "/test/")))
  /\ exists o,
       handler (proxyCached "www.kratgo.com" "/test/") (request "GET" "www.kratgo.com" "/test/")
       = Some o
       /\ existsb isDo (o_events o) = false
       /\ fasthttp.body (fasthttp.CtxResponse (o_ctx o)) = B "Cached Body".
Proof.
  assert (H1 : @checkIfNoCache X0
                 (fasthttp.CtxRequest (request "GET" "www.kratgo.com" "/test/"))
                 (fasthttp.CtxResponse (request "GET" "www.kratgo.com" "/test/"))
                 (nocacheRules (proxyCached "www.kratgo.com" "/test/")) acquireEvalParams
               = (false, None, []))
    by (vm_compute; reflexivity).
  assert (H2 : @GetBytes X0 (p_cache (proxyCached "www.kratgo.com" "/test/"))
                 (fasthttp.CtxHost (request "GET" "www.kratgo.com" "/test/"))
                 cache.AcquireEntry
               = (cache.SetResponse cache.AcquireEntry (cachedResponse "/test/"), None))
    by (vm_compute; reflexivity).
  assert (H3 : is_Some (getBackend (proxyCached "www.kratgo.com" "/test/"))).
  { exists (backendPlain, proxyCached "www.kratgo.com" "/test/").
    apply (getBackend_one (X := X0) _ backendPlain []); vm_compute; reflexivity. }
  split; [auto|].
  destruct (handler_hit_iff (X := X0) _ _ _ _ H1 H2 H3) as (o & Ho & Hiff & Hserved).
  assert (Hd : existsb isDo (o_events o) = false).
  { apply Hiff. exists (cachedResponse "/test/").
    split; [left; reflexivity | vm_compute; reflexivity]. }
  exists o. split; [exact Ho|]. split; [exact Hd|].
  destruct (Hserved Hd) as (_ & r & Hr & Hbody).
  rewrite Hbody.
  assert (Hr' : cache.GetResponse (cache.SetResponse cache.AcquireEntry (cachedResponse "/test/"))
                  (fasthttp.PathOriginal (request "GET" "www.kratgo.com" "/test/"))
                = Some (cachedResponse "/test/")) by (vm_compute; reflexivity).
  rewrite Hr' in Hr. inversion Hr. vm_compute; reflexivity.
Defined.

(** C10: the response served from the cache goes out with status 200. *)
Lemma handler_hit_status_witness :
  handler (proxyCached "www.kratgo.com" "/test/") (request "GET" "www.kratgo.com" "/test/")
  = Some (outcome (proxyCached "www.kratgo.com" "/test/")
            (request "GET" "www.kratgo.com" "/test/"))
  /\ existsb isDo
       (o_events (outcome (proxyCached "www.kratgo.com" "/test/")
                    (request "GET" "www.kratgo.com" "/test/"))) = false
  /\ fasthttp.StatusCode
       (fasthttp.CtxResponse
          (o_ctx (outcome (proxyCached "www.kratgo.com" "/test/")
                    (request "GET" "www.kratgo.com" "/test/"))))
     = fasthttp.StatusOK.
Proof.
  assert (H : handler (proxyCached "www.kratgo.com" "/test/")
                (request "GET" "www.kratgo.com" "/test/")
              = Some (outcome (proxyCached "www.kratgo.com" "/test/")
                        (request "GET" "www.kratgo.com" "/test/")))
    by (apply handler_outcome; vm_compute; reflexivity).
  assert (Hd : existsb isDo
                 (o_events (outcome (proxyCached "www.kratgo.com" "/test/")
                              (request "GET" "www.kratgo.com" "/test/"))) = false)
    by (vm_compute; reflexivity).
  split; [exact H|]. split; [exact Hd|].
  exact (proj1 (proj2 (proj1 (handler_hit_status (X := X0) _ _ _ H) Hd)) eq_refl).
Defined.

(** C7: the configuration of [TestProxy_New], case [ErrorNoBackendAddrs]. *)
Lemma New_accepts_no_backends_witness :
  New (X := X0) 16 0 (config.withBackendsAddrs (newConfig []) ["localhost:8881"; "localhost:8882"])
  = Some (Ok (newProxy (config.withBackendsAddrs (newConfig [])
                          ["localhost:8881"; "localhost:8882"])))
  /\ exists p0,
       New (X := X0) 16 0 (config.withBackendsAddrs (newConfig []) []) = Some (Ok p0)
       /\ backends p0 = [] /\ totalBackends p0 = 0%Z
       /\ getBackend p0 = None.
Proof.
  assert (H : New (X := X0) 16 0
                (config.withBackendsAddrs (newConfig []) ["localhost:8881"; "localhost:8882"])
              = Some (Ok (newProxy (config.withBackendsAddrs (newConfig [])
                                      ["localhost:8881"; "localhost:8882"]))))
    by (apply newProxy_accepted; vm_compute; reflexivity).
  split; [exact H|].
  exact (New_accepts_no_backends (X := X0) 16 0 (newConfig []) _ _ H).
Defined.

(** C7, the run: [New] on the configuration without backend address
    returns a proxy and no error. *)
Example New_no_backends_returns_proxy :
  New (X := X0) 16 0 (newConfig []) = Some (Ok (newProxy (newConfig [])))
  /\ totalBackends (newProxy (newConfig [])) = 0%Z
  /\ length (nocacheRules (newProxy (newConfig []))) = 1
  /\ length (headersRules (newProxy (newConfig []))) = 2.
Proof.
  split; [apply newProxy_accepted; vm_compute; reflexivity|].
  repeat split; vm_compute; reflexivity.
Qed.




(** C8, the runs: an entry with host and path is accepted and queued, an
    entry without host is rejected with 400. *)
Example invalidateView_accepts_and_rejects :
  invalidateView (A := SpecModel.adminExternals) admin2 (post bodyHostPath)
  = (mkAdmin (SpecModel.mkInvalidator 2
                [invalidator.mkEntry "www.kratgo.com" "/test/"
                   (invalidator.mkEntryHeader EmptyString EmptyString)]),
     (TextResponse (post bodyHostPath) "OK" None).1, None)
  /\ invalidateView (A := SpecModel.adminExternals) admin2 (post "{}")
     = (admin2, (TextResponse (post "{}") "the entry has no host" (Some 400%Z)).1, None).
Proof. split; reflexivity. Qed.

(** C9, the run: the entry of [TestProxy_saveBackendResponse] written to
    the store and read back. *)
Example codec_round_trip_run :
  SpecModel.GetBytes
    (SpecModel.SetBytes (p_cache proxyOk) (B "test")
       (cache.SetResponse cache.AcquireEntry
          (visitAllSetHeader
             [(B "X-Data", B "1"); (B "X-Data-2", B "2"); (B "X-Data-3", B "3")]
             (cache.mkResponse (B "/test/") (B "Test Body") [])))).1
    (B "test") cache.AcquireEntry
  = (cache.SetResponse cache.AcquireEntry
       (visitAllSetHeader
          [(B "X-Data", B "1"); (B "X-Data-2", B "2"); (B "X-Data-3", B "3")]
          (cache.mkResponse (B "/test/") (B "Test Body") [])), None).
Proof. vm_compute; reflexivity. Qed.

End Scenarios.

(** ** The further properties on the fixtures of the tests *)

Section MoreScenarios.

Import Scenario.

Local Abbreviation X0 := SpecModel.externals.

Lemma proxy4_wellFormed : wellFormed proxy4.
Proof. split; vm_compute; [reflexivity | discriminate]. Qed.

Lemma getBackends_whole_cycles_witness :
  (totalBackends proxy4 = Z.of_nat (length (backends proxy4))
   /\ (1 < totalBackends proxy4)%Z
   /\ (0 <= currentBackend proxy4 < totalBackends proxy4)%Z)
  /\ getBackends (2 * length (backends proxy4)) proxy4
     = Some (concat (replicate 2 (rotate (S (Z.to_nat (currentBackend proxy4)))
                                    (backends proxy4))), proxy4).
Proof.
  assert (H1 : totalBackends proxy4 = Z.of_nat (length (backends proxy4)))
    by (vm_compute; reflexivity).
  assert (H2 : (1 < totalBackends proxy4)%Z) by (vm_compute; reflexivity).
  assert (H3 : (0 <= currentBackend proxy4 < totalBackends proxy4)%Z)
    by (split; vm_compute; [discriminate | reflexivity]).
  split; [auto|].
  exact (proj1 (getBackends_whole_cycles (X := X0) proxy4 2 H1 H2 H3)).
Defined.

Lemma getBackend_panics_iff_no_backend_witness :
  wellFormed (newProxy (newConfig [])) /\ getBackend (newProxy (newConfig [])) = None.
Proof.
  assert (Hw : wellFormed (newProxy (newConfig [])))
    by (split; vm_compute; [reflexivity | discriminate]).
  split; [exact Hw|].
  apply (proj2 (getBackend_panics_iff_no_backend (X := X0) _ Hw)).
  vm_compute; reflexivity.
Defined.

Lemma newEvaluableExpression_compiles_token_free_text_witness :
  newEvaluableExpression (X := X0) 8 0 "$(host) == 'localhost'"
  = Some (Ok (SpecModel.EEq (SpecModel.EVar "V_host") (SpecModel.EStr "localhost"),
              [mkRuleParam "V_host" EmptyString]), 0)
  /\ exists text,
       @MatchString X0 text = false
       /\ @NewEvaluableExpression X0 text
          = Ok (SpecModel.EEq (SpecModel.EVar "V_host") (SpecModel.EStr "localhost")).
Proof.
  assert (H : newEvaluableExpression (X := X0) 8 0 "$(host) == 'localhost'"
              = Some (Ok (SpecModel.EEq (SpecModel.EVar "V_host")
                            (SpecModel.EStr "localhost"),
                          [mkRuleParam "V_host" EmptyString]), 0))
    by (vm_compute; reflexivity).
  split; [exact H|].
  destruct (newEvaluableExpression_compiles_token_free_text (X := X0) _ _ _ _ _ _ H)
    as (text & Ht & Hn & _).
  exists text. split; assumption.
Defined.

Lemma newEvaluableExpression_errors_witness :
  newEvaluableExpression (X := X0) 8 0 "$(foo) == 'a'"
  = Some (Error "Invalid condition: $(foo) == 'a'", 0)
  /\ ((exists text g0, @MatchString X0 text = true
         /\ @ParseConfigKeys X0 g0 text = (EmptyString, EmptyString, EmptyString, 0)
         /\ "Invalid condition: $(foo) == 'a'" = "Invalid condition: " +:+ text)
      \/ (exists text, @MatchString X0 text = false
            /\ @NewEvaluableExpression X0 text = Error "Invalid condition: $(foo) == 'a'")).
Proof.
  assert (H : newEvaluableExpression (X := X0) 8 0 "$(foo) == 'a'"
              = Some (Error "Invalid condition: $(foo) == 'a'", 0))
    by (vm_compute; reflexivity).
  split; [exact H|].
  exact (newEvaluableExpression_errors (X := X0) _ _ _ _ _ H).
Defined.

Lemma newEvaluableExpression_two_tokens_witness :
  (@MatchString X0 ruleCombo = true
   /\ @ParseConfigKeys X0 0 ruleCombo = ("$(path)", "V_path", EmptyString, 0)
   /\ @ParseConfigKeys X0 0 "V_path == '/kratgo' && $(method) != 'GET'"
      = ("$(method)", "V_method", EmptyString, 0))
  /\ newEvaluableExpression (X := X0) 8 0 ruleCombo
     = Some (match @NewEvaluableExpression X0 "V_path == '/kratgo' && V_method != 'GET'" with
             | Ok expr => Ok (expr, [mkRuleParam "V_path" EmptyString;
                                     mkRuleParam "V_method" EmptyString])
             | Error e => Error e
             end, 0).
Proof.
  split; [repeat split; vm_compute; reflexivity|].
  apply (newEvaluableExpression_two_tokens (X := X0) 5 0 0 0
           EmptyString " == '/kratgo' && " " != 'GET'" "(path)" "(method)"
           "V_path" EmptyString "V_method" EmptyString);
    vm_compute; reflexivity.
Defined.

Lemma parseNocacheRules_one_rule_each_witness :
  exists p' g',
    parseNocacheRules (X := X0) 16 0 proxyTwoRules = Some (p', None, g')
    /\ length (nocacheRules p') = 2.
Proof.
  assert (Hc : endedNil (parseNocacheRules (X := X0) 16 0 proxyTwoRules) = true)
    by (vm_compute; reflexivity).
  destruct (parseNocacheRules (X := X0) 16 0 proxyTwoRules) as [[[p' [e|]] g']|] eqn:H;
    try discriminate Hc.
  exists p', g'. split; [reflexivity|].
  destruct (parseNocacheRules_one_rule_each (X := X0) _ _ _ _ _ H) as (done & _ & _ & Hlen).
  rewrite Hlen. vm_compute; reflexivity.
Defined.

Lemma parseNocacheRules_first_error_witness :
  exists p' e g',
    parseNocacheRules (X := X0) 16 0 proxyBadRule = Some (p', Some e, g')
    /\ exists pre s post e0,
         config.Nocache (config.CfgProxy (cfg proxyBadRule)) = pre ++ s :: post
         /\ e = "Could not get the evaluable expression for rule '" +:+ s +:+ "': " +:+ e0.
Proof.
  assert (Hc : endedError (parseNocacheRules (X := X0) 16 0 proxyBadRule) = true)
    by (vm_compute; reflexivity).
  destruct (parseNocacheRules (X := X0) 16 0 proxyBadRule) as [[[p' [e|]] g']|] eqn:H;
    try discriminate Hc.
  exists p', e, g'. split; [reflexivity|].
  destruct (parseNocacheRules_first_error (X := X0) _ _ _ _ _ _ H)
    as (pre & s & post & e0 & g1 & done & Hr & _ & _ & He & _).
  exists pre, s, post, e0. split; assumption.
Defined.

Lemma parseHeadersRules_one_rule_each_witness :
  exists p' g',
    parseHeadersRules (X := X0) 16 0 proxyTwoRules setHeaderAction headersToSet
    = Some (p', None, g')
    /\ exists done,
         p' = with_headersRules proxyTwoRules (headersRules proxyTwoRules ++ done)
         /\ Forall2 (headerRuleFrom 16 setHeaderAction) headersToSet done.
Proof.
  assert (Hc : endedNil (parseHeadersRules (X := X0) 16 0 proxyTwoRules setHeaderAction
                           headersToSet) = true)
    by (vm_compute; reflexivity).
  destruct (parseHeadersRules (X := X0) 16 0 proxyTwoRules setHeaderAction headersToSet)
    as [[[p' [e|]] g']|] eqn:H; try discriminate Hc.
  exists p', g'. split; [reflexivity|].
  exact (parseHeadersRules_one_rule_each (X := X0) _ _ _ _ _ _ _ H).
Defined.

Lemma New_proxy_witness :
  New (X := X0) 16 0 (newConfig ["localhost:9990"; "localhost:9991"])
  = Some (Ok (newProxy (newConfig ["localhost:9990"; "localhost:9991"])))
  /\ wellFormed (newProxy (newConfig ["localhost:9990"; "localhost:9991"]))
  /\ backends (newProxy (newConfig ["localhost:9990"; "localhost:9991"]))
     = map HostClient
         (config.BackendsAddrs
            (config.CfgProxy (newConfig ["localhost:9990"; "localhost:9991"]))).
Proof.
  assert (H : New (X := X0) 16 0 (newConfig ["localhost:9990"; "localhost:9991"])
              = Some (Ok (newProxy (newConfig ["localhost:9990"; "localhost:9991"]))))
    by (apply newProxy_accepted; vm_compute; reflexivity).
  split; [exact H|].
  destruct (New_proxy (X := X0) _ _ _ _ H) as (Hw & _ & Hb & _).
  split; assumption.
Defined.

Lemma New_rules_witness :
  New (X := X0) 16 0 (newConfig ["localhost:9990"])
  = Some (Ok (newProxy (newConfig ["localhost:9990"])))
  /\ Forall2 (compiledFrom 16)
       (config.Nocache (config.CfgProxy (newConfig ["localhost:9990"])))
       (nocacheRules (newProxy (newConfig ["localhost:9990"]))).
Proof.
  assert (H : New (X := X0) 16 0 (newConfig ["localhost:9990"])
              = Some (Ok (newProxy (newConfig ["localhost:9990"]))))
    by (apply newProxy_accepted; vm_compute; reflexivity).
  split; [exact H|].
  exact (proj1 (New_rules (X := X0) _ _ _ _ H)).
Defined.

Lemma New_errors_witness :
  exists e,
    New (X := X0) 16 0 badRuleConfig = Some (Error e)
    /\ (@getLogOutput X0 (config.LogOutput badRuleConfig) = Error e
        \/ (config.CleanFrequency (config.CfgCache badRuleConfig) = 0%Z
            /\ e = "Cache.CleanFrequency configuration must be greater than 0")
        \/ (exists cc, @cache_New X0 cc = Error e)
        \/ (exists s e0,
              (In s (config.Nocache (config.CfgProxy badRuleConfig))
               \/ exists h,
                    In h (config.Set_ (config.ResponseHeaders (config.CfgProxy badRuleConfig))
                          ++ config.Unset
                               (config.ResponseHeaders (config.CfgProxy badRuleConfig)))
                    /\ config.When h = s /\ s <> EmptyString)
              /\ e = "Could not get the evaluable expression for rule '" +:+ s
                     +:+ "': " +:+ e0)).
Proof.
  assert (Hc : refused (New (X := X0) 16 0 badRuleConfig) = true)
    by (vm_compute; reflexivity).
  destruct (New (X := X0) 16 0 badRuleConfig) as [[p|e]|] eqn:H; try discriminate Hc.
  exists e. split; [reflexivity|].
  exact (New_errors (X := X0) _ _ _ _ H).
Defined.

Lemma New_cache_durations_witness :
  (New (X := X0) 16 0 (newConfig ["localhost:9990"])
   = Some (Ok (newProxy (newConfig ["localhost:9990"])))
   /\ config.TTL (config.CfgCache (newConfig ["localhost:9990"])) = 10%Z
   /\ config.CleanFrequency (config.CfgCache (newConfig ["localhost:9990"])) = 5%Z)
  /\ exists c,
       cache.TTL c = 600000000000%Z /\ cache.CleanFrequency c = 300000000000%Z
       /\ @cache_New X0 c = Ok (p_cache (newProxy (newConfig ["localhost:9990"]))).
Proof.
  assert (H : New (X := X0) 16 0 (newConfig ["localhost:9990"])
              = Some (Ok (newProxy (newConfig ["localhost:9990"]))))
    by (apply newProxy_accepted; vm_compute; reflexivity).
  split; [split; [exact H | split; vm_compute; reflexivity]|].
  destruct (New_cache_durations (X := X0) _ _ _ _ H) as (lo & Hst);
    [cbn; lia | cbn; lia |].
  eexists. split; [|split; [|exact Hst]]; reflexivity.
Defined.

Lemma fetchFromBackend_errors_witness :
  exists o e,
    fetchFromBackend proxyDown (B "test") (B "/test/") requestTest acquireTools
    = Some (o, Some e)
    /\ ((exists req m,
           o_events o = [EvDo req]
           /\ e = "Could not fetch response from backend: " +:+ m
           /\ o_ctx o = requestTest /\ p_cache (o_proxy o) = p_cache proxyDown)
        \/ (exists req m,
              o_events o = [EvDo req; EvProcessHeaderRules]
              /\ e = "Could not process headers rules: " +:+ m
              /\ o_ctx o = requestTest /\ p_cache (o_proxy o) = p_cache proxyDown)
        \/ (exists req rq rs b ps ps',
              o_events o = [EvDo req; EvProcessHeaderRules; EvCheckIfNoCache rq rs]
              /\ @checkIfNoCache X0 rq rs (nocacheRules proxyDown) ps = (b, Some e, ps')
              /\ fasthttp.body (fasthttp.CtxResponse (o_ctx o))
                 = fasthttp.body (fasthttp.CtxResponse requestTest)
              /\ p_cache (o_proxy o) = p_cache proxyDown)
        \/ (exists req rq rs entry m,
              o_events o = [EvDo req; EvProcessHeaderRules; EvCheckIfNoCache rq rs;
                            EvSetBytes (B "test") entry]
              /\ @SetBytes X0 (p_cache proxyDown) (B "test") entry
                 = (p_cache (o_proxy o), Some m)
              /\ e = "Could not save response in cache for key '" +:+ S2 (B "test")
                     +:+ "': " +:+ m
              /\ fasthttp.body (fasthttp.CtxResponse (o_ctx o))
                 = hc_body (pt_httpClient (o_tools o)))).
Proof.
  assert (Hc : returnedError (fetchFromBackend (X := X0) proxyDown (B "test") (B "/test/")
                                requestTest acquireTools) = true)
    by (vm_compute; reflexivity).
  destruct (fetchFromBackend (X := X0) proxyDown (B "test") (B "/test/") requestTest
              acquireTools) as [[o [e|]]|] eqn:H; try discriminate Hc.
  exists o, e. split; [reflexivity|].
  exact (fetchFromBackend_errors (X := X0) _ _ _ _ _ _ _ H).
Defined.

Lemma fetchFromBackend_passes_reply_witness :
  (getBackend proxyNotFound = Some (backendNotFound, proxyNotFound)
   /\ length (respHeaderPeek (reply proxyNotFound requestTest (B "/test/")) headerLocation) = 0
   /\ @checkIfNoCache X0
        (hc_req (reply proxyNotFound requestTest (B "/test/")))
        (hc_resp (reply proxyNotFound requestTest (B "/test/")))
        (nocacheRules proxyNotFound) [] = (false, None, []))
  /\ exists o err,
       fetchFromBackend proxyNotFound (B "test") (B "/test/") requestTest acquireTools
       = Some (o, err)
       /\ fasthttp.StatusCode (fasthttp.CtxResponse (o_ctx o)) = 404%Z
       /\ fasthttp.body (fasthttp.CtxResponse (o_ctx o)) = B "Not Found".
Proof.
  assert (H1 : getBackend proxyNotFound = Some (backendNotFound, proxyNotFound))
    by (apply (getBackend_one (X := X0) proxyNotFound backendNotFound []);
        vm_compute; reflexivity).
  assert (H2 : hc_do (X := X0) (backendRequest requestTest acquireTools (B "/test/"))
                 backendNotFound
               = ((hc_do (X := X0) (backendRequest requestTest acquireTools (B "/test/"))
                     backendNotFound).1, None))
    by (vm_compute; reflexivity).
  assert (H3 : @processHeaderRules X0
                 (hc_do (X := X0) (backendRequest requestTest acquireTools (B "/test/"))
                    backendNotFound).1
                 (headersRules proxyNotFound) (pt_params acquireTools)
               = (reply proxyNotFound requestTest (B "/test/"), None, []))
    by (vm_compute; reflexivity).
  assert (H4 : length (respHeaderPeek (reply proxyNotFound requestTest (B "/test/"))
                         headerLocation) = 0)
    by (vm_compute; reflexivity).
  assert (H5 : @checkIfNoCache X0
                 (hc_req (reply proxyNotFound requestTest (B "/test/")))
                 (hc_resp (reply proxyNotFound requestTest (B "/test/")))
                 (nocacheRules proxyNotFound) [] = (false, None, []))
    by (vm_compute; reflexivity).
  split; [auto|].
  destruct (fetchFromBackend_passes_reply (X := X0) proxyNotFound proxyNotFound (B "test")
              (B "/test/") requestTest acquireTools backendNotFound _ _ [] [] false
              H1 H2 H3 H4 H5) as (o & err & Hf & Hs & Hb & _).
  exists o, err. split; [exact Hf|]. rewrite Hs, Hb.
  split; vm_compute; reflexivity.
Defined.

Lemma fetchFromBackend_location_keeps_body_witness :
  (getBackend (proxyRedirect 301) = Some (backendRedirect 301, proxyRedirect 301)
   /\ 0 < length (respHeaderPeek (reply (proxyRedirect 301) requestTest (B "/test/"))
                    headerLocation))
  /\ exists o,
       fetchFromBackend (proxyRedirect 301) (B "test") (B "/test/") requestTest acquireTools
       = Some (o, None)
       /\ fasthttp.StatusCode (fasthttp.CtxResponse (o_ctx o)) = 301%Z
       /\ fasthttp.body (fasthttp.CtxResponse (o_ctx o)) = [].
Proof.
  assert (H1 : getBackend (proxyRedirect 301)
               = Some (backendRedirect 301, proxyRedirect 301))
    by (apply (getBackend_one (X := X0) (proxyRedirect 301) (backendRedirect 301) []);
        vm_compute; reflexivity).
  assert (H2 : hc_do (X := X0) (backendRequest requestTest acquireTools (B "/test/"))
                 (backendRedirect 301)
               = ((hc_do (X := X0) (backendRequest requestTest acquireTools (B "/test/"))
                     (backendRedirect 301)).1, None))
    by (vm_compute; reflexivity).
  assert (H3 : @processHeaderRules X0
                 (hc_do (X := X0) (backendRequest requestTest acquireTools (B "/test/"))
                    (backendRedirect 301)).1
                 (headersRules (proxyRedirect 301)) (pt_params acquireTools)
               = (reply (proxyRedirect 301) requestTest (B "/test/"), None, []))
    by (vm_compute; reflexivity).
  assert (H4 : 0 < length (respHeaderPeek (reply (proxyRedirect 301) requestTest (B "/test/"))
                             headerLocation))
    by (vm_compute; lia).
  split; [auto|].
  destruct (fetchFromBackend_location_keeps_body (X := X0) (proxyRedirect 301)
              (proxyRedirect 301) (B "test") (B "/test/") requestTest acquireTools
              (backendRedirect 301) _ _ [] H1 H2 H3 H4)
    as (o & Hf & _ & Hh & Hb & _).
  exists o. split; [exact Hf|]. unfold fasthttp.StatusCode. rewrite Hh, Hb.
  split; vm_compute; reflexivity.
Defined.

Lemma proxyOk_wellFormed : wellFormed proxyOk.
Proof. split; vm_compute; [reflexivity | discriminate]. Qed.

Lemma handler_proxyOk :
  handler proxyOk requestTest = Some (outcome proxyOk requestTest).
Proof. apply handler_outcome; vm_compute; reflexivity. Qed.

Lemma handler_proxyOk_write :
  In (EvSetBytes (B "test") entryTest) (o_events (outcome proxyOk requestTest)).
Proof. vm_compute. do 5 right. left. reflexivity. Qed.

Lemma handler_trace_witness :
  handler proxyOk requestTest = Some (outcome proxyOk requestTest)
  /\ exists read rest req rq rs e,
       o_events (outcome proxyOk requestTest)
       = EvCheckIfNoCache (fasthttp.CtxRequest requestTest) (fasthttp.CtxResponse requestTest)
         :: read ++ rest
       /\ (read = [] \/ read = [EvGetBytes (fasthttp.CtxHost requestTest)])
       /\ rest `prefix_of`
            [EvDo req; EvProcessHeaderRules; EvCheckIfNoCache rq rs;
             EvSetBytes (fasthttp.CtxHost requestTest) e].
Proof.
  split; [exact handler_proxyOk|].
  destruct (handler_trace (X := X0) _ _ _ handler_proxyOk)
    as (read & rest & req & rq & rs & e & H1 & H2 & H3 & _).
  exists read, rest, req, rq, rs, e. split; [exact H1|]. split; assumption.
Defined.

Lemma handler_frame_witness :
  handler proxyOk requestTest = Some (outcome proxyOk requestTest)
  /\ sameSetup proxyOk (o_proxy (outcome proxyOk requestTest))
  /\ wellFormed (o_proxy (outcome proxyOk requestTest)).
Proof.
  split; [exact handler_proxyOk|].
  destruct (handler_frame (X := X0) _ _ _ handler_proxyOk) as (Hs & Hw & _).
  split; [exact Hs | exact (Hw proxyOk_wellFormed)].
Defined.

Lemma handleAll_never_panics_witness :
  (wellFormed proxy4 /\ backends proxy4 <> [])
  /\ exists p' os,
       handleAll proxy4 threeRequests = Some (p', os)
       /\ length os = 3 /\ wellFormed p' /\ sameSetup proxy4 p'.
Proof.
  assert (Hne : backends proxy4 <> []).
  { intros E. apply (f_equal (@length fetcher)) in E. vm_compute in E. discriminate E. }
  split; [split; [exact proxy4_wellFormed | exact Hne]|].
  exact (handleAll_never_panics (X := X0) threeRequests proxy4 proxy4_wellFormed Hne).
Defined.

Lemma handler_caches_what_it_serves_witness :
  (handler proxyOk requestTest = Some (outcome proxyOk requestTest)
   /\ In (EvSetBytes (B "test") entryTest) (o_events (outcome proxyOk requestTest)))
  /\ exists r,
       cache.GetResponse entryTest (fasthttp.PathOriginal requestTest) = Some r
       /\ fasthttp.StatusCode (fasthttp.CtxResponse (o_ctx (outcome proxyOk requestTest)))
          = fasthttp.StatusOK
       /\ fasthttp.body (fasthttp.CtxResponse (o_ctx (outcome proxyOk requestTest)))
          = cache.Body r.
Proof.
  split; [split; [exact handler_proxyOk | exact handler_proxyOk_write]|].
  destruct (handler_caches_what_it_serves (X := X0) _ _ _ _ _ handler_proxyOk
              handler_proxyOk_write) as (_ & _ & r & Hr & _ & Hm).
  assert (Hok : (@SetBytes X0 (p_cache proxyOk) (B "test") entryTest).2 = None)
    by (vm_compute; reflexivity).
  rewrite Hok in Hm. destruct Hm as (Hs & Hb & _).
  exists r. split; [exact Hr|]. split; assumption.
Defined.

Lemma handler_backend_down_witness :
  getBackend proxyDown = Some (backendDown, proxyDown)
  /\ exists o,
       handler proxyDown requestTest = Some o
       /\ (existsb isDo (o_events o) = false
           \/ (o_ctx o
               = fasthttp.ctx_Error requestTest
                   ("Could not fetch response from backend: " +:+ "Error")
                   fasthttp.StatusInternalServerError
               /\ existsb isProcessHeaderRules (o_events o) = false
               /\ existsb isSetBytes (o_events o) = false
               /\ p_cache (o_proxy o) = p_cache proxyDown)).
Proof.
  assert (H1 : getBackend proxyDown = Some (backendDown, proxyDown))
    by (apply (getBackend_one (X := X0) proxyDown backendDown []); vm_compute; reflexivity).
  assert (H2 : hc_do (X := X0)
                 (backendRequest requestTest acquireTools (fasthttp.PathOriginal requestTest))
                 backendDown
               = ((hc_do (X := X0)
                     (backendRequest requestTest acquireTools
                        (fasthttp.PathOriginal requestTest)) backendDown).1,
                  Some "Error"))
    by (vm_compute; reflexivity).
  split; [exact H1|].
  exact (handler_backend_down (X := X0) _ _ _ _ _ _ H1 H2).
Defined.

Lemma handler_cache_error_reaches_backend_witness :
  (@checkIfNoCache X0
     (fasthttp.CtxRequest (request "GET" "www.kratgo.com" "/test/"))
     (fasthttp.CtxResponse (request "GET" "www.kratgo.com" "/test/"))
     (nocacheRules (proxyBadBlob "www.kratgo.com")) acquireEvalParams = (false, None, [])
   /\ @GetBytes X0 (p_cache (proxyBadBlob "www.kratgo.com"))
        (fasthttp.CtxHost (request "GET" "www.kratgo.com" "/test/")) cache.AcquireEntry
      = (cache.AcquireEntry, Some "could not decode the cached entry"))
  /\ exists o,
       handler (proxyBadBlob "www.kratgo.com") (request "GET" "www.kratgo.com" "/test/")
       = Some o
       /\ existsb isDo (o_events o) = true.
Proof.
  assert (H1 : @checkIfNoCache X0
                 (fasthttp.CtxRequest (request "GET" "www.kratgo.com" "/test/"))
                 (fasthttp.CtxResponse (request "GET" "www.kratgo.com" "/test/"))
                 (nocacheRules (proxyBadBlob "www.kratgo.com")) acquireEvalParams
               = (false, None, []))
    by (vm_compute; reflexivity).
  assert (H2 : @GetBytes X0 (p_cache (proxyBadBlob "www.kratgo.com"))
                 (fasthttp.CtxHost (request "GET" "www.kratgo.com" "/test/"))
                 cache.AcquireEntry
               = (cache.AcquireEntry, Some "could not decode the cached entry"))
    by (vm_compute; reflexivity).
  assert (H3 : is_Some (getBackend (proxyBadBlob "www.kratgo.com"))).
  { exists (backendOk, proxyBadBlob "www.kratgo.com").
    apply (getBackend_one (X := X0) _ backendOk []); vm_compute; reflexivity. }
  split; [auto|].
  exact (proj2 (handler_cache_error_reaches_backend (X := X0) _ _ _ _ _ H1 H2 H3)).
Defined.

Lemma handler_nocache_rule_skips_cache_witness :
  @checkIfNoCache X0
    (fasthttp.CtxRequest (request "GET" "www.kratgo.com" "/test/"))
    (fasthttp.CtxResponse (request "GET" "www.kratgo.com" "/test/"))
    (nocacheRules proxyNocache) acquireEvalParams
  = (true, None, [("V_host", "www.kratgo.com")])
  /\ exists o,
       handler proxyNocache (request "GET" "www.kratgo.com" "/test/") = Some o
       /\ existsb isGetBytes (o_events o) = false
       /\ existsb isDo (o_events o) = true.
Proof.
  assert (H1 : @checkIfNoCache X0
                 (fasthttp.CtxRequest (request "GET" "www.kratgo.com" "/test/"))
                 (fasthttp.CtxResponse (request "GET" "www.kratgo.com" "/test/"))
                 (nocacheRules proxyNocache) acquireEvalParams
               = (true, None, [("V_host", "www.kratgo.com")]))
    by (vm_compute; reflexivity).
  assert (H2 : is_Some (getBackend proxyNocache)).
  { exists (backendPlain, proxyNocache).
    apply (getBackend_one (X := X0) _ backendPlain []); vm_compute; reflexivity. }
  split; [exact H1|].
  destruct (handler_nocache_rule_skips_cache (X := X0) _ _ _ H1 H2)
    as (o & Ho & Hg & Hd & _).
  exists o. split; [exact Ho|]. split; assumption.
Defined.

Lemma handler_write_then_hit_witness :
  (handler proxyOk requestTest = Some (outcome proxyOk requestTest)
   /\ In (EvSetBytes (B "test") entryTest) (o_events (outcome proxyOk requestTest))
   /\ (@SetBytes X0 (p_cache proxyOk) (B "test") entryTest).2 = None
   /\ @checkIfNoCache X0 (fasthttp.CtxRequest requestTest) (fasthttp.CtxResponse requestTest)
        (nocacheRules proxyOk) acquireEvalParams = (false, None, [])
   /\ @GetBytes X0 (p_cache (o_proxy (outcome proxyOk requestTest)))
        (fasthttp.CtxHost requestTest) cache.AcquireEntry = (entryTest, None))
  /\ exists o2,
       handler (o_proxy (outcome proxyOk requestTest)) requestTest = Some o2
       /\ existsb isDo (o_events o2) = false
       /\ fasthttp.body (fasthttp.CtxResponse (o_ctx o2)) = B "Test Body".
Proof.
  assert (H3 : (@SetBytes X0 (p_cache proxyOk) (B "test") entryTest).2 = None)
    by (vm_compute; reflexivity).
  assert (H5 : @checkIfNoCache X0 (fasthttp.CtxRequest requestTest)
                 (fasthttp.CtxResponse requestTest) (nocacheRules proxyOk) acquireEvalParams
               = (false, None, []))
    by (vm_compute; reflexivity).
  assert (H6 : @GetBytes X0 (p_cache (o_proxy (outcome proxyOk requestTest)))
                 (fasthttp.CtxHost requestTest) cache.AcquireEntry = (entryTest, None))
    by (vm_compute; reflexivity).
  split; [repeat (split; [first [exact handler_proxyOk | exact handler_proxyOk_write
                                 | exact H3 | exact H5]|]); exact H6|].
  destruct (handler_write_then_hit (X := X0) proxyOk requestTest requestTest _ _ _ []
              handler_proxyOk handler_proxyOk_write H3 eq_refl H5 H6)
    as (o2 & Ho & Hd & Hb & _).
  exists o2. split; [exact Ho|]. split; [exact Hd|]. rewrite Hb.
  vm_compute; reflexivity.
Defined.

Lemma handleAll_cursor_witness :
  (wellFormed proxy4 /\ (1 < totalBackends proxy4)%Z
   /\ (currentBackend proxy4 < totalBackends proxy4)%Z
   /\ handleAll proxy4 threeRequests
      = Some ((handled proxy4 threeRequests).1, (handled proxy4 threeRequests).2))
  /\ currentBackend (handled proxy4 threeRequests).1
     = ((currentBackend proxy4
         + Z.of_nat (length (List.filter (fun o => existsb isDo (o_events o))
                               (handled proxy4 threeRequests).2)))
        mod totalBackends proxy4)%Z
  /\ currentBackend (handled proxy4 threeRequests).1 = 3%Z.
Proof.
  assert (H2 : (1 < totalBackends proxy4)%Z) by (vm_compute; reflexivity).
  assert (H3 : (currentBackend proxy4 < totalBackends proxy4)%Z) by (vm_compute; reflexivity).
  assert (H4 : handleAll proxy4 threeRequests
               = Some ((handled proxy4 threeRequests).1, (handled proxy4 threeRequests).2))
    by (apply handleAll_handled; vm_compute; reflexivity).
  split; [auto using proxy4_wellFormed|].
  split; [|vm_compute; reflexivity].
  exact (handleAll_cursor (X := X0) threeRequests proxy4 _ _ proxy4_wellFormed H2 H3 H4).
Defined.

End MoreScenarios.
